(** * x402 paywall: middleware and facilitator service

    A shallow embedding of [app/x402/types.py], [app/x402/middleware.py] and
    [app/facilitator/service.py], and the properties of the payment gateway
    stated over it.

    Python values that travel through the gateway are JSON values; the
    library calls the code makes (base64, JSON, the Aptos SDK, the clock,
    [requests.post], the downstream handler) are fields of an environment
    record, and the effects the code performs are recorded in a trace that
    is threaded through every call. *)

From Stdlib Require Import ZArith Lia Ascii String List Bool DecimalString.
From stdpp Require Import base option strings gmap.

Import ListNotations.
Set Warnings "-register-all".
Local Open Scope string_scope.
Local Open Scope Z_scope.

(** ** Python strings *)

Module PyStr.

Definition eqb_ascii (a b : ascii) : bool := Ascii.eqb a b.

(** [s.startswith(p)] *)
Fixpoint startswith (s p : string) {struct p} : bool :=
  match p, s with
  | EmptyString, _ => true
  | String _ _, EmptyString => false
  | String b p', String a s' => eqb_ascii a b && startswith s' p'
  end.

(** [p in s] for two strings *)
Fixpoint contains (s p : string) : bool :=
  startswith s p ||
  match s with
  | EmptyString => false
  | String _ s' => contains s' p
  end.

(** [s.endswith(p)] *)
Fixpoint endswith (s p : string) : bool :=
  String.eqb s p ||
  match s with
  | EmptyString => false
  | String _ s' => endswith s' p
  end.

(** [s.rstrip(c)] for a one-character set [c] *)
Fixpoint rstrip (c : ascii) (s : string) : string :=
  match s with
  | EmptyString => EmptyString
  | String a s' =>
      match rstrip c s' with
      | EmptyString => if eqb_ascii a c then EmptyString else String a EmptyString
      | r => String a r
      end
  end.

(** [s.split(c)[0]]: the text before the first [c] *)
Fixpoint split_head (c : ascii) (s : string) : string :=
  match s with
  | EmptyString => EmptyString
  | String a s' => if eqb_ascii a c then EmptyString else String a (split_head c s')
  end.

Definition map (f : ascii -> ascii) : string -> string :=
  fix go s := match s with
              | EmptyString => EmptyString
              | String a s' => String (f a) (go s')
              end.

Definition upper_ascii (a : ascii) : ascii :=
  let n := nat_of_ascii a in
  if (Nat.leb 97 n && Nat.leb n 122)%bool then ascii_of_nat (n - 32) else a.

Definition lower_ascii (a : ascii) : ascii :=
  let n := nat_of_ascii a in
  if (Nat.leb 65 n && Nat.leb n 90)%bool then ascii_of_nat (n + 32) else a.

(** [s.upper()] and [s.lower()], on ASCII text *)
Definition upper : string -> string := map upper_ascii.
Definition lower : string -> string := map lower_ascii.

(** [s[:n]] *)
Fixpoint take (n : nat) (s : string) : string :=
  match n, s with
  | O, _ => EmptyString
  | _, EmptyString => EmptyString
  | S n', String a s' => String a (take n' s')
  end.

(** [str(z)] for an integer *)
Definition of_Z (z : Z) : string := NilZero.string_of_int (Z.to_int z).

(** [s * n] *)
Fixpoint repeat (s : string) (n : nat) : string :=
  match n with
  | O => EmptyString
  | S n' => s +:+ repeat s n'
  end.

(** The white space [int()] drops around an ASCII literal. *)
Definition is_space (a : ascii) : bool :=
  let n := nat_of_ascii a in
  (Nat.eqb n 32 || (Nat.leb 9 n && Nat.leb n 13))%bool.

Fixpoint lstrip_space (s : string) : string :=
  match s with
  | String a s' => if is_space a then lstrip_space s' else s
  | EmptyString => EmptyString
  end.

Definition digit_of (a : ascii) : option Z :=
  let n := nat_of_ascii a in
  if (Nat.leb 48 n && Nat.leb n 57)%bool then Some (Z.of_nat (n - 48)) else None.

(** The run of digits at the head of a decimal literal, single
    underscores allowed between digits: the value read, the number of
    digits and the text that follows the run; [None] when an underscore
    is not between two digits. [after_digit] tells whether the previous
    character was a digit, [acc] is the value and [n] the number of
    digits read so far. *)
Fixpoint scan_digits (s : string) (after_digit : bool) (acc : Z) (n : nat)
  : option (Z * nat * string) :=
  match s with
  | EmptyString => Some (acc, n, EmptyString)
  | String a s' =>
      match digit_of a with
      | Some d => scan_digits s' true (10 * acc + d) (S n)
      | None =>
          if eqb_ascii a "_" then
            if after_digit then
              match s' with
              | String b _ =>
                  match digit_of b with
                  | Some _ => scan_digits s' false acc n
                  | None => None
                  end
              | EmptyString => None
              end
            else None
          else Some (acc, n, s)
      end
  end.

(** What [int(s)] makes of a text in base 10. *)
Inductive int_literal : Type :=
| IntValue (z : Z)
| IntTooLong (digits : nat)
| IntInvalid.

(** The most digits [int()] converts ([sys.get_int_max_str_digits()]). *)
Definition int_max_str_digits : nat := 4300.

(** [int(s)] in base 10, on ASCII text: leading white space is dropped,
    one sign is allowed, then come the digits; more digits than
    [int_max_str_digits] are refused before anything after them is
    looked at; only white space may follow. A character that is not
    ASCII cannot be given its Unicode meaning here (a digit or a space
    of another script) and is read as an invalid one. *)
Definition parse_int (s : string) : int_literal :=
  let unsigned (r : string) (negative : bool) :=
    match scan_digits r false 0 0 with
    | None => IntInvalid
    | Some (z, n, rest) =>
        if Nat.eqb n 0 then IntInvalid
        else if Nat.ltb int_max_str_digits n then IntTooLong n
        else
          match lstrip_space rest with
          | EmptyString => IntValue (if negative then Z.opp z else z)
          | _ => IntInvalid
          end
    end in
  match lstrip_space s with
  | String "-" r => unsigned r true
  | String "+" r => unsigned r false
  | r => unsigned r false
  end.

(** The value of [int(s)]; [None] stands for [ValueError]. *)
Definition to_Z (s : string) : option Z :=
  match parse_int s with
  | IntValue z => Some z
  | _ => None
  end.

Definition hex_digit (n : nat) : ascii :=
  if Nat.ltb n 10 then ascii_of_nat (48 + n) else ascii_of_nat (87 + n).

(** [b.hex()] for a byte string *)
Fixpoint hex (s : string) : string :=
  match s with
  | EmptyString => EmptyString
  | String a s' =>
      let n := nat_of_ascii a in
      String (hex_digit (Nat.div n 16)) (String (hex_digit (Nat.modulo n 16)) (hex s'))
  end.

(** [True] when every character is ASCII. *)
Fixpoint is_ascii (s : string) : bool :=
  match s with
  | EmptyString => true
  | String a s' => Nat.ltb (nat_of_ascii a) 128 && is_ascii s'
  end.

Definition quote1 : ascii := "'".
Definition quote2 : ascii := ascii_of_nat 34.
Definition backslash : ascii := ascii_of_nat 92.

(** One character of [repr(s)], inside the quotes [q]. *)
Definition repr_char (q a : ascii) : string :=
  let n := nat_of_ascii a in
  if (eqb_ascii a q || eqb_ascii a backslash)%bool then String backslash (String a EmptyString)
  else if Nat.eqb n 9 then String backslash "t"
  else if Nat.eqb n 10 then String backslash "n"
  else if Nat.eqb n 13 then String backslash "r"
  else if (Nat.ltb n 32 || Nat.eqb n 127)%bool then
    String backslash
      (String "x" (String (hex_digit (Nat.div n 16))
                     (String (hex_digit (Nat.modulo n 16)) EmptyString)))
  else String a EmptyString.

Fixpoint repr_chars (q : ascii) (s : string) : string :=
  match s with
  | EmptyString => EmptyString
  | String a s' => repr_char q a +:+ repr_chars q s'
  end.

(** [repr(s)], on ASCII text: single quotes, or double quotes when the
    text holds a single quote and no double quote; the quote character,
    the backslash and the control characters are escaped. *)
Definition repr (s : string) : string :=
  let q := if (contains s (String quote1 EmptyString)
               && negb (contains s (String quote2 EmptyString)))%bool
           then quote2 else quote1 in
  String q (repr_chars q s) +:+ String q EmptyString.

(** [str(n)] for a natural number *)
Definition of_nat (n : nat) : string := NilZero.string_of_uint (Nat.to_uint n).

End PyStr.

(** ** Python values and exceptions *)

(** The values [json.loads] produces and [JSONResponse] renders.  Floats
    are left out: no field the gateway reads is one. *)
Inductive json : Type :=
| JNull
| JBool (b : bool)
| JInt (z : Z)
| JStr (s : string)
| JList (l : list json)
| JDict (d : list (string * json)).

(** The exception classes the [except] clauses of the gateway tell apart.
    [RequestsJSONDecodeError] is what [response.json()] raises: it derives
    from both [RequestException] and [ValueError]. *)
Inductive exn_class : Type :=
| ValueError
| AttributeError
| TypeError
| KeyError
| RequestException
| RequestsJSONDecodeError
| OtherException.

(** An exception: its class and [str(e)]. *)
Record exn : Type := Exn { exn_cls : exn_class; exn_msg : string }.

Definition is_ValueError (e : exn) : bool :=
  match exn_cls e with
  | ValueError | RequestsJSONDecodeError => true
  | _ => false
  end.

Definition is_RequestException (e : exn) : bool :=
  match exn_cls e with
  | RequestException | RequestsJSONDecodeError => true
  | _ => false
  end.

Inductive result (A : Type) : Type :=
| Ok (a : A)
| Raise (e : exn).
Arguments Ok {A} a.
Arguments Raise {A} e.

Module Py.

Definition type_name (v : json) : string :=
  match v with
  | JNull => "NoneType"
  | JBool _ => "bool"
  | JInt _ => "int"
  | JStr _ => "str"
  | JList _ => "list"
  | JDict _ => "dict"
  end.

(** [bool(v)] *)
Definition truthy (v : json) : bool :=
  match v with
  | JNull => false
  | JBool b => b
  | JInt z => negb (z =? 0)
  | JStr s => negb (String.eqb s "")
  | JList l => match l with [] => false | _ => true end
  | JDict d => match d with [] => false | _ => true end
  end.

(** [a or b] *)
Definition or_ (a b : json) : json := if truthy a then a else b.

(** Lookup in a dict held as an association list. *)
Fixpoint assoc (d : list (string * json)) (k : string) : option json :=
  match d with
  | [] => None
  | (k', v) :: d' => if String.eqb k' k then Some v else assoc d' k
  end.

Definition no_attribute (v : json) (attr : string) : exn :=
  Exn AttributeError ("'" +:+ type_name v +:+ "' object has no attribute '" +:+ attr +:+ "'").

(** [v.get(k, default)] *)
Definition get (v : json) (k : string) (default : json) : result json :=
  match v with
  | JDict d => Ok (match assoc d k with Some x => x | None => default end)
  | _ => Raise (no_attribute v "get")
  end.

(** [v.keys()] *)
Definition keys (v : json) : result (list string) :=
  match v with
  | JDict d => Ok (List.map fst d)
  | _ => Raise (no_attribute v "keys")
  end.

(** [k in v] for a string [k] *)
Definition contains (k : string) (v : json) : result bool :=
  match v with
  | JDict d => Ok (match assoc d k with Some _ => true | None => false end)
  | JList l => Ok (existsb (fun x => match x with JStr s => String.eqb s k | _ => false end) l)
  | JStr s => Ok (PyStr.contains s k)
  | _ => Raise (Exn TypeError ("argument of type '" +:+ type_name v +:+ "' is not iterable"))
  end.

(** [v[k]] for a string [k] *)
Definition getitem (v : json) (k : string) : result json :=
  match v with
  | JDict d =>
      match assoc d k with
      | Some x => Ok x
      | None => Raise (Exn KeyError ("'" +:+ k +:+ "'"))
      end
  | JList _ => Raise (Exn TypeError "list indices must be integers or slices, not str")
  | JStr _ => Raise (Exn TypeError "string indices must be integers, not 'str'")
  | _ => Raise (Exn TypeError ("'" +:+ type_name v +:+ "' object is not subscriptable"))
  end.

(** [len(v)] *)
Definition len (v : json) : result Z :=
  match v with
  | JStr s => Ok (Z.of_nat (String.length s))
  | JList l => Ok (Z.of_nat (List.length l))
  | JDict d => Ok (Z.of_nat (List.length d))
  | _ => Raise (Exn TypeError ("object of type '" +:+ type_name v +:+ "' has no len()"))
  end.

(** [v.lower()] *)
Definition lower (v : json) : result string :=
  match v with
  | JStr s => Ok (PyStr.lower s)
  | _ => Raise (no_attribute v "lower")
  end.

(** The [ValueError] of [int(s)] for a text it cannot read: the message
    holds at most 200 characters of [repr(s)]. *)
Definition invalid_literal (s : string) : exn :=
  Exn ValueError ("invalid literal for int() with base 10: " +:+ PyStr.take 200 (PyStr.repr s)).

(** The [ValueError] of [int(s)] for a text [int()] refuses. *)
Definition int_error (s : string) : exn :=
  match PyStr.parse_int s with
  | PyStr.IntTooLong digits =>
      Exn ValueError
        ("Exceeds the limit (4300 digits) for integer string conversion: value has "
           +:+ PyStr.of_nat digits
           +:+ " digits; use sys.set_int_max_str_digits() to increase the limit")
  | _ => invalid_literal s
  end.

(** [int(v)] *)
Definition int (v : json) : result Z :=
  match v with
  | JInt z => Ok z
  | JBool b => Ok (if b then 1 else 0)
  | JStr s =>
      match PyStr.to_Z s with
      | Some z => Ok z
      | None => Raise (int_error s)
      end
  | _ => Raise (Exn TypeError
                  ("int() argument must be a string, a bytes-like object or a real number, not '"
                     +:+ type_name v +:+ "'"))
  end.

End Py.

(** ** Effects *)

(** What the gateway does to the outside world, in the order it does it.
    [EvVerify] and [EvSettle] mark the entry into the facilitator's two
    operations. *)
Inductive event : Type :=
| EvTime
| EvPost (url : string) (body : json)
| EvSleep (secs : Z)
| EvCallNext
| EvVerify
| EvSettle.

Definition trace : Type := list event.

Definition is_time (e : event) : bool := match e with EvTime => true | _ => false end.
Definition is_post (e : event) : bool := match e with EvPost _ _ => true | _ => false end.
Definition is_sleep (e : event) : bool := match e with EvSleep _ => true | _ => false end.
Definition is_call_next (e : event) : bool := match e with EvCallNext => true | _ => false end.
Definition is_verify (e : event) : bool := match e with EvVerify => true | _ => false end.
Definition is_settle (e : event) : bool := match e with EvSettle => true | _ => false end.

Definition count (p : event -> bool) (tr : trace) : nat := List.length (List.filter p tr).

(** A computation that may raise and that extends the trace. *)
Definition M (A : Type) : Type := trace -> result A * trace.

Definition ret {A} (a : A) : M A := fun tr => (Ok a, tr).
Definition raise {A} (e : exn) : M A := fun tr => (Raise e, tr).
Definition lift {A} (r : result A) : M A := fun tr => (r, tr).
Definition emit (ev : event) : M unit := fun tr => (Ok tt, (tr ++ [ev])%list).

Definition bind {A B} (m : M A) (k : A -> M B) : M B :=
  fun tr =>
    match m tr with
    | (Ok a, tr') => k a tr'
    | (Raise e, tr') => (Raise e, tr')
    end.

(** [try: body except Exception as e: handler e] *)
Definition try_except {A} (body : M A) (handler : exn -> M A) : M A :=
  fun tr =>
    match body tr with
    | (Ok a, tr') => (Ok a, tr')
    | (Raise e, tr') => handler e tr'
    end.

Notation "x <- m ;; k" := (bind m (fun x => k))
  (at level 100, m at next level, right associativity).
Notation "m ;;; k" := (bind m (fun _ => k))
  (at level 100, right associativity).

(** ** The libraries and the outside world *)

(** The response object [requests.post] returns. *)
Record HttpResponse : Type := {
  http_status_code : Z;
  http_text : string;
  http_json : result json        (* response.json() *)
}.

Inductive sdk_arg : Type :=
| ArgInt (z : Z)
| ArgStr (s : string)
| ArgOther (repr : string).

(** The object under [payload.value]: [function] holds
    [str(entry_function.function)], [arguments] the attribute of that
    name; [None] when the object has no such attribute. *)
Record EntryFunction : Type := {
  function : option string;
  arguments : option (list sdk_arg)
}.

(** [value] is [None] when the payload object has no attribute [value]. *)
Record TransactionPayload : Type := { value : option EntryFunction }.

(** What the gateway reads of a deserialized [RawTransaction]; [sender] is
    [str(raw_transaction.sender)], [expiration_timestamp_secs] is what
    [getattr(raw_transaction, "expiration_timestamp_secs", None)] gives. *)
Record RawTransaction : Type := {
  sender : string;
  sequence_number : Z;
  expiration_timestamp_secs : option Z;
  payload : TransactionPayload
}.

(** An incoming request: [request.method], [request.url.path] and the
    headers, with lower-case names as the server hands them over. *)
Record Request : Type := {
  req_method : string;
  req_path : string;
  req_headers : list (string * string)
}.

Inductive body : Type :=
| JsonContent (content : json)
| RawBody (data : string).

Record Response : Type := {
  status_code : Z;
  headers : list (string * string);
  resp_body : body
}.

Record Env : Type := {
  base64_b64decode : string -> result string;
  bytes_decode_utf8 : string -> result string;
  json_loads : string -> result json;
  json_dumps : json -> string;
  base64_b64encode : string -> string;
  APTOS_SDK_AVAILABLE : bool;
  RawTransaction_deserialize : string -> result RawTransaction;
  (** the n-th reading of [int(time.time())] *)
  time_time : nat -> Z;
  (** the outcome of the n-th [requests.post] *)
  requests_post : nat -> string -> json -> result HttpResponse;
  (** the downstream handler *)
  call_next : Request -> result Response
}.

(** ** [app/x402/types.py] *)

Definition dict : Type := list (string * json).

Record RouteConfig : Type := {
  rc_network : string;
  rc_asset : string;
  rc_max_amount_required : string;
  rc_description : string;
  rc_mime_type : string;
  rc_max_timeout_seconds : Z;
  rc_output_schema : option dict;
  rc_extra : dict
}.

(** [RouteConfig.__init__], with its defaults when an argument is [None]. *)
Definition RouteConfig_init (network asset max_amount_required : string)
    (description mime_type : option string) (max_timeout_seconds : option Z)
    (output_schema extra : option dict) : RouteConfig :=
  {| rc_network := network;
     rc_asset := asset;
     rc_max_amount_required := max_amount_required;
     rc_description := default "" description;
     rc_mime_type := default "application/json" mime_type;
     rc_max_timeout_seconds := default 600 max_timeout_seconds;
     rc_output_schema := output_schema;
     rc_extra := default [] extra |}.

Record PaymentRequirements : Type := {
  pr_scheme : string;
  pr_network : string;
  pr_max_amount_required : string;
  pr_resource : string;
  pr_description : string;
  pr_mime_type : string;
  pr_pay_to : string;
  pr_max_timeout_seconds : Z;
  pr_asset : string;
  pr_output_schema : option dict;
  pr_extra : dict
}.

Definition dict_truthy (d : option dict) : bool :=
  match d with
  | Some (_ :: _) => true
  | _ => false
  end.

(** [PaymentRequirements.to_dict] *)
Definition to_dict (self : PaymentRequirements) : json :=
  JDict ([ ("scheme", JStr (pr_scheme self));
           ("network", JStr (pr_network self));
           ("maxAmountRequired", JStr (pr_max_amount_required self));
           ("resource", JStr (pr_resource self));
           ("description", JStr (pr_description self));
           ("mimeType", JStr (pr_mime_type self));
           ("payTo", JStr (pr_pay_to self));
           ("maxTimeoutSeconds", JInt (pr_max_timeout_seconds self));
           ("asset", JStr (pr_asset self)) ]
         ++ (if dict_truthy (pr_output_schema self)
             then [("outputSchema", JDict (default [] (pr_output_schema self)))] else [])
         ++ (if dict_truthy (Some (pr_extra self))
             then [("extra", JDict (pr_extra self))] else []))%list.

(** ** [app/facilitator/service.py] *)

Record FacilitatorService : Type := {
  rpc_url : string;
  facilitator_url : string
}.

Definition invalid (reason : json) : json :=
  JDict [("isValid", JBool false); ("invalidReason", reason)].

Definition valid (payer : json) : json :=
  JDict [("isValid", JBool true); ("payer", payer)].

Definition failure (error : json) : json :=
  JDict [("success", JBool false); ("error", error)].

(** [int(time.time())] *)
Definition now (env : Env) : M Z :=
  fun tr => (Ok (time_time env (count is_time tr)), (tr ++ [EvTime])%list).

(** [requests.post(url, json=body, ...)] *)
Definition post (env : Env) (url : string) (body : json) : M HttpResponse :=
  fun tr => (requests_post env (count is_post tr) url body, (tr ++ [EvPost url body])%list).

(** [base64.b64decode] of a value taken from the payload. *)
Definition b64decode_value (env : Env) (v : json) : result string :=
  match v with
  | JStr s => base64_b64decode env s
  | _ => Raise (Exn TypeError
                  ("argument should be a bytes-like object or ASCII string, not '"
                     +:+ Py.type_name v +:+ "'"))
  end.

(** [str(a)] for an argument of an entry function. *)
Definition arg_str (a : sdk_arg) : string :=
  match a with
  | ArgInt z => PyStr.of_Z z
  | ArgStr s => s
  | ArgOther r => r
  end.

(** [int(a) if isinstance(a, (int, str)) else 0] *)
Definition arg_amount (a : sdk_arg) : result Z :=
  match a with
  | ArgInt z => Ok z
  | ArgStr s =>
      match PyStr.to_Z s with
      | Some z => Ok z
      | None => Raise (Py.int_error s)
      end
  | ArgOther _ => Ok 0
  end.

Definition is_coin_transfer (function_str : string) : bool :=
  PyStr.contains function_str "coin::transfer"
  || PyStr.contains function_str "aptos_account::transfer".

(** Lines 183-197 of [_verify_with_aptos_sdk]: the expiry checks.
    [Some r] is the early return of [r]. *)
Definition check_expiration (env : Env) (expiration_timestamp_secs : option Z)
    (max_timeout_seconds : Z) : M (option json) :=
  match expiration_timestamp_secs with
  | Some expiration =>
      current_time <- now env ;;
      if expiration <? current_time then
        ret (Some (invalid (JStr "Transaction has expired")))
      else if expiration >? current_time + max_timeout_seconds then
        ret (Some (invalid (JStr "Transaction expiration exceeds maximum timeout")))
      else ret None
  | None => ret None
  end.

(** Lines 199-228 of [_verify_with_aptos_sdk]: recipient and amount of a
    coin transfer.  [Ok (Some r)] is the early return of [r]. *)
Definition check_transfer (payload : TransactionPayload)
    (required_pay_to : string) (required_amount : Z) : result (option json) :=
  match value payload with
  | Some entry_function =>
      match function entry_function with
      | Some function_str =>
          if is_coin_transfer function_str then
            match arguments entry_function with
            | Some (a0 :: a1 :: _) =>
                let recipient := PyStr.lower (arg_str a0) in
                match arg_amount a1 with
                | Ok amount =>
                    if negb (String.eqb recipient required_pay_to) then
                      Ok (Some (invalid (JStr ("Recipient mismatch: expected " +:+ required_pay_to
                                                 +:+ ", got " +:+ recipient))))
                    else if amount <? required_amount then
                      Ok (Some (invalid (JStr ("Amount insufficient: required "
                                                 +:+ PyStr.of_Z required_amount
                                                 +:+ ", got " +:+ PyStr.of_Z amount))))
                    else Ok None
                | Raise e => Raise e
                end
            | _ => Ok None
            end
          else Ok None
      | None => Ok None
      end
  | None => Ok None
  end.

(** Lines 178-180: the three fields read from the requirements. *)
Definition read_requirements (payment_requirements : json) : result (string * Z * Z) :=
  match Py.get payment_requirements "payTo" (JStr "") with
  | Raise e => Raise e
  | Ok pay_to =>
      match Py.lower pay_to with
      | Raise e => Raise e
      | Ok required_pay_to =>
          match Py.get payment_requirements "maxAmountRequired" (JStr "0") with
          | Raise e => Raise e
          | Ok a =>
              match Py.int a with
              | Raise e => Raise e
              | Ok required_amount =>
                  match Py.get payment_requirements "maxTimeoutSeconds" (JInt 600) with
                  | Raise e => Raise e
                  | Ok t =>
                      match Py.int t with
                      | Raise e => Raise e
                      | Ok max_timeout_seconds =>
                          Ok (required_pay_to, required_amount, max_timeout_seconds)
                      end
                  end
              end
          end
      end
  end.

Definition _verify_with_aptos_sdk (env : Env) (self : FacilitatorService)
    (transaction_bytes : string) (payment_requirements : json) : M json :=
  try_except
    (raw_transaction <- lift (RawTransaction_deserialize env transaction_bytes) ;;
     reqs <- lift (read_requirements payment_requirements) ;;
     let '(required_pay_to, required_amount, max_timeout_seconds) := reqs in
     expired <- check_expiration env (expiration_timestamp_secs raw_transaction)
                  max_timeout_seconds ;;
     match expired with
     | Some r => ret r
     | None =>
         mismatch <- lift (check_transfer (payload raw_transaction)
                             required_pay_to required_amount) ;;
         match mismatch with
         | Some r => ret r
         | None => ret (valid (JStr (sender raw_transaction)))
         end
     end)
    (fun e => ret (invalid (JStr ("SDK verification error: " +:+ exn_msg e)))).

Definition _simulate_transaction (env : Env) (self : FacilitatorService)
    (transaction_bytes : string) : M json :=
  try_except
    (let tx_hex := "0x" +:+ PyStr.hex transaction_bytes in
     response <- post env (rpc_url self)
                   (JDict [("jsonrpc", JStr "2.0"); ("id", JInt 1);
                           ("method", JStr "transaction.simulate");
                           ("params", JList [JStr tx_hex])]) ;;
     if http_status_code response =? 200 then
       result <- lift (http_json response) ;;
       has_result <- lift (Py.contains "result" result) ;;
       if has_result : bool then
         r <- lift (Py.getitem result "result") ;;
         ret (JDict [("success", JBool true); ("result", r)])
       else
         err <- lift (Py.get result "error" (JStr "Unknown error")) ;;
         ret (failure err)
     else ret (failure (JStr ("HTTP " +:+ PyStr.of_Z (http_status_code response)))))
    (fun e => ret (failure (JStr (exn_msg e)))).

Definition _verify_with_rpc (env : Env) (self : FacilitatorService)
    (transaction_bytes : string) (payment_requirements : json) : M json :=
  simulate_response <- _simulate_transaction env self transaction_bytes ;;
  success <- lift (Py.get simulate_response "success" JNull) ;;
  if negb (Py.truthy success) then
    err <- lift (Py.get simulate_response "error" (JStr "Transaction simulation failed")) ;;
    ret (invalid err)
  else
    result <- lift (Py.get simulate_response "result" (JDict [])) ;;
    s1 <- lift (Py.get result "sender" JNull) ;;
    sender <- (if Py.truthy s1 then ret s1
               else
                 t <- lift (Py.get result "transaction" (JDict [])) ;;
                 lift (Py.get t "sender" JNull)) ;;
    if negb (Py.truthy sender) then
      ret (invalid (JStr "Could not extract sender from transaction"))
    else ret (valid sender).

Definition verify_transaction_on_chain (env : Env) (self : FacilitatorService)
    (transaction_bcs : json) (payment_requirements : json) : M json :=
  try_except
    (transaction_bytes <- lift (b64decode_value env transaction_bcs) ;;
     if APTOS_SDK_AVAILABLE env then
       _verify_with_aptos_sdk env self transaction_bytes payment_requirements
     else
       _verify_with_rpc env self transaction_bytes payment_requirements)
    (fun e => ret (invalid (JStr ("Verification error: " +:+ exn_msg e)))).

(** [v.get(k1) or v.get(k2)] *)
Definition get_either (v : json) (k1 k2 : string) : result json :=
  match Py.get v k1 JNull with
  | Raise e => Raise e
  | Ok a => if Py.truthy a then Ok a else Py.get v k2 JNull
  end.

Definition verify_payment (env : Env) (self : FacilitatorService)
    (x402_version : json) (payment_payload : json) (payment_requirements : json) : M json :=
  emit EvVerify ;;;
  try_except
    (transaction_bcs <- lift (get_either payment_payload "transaction" "transactionBcsBase64") ;;
     signature_bcs <- lift (get_either payment_payload "signature" "signatureBcsBase64") ;;
     if negb (Py.truthy transaction_bcs) then
       ret (invalid (JStr "Transaction not found in payment payload"))
     else verify_transaction_on_chain env self transaction_bcs payment_requirements)
    (fun e => ret (invalid (JStr ("Verification failed: " +:+ exn_msg e)))).

(** Lines 398-404 of [settle_payment]: the error text of a non-200 answer. *)
Definition settle_error_msg (response : HttpResponse) : json :=
  let fallback :=
    JStr ("HTTP " +:+ PyStr.of_Z (http_status_code response) +:+ ": "
            +:+ PyStr.take 500 (http_text response)) in
  match http_json response with
  | Ok error_body =>
      match Py.get error_body "message" (JStr "Unknown error") with
      | Ok m =>
          match Py.get error_body "error" m with
          | Ok error_msg => error_msg
          | Raise _ => fallback
          end
      | Raise _ => fallback
      end
  | Raise _ => fallback
  end.

Definition settle_payment (env : Env) (self : FacilitatorService)
    (x402_version : json) (payment_payload : json) (payment_requirements : json) : M json :=
  emit EvSettle ;;;
  try_except
    (let settle_url := facilitator_url self +:+ "/settle" in
     let request_body :=
       JDict [("x402Version", x402_version);
              ("paymentPayload", payment_payload);
              ("paymentRequirements", payment_requirements)] in
     _ <- lift (Py.keys payment_payload) ;;
     _ <- lift (Py.keys payment_requirements) ;;
     response <- post env settle_url request_body ;;
     if http_status_code response =? 200 then
       lift (http_json response)
     else ret (failure (settle_error_msg response)))
    (fun e =>
       if is_RequestException e then
         ret (failure (JStr ("Facilitator request failed: " +:+ exn_msg e)))
       else ret (failure (JStr ("Settlement failed: " +:+ exn_msg e)))).

(** ** [app/x402/middleware.py] *)

(** [request.headers.get(name)]: the first header of that name. *)
Fixpoint headers_get (hs : list (string * string)) (name : string) : option string :=
  match hs with
  | [] => None
  | (k, v) :: hs' => if String.eqb k name then Some v else headers_get hs' name
  end.

(** [response.headers[name] = v]: the first header of that name is
    replaced and later ones are dropped; a new name is appended. *)
Definition headers_set (hs : list (string * string)) (name v : string) : list (string * string) :=
  let key := PyStr.lower name in
  let fix go (hs : list (string * string)) (seen : bool) : list (string * string) :=
    match hs with
    | [] => if seen then [] else [(key, v)]
    | (k, x) :: hs' =>
        if String.eqb k key then
          if seen then go hs' true else (key, v) :: go hs' true
        else (k, x) :: go hs' seen
    end in
  go hs false.

Definition absolute_resource_url (request : Request) : string :=
  let scheme := default "http" (headers_get (req_headers request) "x-forwarded-proto") in
  let host := default "localhost" (headers_get (req_headers request) "host") in
  let path := PyStr.split_head "?" (req_path request) in
  scheme +:+ "://" +:+ host +:+ path.

Definition to_payment_requirements (resource_url pay_to : string) (config : RouteConfig)
  : PaymentRequirements :=
  {| pr_scheme := "exact";
     pr_network := rc_network config;
     pr_max_amount_required := rc_max_amount_required config;
     pr_resource := resource_url;
     pr_description := rc_description config;
     pr_mime_type := rc_mime_type config;
     pr_pay_to := pay_to;
     pr_max_timeout_seconds := rc_max_timeout_seconds config;
     pr_asset := rc_asset config;
     pr_output_schema := rc_output_schema config;
     pr_extra := rc_extra config |}.

Record X402PaywallMiddleware : Type := {
  pay_to : string;
  routes : gmap string RouteConfig;
  facilitator_service : FacilitatorService;
  skip_paths : list string
}.

Definition default_skip_paths : list string :=
  ["/.well-known/agent.json"; "/.well-known/agent-card.json"].

(** [X402PaywallMiddleware.__init__], given the facilitator service.
    [skip_paths or [...]]: an absent or empty list gives the defaults. *)
Definition X402PaywallMiddleware_init (pay_to : string) (routes : gmap string RouteConfig)
    (facilitator_service : FacilitatorService) (skip_paths : option (list string))
  : X402PaywallMiddleware :=
  {| pay_to := pay_to;
     routes := routes;
     facilitator_service := facilitator_service;
     skip_paths := match skip_paths with
                   | Some (p :: ps) => p :: ps
                   | _ => default_skip_paths
                   end |}.

Definition _should_skip_payment (self : X402PaywallMiddleware) (path : string) : bool :=
  existsb (fun skip_path => PyStr.endswith path skip_path || PyStr.contains path skip_path)
    (skip_paths self).

(** The first two lines of [_get_route_config]. *)
Definition normalize_path (path : string) : string :=
  let normalized_path :=
    match PyStr.rstrip "/" path with
    | EmptyString => "/"
    | p => p
    end in
  if negb (PyStr.startswith normalized_path "/") then "/" +:+ normalized_path
  else normalized_path.

Definition _get_route_config (self : X402PaywallMiddleware) (method path : string)
  : option RouteConfig :=
  let normalized_path := normalize_path path in
  let route_key := PyStr.upper method +:+ " " +:+ normalized_path in
  match routes self !! route_key with
  | Some c => Some c
  | None =>
      let route_key_slash := PyStr.upper method +:+ " " +:+ normalized_path +:+ "/" in
      match routes self !! route_key_slash with
      | Some c => Some c
      | None =>
          if String.eqb (PyStr.upper method) "POST" then routes self !! "POST /"
          else None
      end
  end.

Definition _decode_payment_header (env : Env) (payment_header : string) : result json :=
  let decoded :=
    match base64_b64decode env payment_header with
    | Raise e => Raise e
    | Ok decoded_bytes =>
        match bytes_decode_utf8 env decoded_bytes with
        | Raise e => Raise e
        | Ok decoded_str => json_loads env decoded_str
        end
    end in
  match decoded with
  | Ok v => Ok v
  | Raise e => Raise (Exn ValueError ("Failed to decode payment header: " +:+ exn_msg e))
  end.

(** [JSONResponse(status_code=status, content=content)]; of its headers
    only the content type is kept. *)
Definition JSONResponse (status : Z) (content : json) : Response :=
  {| status_code := status;
     headers := [("content-type", "application/json")];
     resp_body := JsonContent content |}.

(** [error] is [JNull] for Python's [None]. *)
Definition _create_payment_required_response (requirements : PaymentRequirements)
    (error : json) : Response :=
  let body := [("x402Version", JInt 1); ("accepts", JList [to_dict requirements])] in
  JSONResponse 402 (JDict (if Py.truthy error then (body ++ [("error", error)])%list else body)).

(** [await call_next(request)] *)
Definition forward (env : Env) (request : Request) : M Response :=
  fun tr => (call_next env request, (tr ++ [EvCallNext])%list).

(** [await asyncio.sleep(secs)] *)
Definition sleep (secs : Z) : M unit := emit (EvSleep secs).

(** [request.headers.get("x-payment") or request.headers.get("x-402")];
    [None] also stands for an empty value, which the code treats alike. *)
Definition payment_header (request : Request) : option string :=
  let nonempty o :=
    match o with
    | Some s => if String.eqb s "" then None else Some s
    | None => None
    end in
  match nonempty (headers_get (req_headers request) "x-payment") with
  | Some s => Some s
  | None => nonempty (headers_get (req_headers request) "x-402")
  end.

(** [len(payment_data.get(k, ''))] when [k in payment_data], as the
    logging of lines 297-300 evaluates it. *)
Definition log_length (payment_data : json) (k : string) : result unit :=
  match Py.contains k payment_data with
  | Raise e => Raise e
  | Ok false => Ok tt
  | Ok true =>
      match Py.get payment_data k (JStr "") with
      | Raise e => Raise e
      | Ok v => match Py.len v with Ok _ => Ok tt | Raise e => Raise e end
      end
  end.

(** Lines 281-365: the body of the [try] of [dispatch]. *)
Definition pay_and_forward (env : Env) (self : X402PaywallMiddleware)
    (request : Request) (requirements : PaymentRequirements)
    (x_payment_header : string) : M Response :=
  payment_payload <- lift (_decode_payment_header env x_payment_header) ;;
  _ <- lift (Py.get payment_payload "scheme" JNull) ;;
  _ <- lift (Py.keys payment_payload) ;;
  scheme_v <- lift (Py.get payment_payload "scheme" (JStr "exact")) ;;
  scheme <- lift (Py.lower scheme_v) ;;
  let payment_reqs_dict := to_dict requirements in
  payment_data <- lift (Py.get payment_payload "payload" payment_payload) ;;
  _ <- lift (Py.keys payment_data) ;;
  _ <- lift (log_length payment_data "transaction") ;;
  _ <- lift (log_length payment_data "signature") ;;
  x402_version <- lift (Py.get payment_payload "x402Version" (JInt 1)) ;;
  verify_result <- verify_payment env (facilitator_service self)
                     x402_version payment_data payment_reqs_dict ;;
  is_valid <- lift (Py.get verify_result "isValid" JNull) ;;
  if negb (Py.truthy is_valid) then
    invalid_reason <- lift (Py.get verify_result "invalidReason" (JStr "Invalid payment")) ;;
    ret (_create_payment_required_response requirements invalid_reason)
  else
    first <- settle_payment env (facilitator_service self)
               x402_version payment_data payment_reqs_dict ;;
    success <- lift (Py.get first "success" JNull) ;;
    settle_result <- (if negb (Py.truthy success) then
                        sleep 1 ;;;
                        settle_payment env (facilitator_service self)
                          x402_version payment_data payment_reqs_dict
                      else ret first) ;;
    success <- lift (Py.get settle_result "success" JNull) ;;
    if negb (Py.truthy success) then
      settle_error <- lift (Py.get settle_result "error" (JStr "Settlement failed")) ;;
      ret (_create_payment_required_response requirements settle_error)
    else
      response <- forward env request ;;
      let receipt := base64_b64encode env (json_dumps env settle_result) in
      ret {| status_code := status_code response;
             headers := headers_set (headers response) "X-PAYMENT-RESPONSE" receipt;
             resp_body := resp_body response |}.

Definition dispatch (env : Env) (self : X402PaywallMiddleware) (request : Request)
  : M Response :=
  let path := req_path request in
  let method := req_method request in
  if _should_skip_payment self path then forward env request
  else
    match _get_route_config self method path with
    | None => forward env request
    | Some route_config =>
        let resource_url := absolute_resource_url request in
        let requirements := to_payment_requirements resource_url (pay_to self) route_config in
        match payment_header request with
        | None => ret (_create_payment_required_response requirements JNull)
        | Some x_payment_header =>
            try_except
              (pay_and_forward env self request requirements x_payment_header)
              (fun e =>
                 if is_ValueError e then
                   ret (_create_payment_required_response requirements
                          (JStr ("Invalid payment header: " +:+ exn_msg e)))
                 else
                   ret (_create_payment_required_response requirements
                          (JStr ("Payment verification error: " +:+ exn_msg e))))
        end
    end.

(** ** The statements of the specification, as definitions *)

(** The route registry is searched for the first of these keys it holds. *)
Fixpoint first_match (routes : gmap string RouteConfig) (keys : list string)
  : option RouteConfig :=
  match keys with
  | [] => None
  | k :: ks =>
      match routes !! k with
      | Some c => Some c
      | None => first_match routes ks
      end
  end.

(** The keys of the matching rules, in their order: the exact key, the
    key with a trailing slash, and for a POST the wildcard. *)
Definition route_candidates (method normalized_path : string) : list string :=
  let m := PyStr.upper method in
  ([m +:+ " " +:+ normalized_path; m +:+ " " +:+ normalized_path +:+ "/"]
     ++ (if String.eqb m "POST" then ["POST /"] else []))%list.

(** [q] is [path] without its trailing slashes, with the root kept and a
    leading slash ensured. *)
Definition is_normal_form_of (path q : string) : Prop :=
  exists core k,
    path = core +:+ PyStr.repeat "/" k /\
    PyStr.endswith core "/" = false /\
    q = (if String.eqb core "" then "/"
         else if PyStr.startswith core "/" then core else "/" +:+ core).

(** The body of a 402 answer without an [error] entry. *)
Definition challenge (requirements : PaymentRequirements) : dict :=
  [("x402Version", JInt 1); ("accepts", JList [to_dict requirements])].

(** ** Sample configuration and inputs *)

Definition sample_service : FacilitatorService :=
  {| rpc_url := "https://mainnet.movementnetwork.xyz/v1";
     facilitator_url := "http://localhost:3000/api/facilitator" |}.

Definition sample_route : RouteConfig :=
  RouteConfig_init "movement" "0x1::aptos_coin::AptosCoin" "100000000"
    (Some "Sentiment & Trading Agent access") (Some "application/json") (Some 600)
    None None.

Definition sample_middleware : X402PaywallMiddleware :=
  X402PaywallMiddleware_init "0xA11CE" {[ "POST /" := sample_route ]} sample_service
    (Some ["/.well-known/agent.json"; "/.well-known/agent-card.json"]).

Definition ok_response : Response :=
  {| status_code := 200; headers := [("content-type", "text/plain")]; resp_body := RawBody "ok" |}.

(** An environment given by what its libraries answer: every header
    decodes to [payload], every transaction deserializes to [raw], the
    clock and the remote end answer by call number, the handler answers
    [handler]. *)
Definition sample_env (payload : result json) (raw : result RawTransaction)
    (clock : nat -> Z) (remote : nat -> result HttpResponse)
    (handler : result Response) : Env :=
  {| base64_b64decode := fun s => Ok s;
     bytes_decode_utf8 := fun s => Ok s;
     json_loads := fun _ => payload;
     json_dumps := fun _ => "{}";
     base64_b64encode := fun s => s;
     APTOS_SDK_AVAILABLE := true;
     RawTransaction_deserialize := fun _ => raw;
     time_time := clock;
     requests_post := fun n _ _ => remote n;
     call_next := fun _ => handler |}.

Definition discovery_request : Request :=
  {| req_method := "POST";
     req_path := "/.well-known/agent.json";
     req_headers := [("host", "agent.example")] |}.

Definition unpaid_request : Request :=
  {| req_method := "post";
     req_path := "/sentiment/";
     req_headers := [("host", "agent.example"); ("x-forwarded-proto", "https")] |}.

Definition quiet_env : Env :=
  sample_env (Ok (JDict [])) (Raise (Exn ValueError "unused")) (fun _ => 0)
    (fun _ => Raise (Exn RequestException "unused")) (Ok ok_response).

(** What [_verify_with_aptos_sdk] returns once the expiry checks are
    behind it: the early return of the transfer check, the acceptance, or
    the catch-all of its [except] clause. *)
Definition transfer_verdict (raw_transaction : RawTransaction)
    (required_pay_to : string) (required_amount : Z) : json :=
  match check_transfer (payload raw_transaction) required_pay_to required_amount with
  | Ok (Some r) => r
  | Ok None => valid (JStr (sender raw_transaction))
  | Raise e => invalid (JStr ("SDK verification error: " +:+ exn_msg e))
  end.

(** The expiry checks let the transaction through at time [current_time]. *)
Definition within_window (raw_transaction : RawTransaction)
    (current_time max_timeout_seconds : Z) : Prop :=
  match expiration_timestamp_secs raw_transaction with
  | Some expiration => current_time <= expiration <= current_time + max_timeout_seconds
  | None => True
  end.

(** The payloads on which the recipient and amount comparison is never
    reached. *)
Inductive comparison_skipped (p : TransactionPayload) : Prop :=
| skipped_no_value :
    value p = None -> comparison_skipped p
| skipped_no_function (ef : EntryFunction) :
    value p = Some ef -> function ef = None -> comparison_skipped p
| skipped_other_function (ef : EntryFunction) (f : string) :
    value p = Some ef -> function ef = Some f -> is_coin_transfer f = false ->
    comparison_skipped p
| skipped_no_arguments (ef : EntryFunction) :
    value p = Some ef -> arguments ef = None -> comparison_skipped p
| skipped_few_arguments (ef : EntryFunction) (args : list sdk_arg) :
    value p = Some ef -> arguments ef = Some args -> (List.length args < 2)%nat ->
    comparison_skipped p.

Definition transfer (function_str : string) (args : list sdk_arg) : TransactionPayload :=
  {| value := Some {| function := Some function_str; arguments := Some args |} |}.

Definition sample_transaction (expiration : option Z) (p : TransactionPayload) : RawTransaction :=
  {| sender := "0xB0B";
     sequence_number := 7;
     expiration_timestamp_secs := expiration;
     payload := p |}.

Definition sample_requirements : PaymentRequirements :=
  to_payment_requirements "https://agent.example/sentiment/" "0xA11CE" sample_route.

(** The SDK answers [raw] at every deserialization and the clock reads
    [t] at every call. *)
Definition sdk_env (raw : RawTransaction) (t : Z) : Env :=
  sample_env (Ok (JDict [("transaction", JStr "dHg=")])) (Ok raw) (fun _ => t)
    (fun _ => Raise (Exn RequestException "connection refused")) (Ok ok_response).

(** What [settle_payment] makes of the outcome of its POST (lines
    394-419). *)
Definition settle_result_of (outcome : result HttpResponse) : json :=
  let caught (e : exn) :=
    if is_RequestException e
    then failure (JStr ("Facilitator request failed: " +:+ exn_msg e))
    else failure (JStr ("Settlement failed: " +:+ exn_msg e)) in
  match outcome with
  | Ok response =>
      if http_status_code response =? 200 then
        match http_json response with
        | Ok j => j
        | Raise e => caught e
        end
      else failure (settle_error_msg response)
  | Raise e => caught e
  end.

(** The body of the POST of [settle_payment]. *)
Definition settle_body (x402_version payment_payload payment_requirements : json) : json :=
  JDict [("x402Version", x402_version);
         ("paymentPayload", payment_payload);
         ("paymentRequirements", payment_requirements)].

Definition settle_url (self : FacilitatorService) : string :=
  facilitator_url self +:+ "/settle".

(** [not settle_result.get("success")], when it can be evaluated. *)
Definition reports_failure (settle_result : json) : bool :=
  match Py.get settle_result "success" JNull with
  | Ok s => negb (Py.truthy s)
  | Raise _ => false
  end.

(** The remote end answers every POST with [response]. *)
Definition remote_env (response : HttpResponse) : Env :=
  sample_env (Ok (JDict [("transaction", JStr "dHg=")]))
    (Ok (sample_transaction None (transfer "0x1::coin::transfer" [])))
    (fun _ => 0) (fun _ => Ok response) (Ok ok_response).

Definition bad_gateway : HttpResponse :=
  {| http_status_code := 502;
     http_text := PyStr.repeat "x" 501;
     http_json := Raise (Exn RequestsJSONDecodeError "Expecting value: line 1 column 1 (char 0)") |}.

(** [settle_result.get("success")] is there and truthy. *)
Definition reports_success (settle_result : json) : bool :=
  match Py.get settle_result "success" JNull with
  | Ok s => Py.truthy s
  | Raise _ => false
  end.

(** [verify_result.get("isValid")] is there and truthy. *)
Definition reports_valid (verify_result : json) : bool :=
  match Py.get verify_result "isValid" JNull with
  | Ok v => Py.truthy v
  | Raise _ => false
  end.

(** The settlement activity of one request, started on the trace [base]:
    none, one attempt that did not report a failure, or one attempt that
    did, a sleep of one second and a second attempt. *)
Definition settle_shape (env : Env) (self : FacilitatorService) (reqs : json)
    (base : trace) (S : list event) : Prop :=
  S = [] \/
  exists (v : json) (p : dict) (first : json),
    fst (settle_payment env self v (JDict p) reqs base) = Ok first /\
    ((reports_failure first = false /\
      S = [EvSettle; EvPost (settle_url self) (settle_body v (JDict p) reqs)]) \/
     (reports_failure first = true /\
      S = [EvSettle; EvPost (settle_url self) (settle_body v (JDict p) reqs);
           EvSleep 1;
           EvSettle; EvPost (settle_url self) (settle_body v (JDict p) reqs)])).

(** The handler's response with the receipt of [settle_result] attached. *)
Definition with_receipt (env : Env) (settle_result : json) (h : Response) : Response :=
  {| status_code := status_code h;
     headers := headers_set (headers h) "X-PAYMENT-RESPONSE"
                  (base64_b64encode env (json_dumps env settle_result));
     resp_body := resp_body h |}.

(** [resp] is the handler's response with the receipt, reached after the
    header [hdr] decoded to a payload, the verification of its body
    reported a valid payment and a settlement of it reported success. *)
Definition forwarded_after_payment (env : Env) (self : X402PaywallMiddleware)
    (request : Request) (requirements : PaymentRequirements) (hdr : string)
    (tr : trace) (resp : Response) : Prop :=
  exists (payment_payload v : json) (p : dict) (verify_result settle_result : json)
         (base : trace) (h : Response),
    _decode_payment_header env hdr = Ok payment_payload /\
    Py.get payment_payload "payload" payment_payload = Ok (JDict p) /\
    Py.get payment_payload "x402Version" (JInt 1) = Ok v /\
    fst (verify_payment env (facilitator_service self) v (JDict p) (to_dict requirements) tr)
    = Ok verify_result /\
    reports_valid verify_result = true /\
    fst (settle_payment env (facilitator_service self) v (JDict p) (to_dict requirements) base)
    = Ok settle_result /\
    reports_success settle_result = true /\
    call_next env request = Ok h /\
    resp = with_receipt env settle_result h.

(** The [error] entry a 402 answer carries for the error value [error]. *)
Definition error_entry (error : json) : dict :=
  if Py.truthy error then [("error", error)] else [].

Definition dq : string := String (ascii_of_nat 34) EmptyString.

(** The remote facilitator declines with status 200 and an empty error
    text. *)
Definition silent_refusal : HttpResponse :=
  {| http_status_code := 200;
     http_text := "{" +:+ dq +:+ "success" +:+ dq +:+ ": false, "
                  +:+ dq +:+ "error" +:+ dq +:+ ": " +:+ dq +:+ dq +:+ "}";
     http_json := Ok (JDict [("success", JBool false); ("error", JStr "")]) |}.

Definition paid_request : Request :=
  {| req_method := "POST";
     req_path := "/sentiment";
     req_headers := [("host", "agent.example");
                     ("x-payment", "eyJ0cmFuc2FjdGlvbiI6ICJkSGc9In0=")] |}.

Definition paid_requirements : PaymentRequirements :=
  to_payment_requirements "http://agent.example/sentiment" "0xA11CE" sample_route.

(** The header does not parse as JSON. *)
Definition garbled_env : Env :=
  sample_env (Raise (Exn ValueError "Expecting value: line 1 column 1 (char 0)"))
    (Raise (Exn ValueError "unused")) (fun _ => 0)
    (fun _ => Raise (Exn RequestException "unused")) (Ok ok_response).

Definition paid_payload : json := JDict [("transaction", JStr "dHg=")].

Definition settle_post : event :=
  EvPost (settle_url sample_service)
    (settle_body (JInt 1) paid_payload (to_dict paid_requirements)).

(** Two traces on which the clock and the remote end answer alike. *)
Definition same_answers (env : Env) (tr tr' : trace) : Prop :=
  time_time env (count is_time tr) = time_time env (count is_time tr') /\
  forall u b, requests_post env (count is_post tr) u b
              = requests_post env (count is_post tr') u b.

(** The effects of a verification after its entry: none, one reading of
    the clock, or one POST. *)
Definition verify_effects (evs : list event) : Prop :=
  evs = [] \/ evs = [EvTime] \/ exists u b, evs = [EvPost u b].


(** ** The objects [RawTransaction.deserialize] returns *)

(** The classes of [aptos_sdk.transactions], with the attributes the
    library declares: an entry function names its module and its
    function separately and holds its arguments, serialized, under
    [args]; a raw transaction holds its expiration under
    [expiration_timestamps_secs]. *)
Module AptosSdk.

Record EntryFunction : Type := {
  module : string;               (* str(entry_function.module), as in 0x1::coin *)
  function : string;             (* entry_function.function, as in transfer *)
  ty_args : list string;
  args : list string             (* the BCS bytes of each argument *)
}.

Record RawTransaction : Type := {
  sender : string;               (* str(raw_transaction.sender) *)
  sequence_number : Z;
  payload : EntryFunction;       (* raw_transaction.payload.value *)
  max_gas_amount : Z;
  gas_unit_price : Z;
  expiration_timestamps_secs : Z;
  chain_id : Z
}.

End AptosSdk.

(** What [_verify_with_aptos_sdk] reads of such an object:
    [getattr(raw_transaction, "expiration_timestamp_secs", None)] finds
    no attribute of that name, [str(entry_function.function)] is the
    bare function name, and [hasattr(entry_function, "arguments")] is
    false. *)
Definition as_read (t : AptosSdk.RawTransaction) : RawTransaction :=
  {| sender := AptosSdk.sender t;
     sequence_number := AptosSdk.sequence_number t;
     expiration_timestamp_secs := None;
     payload :=
       {| value := Some {| function := Some (AptosSdk.function (AptosSdk.payload t));
                           arguments := None |} |} |}.

(** A byte string given by its bytes. *)
Definition bytes (l : list nat) : string :=
  List.fold_right (fun n s => String (ascii_of_nat n) s) EmptyString l.

(** The BCS bytes of a 32-byte address given by its last bytes, and of
    an unsigned 64-bit integer (little-endian). *)
Definition bcs_address (last : list nat) : string :=
  bytes (List.repeat 0%nat (32 - List.length last) ++ last).

Definition bcs_u64 (n : N) : string :=
  let byte (k : N) := N.to_nat (N.modulo (N.shiftr n (8 * k)) 256) in
  bytes (List.map byte [0; 1; 2; 3; 4; 5; 6; 7]%N).

(** [0x1::coin::transfer<AptosCoin>(recipient, amount)], sent by
    [0xb0b], expiring at [expiration]. *)
Definition coin_transfer (recipient : string) (amount : N) (expiration : Z)
  : AptosSdk.RawTransaction :=
  {| AptosSdk.sender := "0xb0b";
     AptosSdk.sequence_number := 7;
     AptosSdk.payload :=
       {| AptosSdk.module := "0x1::coin";
          AptosSdk.function := "transfer";
          AptosSdk.ty_args := ["0x1::aptos_coin::AptosCoin"];
          AptosSdk.args := [recipient; bcs_u64 amount] |};
     AptosSdk.max_gas_amount := 2000;
     AptosSdk.gas_unit_price := 100;
     AptosSdk.expiration_timestamps_secs := expiration;
     AptosSdk.chain_id := 126 |}.

(** One unit sent to [0x0bad], not to the recipient of the route, in a
    transaction that expires at 2000. *)
Definition underpaid_transfer : AptosSdk.RawTransaction :=
  coin_transfer (bcs_address [11; 173]%nat) 1 2000.

(** The required amount sent to the recipient of the route, [0xa11ce],
    in a transaction that expired at 50. *)
Definition expired_transfer : AptosSdk.RawTransaction :=
  coin_transfer (bcs_address [10; 17; 206]%nat) 100000000 50.

(** ** Configuration read from the process environment *)

(** [os.getenv] and [os.path.exists("/.dockerenv")]. *)
Record OsEnv : Type := {
  getenv : string -> option string;
  dockerenv_exists : bool
}.

(** A value used under [if x:] or [x or ...]: absent and empty are alike. *)
Definition nonempty (o : option string) : option string :=
  match o with
  | Some s => if String.eqb s "" then None else Some s
  | None => None
  end.

(** [get_default_facilitator_url] of [middleware.py]. *)
Definition get_default_facilitator_url (os : OsEnv) : string :=
  match nonempty (getenv os "FACILITATOR_URL") with
  | Some url => url
  | None =>
      match nonempty (getenv os "FRONTEND_URL") with
      | Some frontend => frontend +:+ "/api/facilitator"
      | None =>
          if dockerenv_exists os
          then "http://host.docker.internal:3000/api/facilitator"
          else "http://localhost:3000/api/facilitator"
      end
  end.

(** [MOVEMENT_RPC] of [service.py]: [os.getenv("MOVEMENT_RPC_URL", default)]. *)
Definition MOVEMENT_RPC (os : OsEnv) : string :=
  default "https://mainnet.movementnetwork.xyz/v1" (getenv os "MOVEMENT_RPC_URL").

(** [FacilitatorService.__init__] *)
Definition FacilitatorService_init (os : OsEnv) (rpc_url facilitator_url : option string)
  : FacilitatorService :=
  {| rpc_url := default (MOVEMENT_RPC os) (nonempty rpc_url);
     facilitator_url :=
       match nonempty facilitator_url with
       | Some url => url
       | None =>
           match nonempty (getenv os "FACILITATOR_URL") with
           | Some url => url
           | None =>
               match nonempty (getenv os "FRONTEND_URL") with
               | Some frontend => frontend +:+ "/api/facilitator"
               | None =>
                   if dockerenv_exists os
                   then "http://host.docker.internal:3000/api/facilitator"
                   else "http://localhost:3000/api/facilitator"
               end
           end
       end |}.

(** [self.facilitator_url] of the middleware:
    [facilitator_url or DEFAULT_FACILITATOR_URL]. *)
Definition middleware_facilitator_url (os : OsEnv) (facilitator_url : option string) : string :=
  default (get_default_facilitator_url os) (nonempty facilitator_url).

(** [X402PaywallMiddleware.__init__] with its optional arguments: a
    service that is passed is kept, else one is built on
    [self.facilitator_url]. *)
Definition X402PaywallMiddleware_new (os : OsEnv) (pay_to : string)
    (routes : gmap string RouteConfig) (facilitator_service : option FacilitatorService)
    (facilitator_url : option string) (skip_paths : option (list string))
  : X402PaywallMiddleware :=
  X402PaywallMiddleware_init pay_to routes
    (match facilitator_service with
     | Some service => service
     | None => FacilitatorService_init os None
                 (Some (middleware_facilitator_url os facilitator_url))
     end)
    skip_paths.

(** ** [app/agents/sentiment/agent.py]: the paywall of the sentiment agent *)

Definition sentiment_route : RouteConfig :=
  RouteConfig_init "movement" "0x1::aptos_coin::AptosCoin" "100000000"
    (Some "Sentiment & Trading Agent access - Pay to unlock sentiment analysis and trading recommendations")
    (Some "application/json") (Some 600) None None.

(** The middleware [SentimentAgentAppWithMiddleware.build] adds, or the
    [ValueError] it raises. *)
Definition sentiment_paywall (os : OsEnv) : result X402PaywallMiddleware :=
  let movement_pay_to :=
    match nonempty (getenv os "MOVEMENT_PAY_TO") with
    | Some p => Some p
    | None => nonempty (getenv os "NEXT_PUBLIC_MOVEMENT_PAY_TO")
    end in
  match movement_pay_to with
  | None =>
      Raise (Exn ValueError
               ("MOVEMENT_PAY_TO environment variable is required for sentiment/trading agent. "
                  +:+ "Please set MOVEMENT_PAY_TO to your payment recipient address."))
  | Some p =>
      Ok (X402PaywallMiddleware_new os p {[ "POST /" := sentiment_route ]} None None
            (Some ["/.well-known/agent.json"; "/.well-known/agent-card.json"]))
  end.

(** A process environment given by a list of variables. *)
Definition os_of (vars : list (string * string)) (docker : bool) : OsEnv :=
  {| getenv := fun name => headers_get vars name; dockerenv_exists := docker |}.

(** The variable [name] holds the non-empty text [p]; the variable is
    unset or empty. *)
Definition is_set (os : OsEnv) (name p : string) : Prop :=
  getenv os name = Some p /\ p <> "".

Definition is_unset (os : OsEnv) (name : string) : Prop :=
  getenv os name = None \/ getenv os name = Some "".

(** The paywall [mw] lets every request but a POST through to the
    agent, and answers a POST that is no discovery request and carries
    no proof with the challenge for 100000000 units of the Aptos coin on
    [movement], payable to [p]. *)
Definition charges_posts (mw : X402PaywallMiddleware) (p : string) : Prop :=
  forall (env : Env) (request : Request) (tr : trace),
    (String.eqb (PyStr.upper (req_method request)) "POST" = false ->
     dispatch env mw request tr = (call_next env request, (tr ++ [EvCallNext])%list))
    /\ (String.eqb (PyStr.upper (req_method request)) "POST" = true ->
        PyStr.contains (req_path request) "/.well-known/agent.json" = false ->
        PyStr.contains (req_path request) "/.well-known/agent-card.json" = false ->
        payment_header request = None ->
        exists r,
          dispatch env mw request tr
          = (Ok (JSONResponse 402
                   (JDict [("x402Version", JInt 1); ("accepts", JList [to_dict r])])),
             tr)
          /\ pr_max_amount_required r = "100000000"
          /\ pr_asset r = "0x1::aptos_coin::AptosCoin"
          /\ pr_network r = "movement"
          /\ pr_pay_to r = p).

(** ** The RPC path: what is sent and what is made of the answer *)

(** The body of the POST of [_simulate_transaction]. *)
Definition simulate_request (transaction_bytes : string) : json :=
  JDict [("jsonrpc", JStr "2.0"); ("id", JInt 1);
         ("method", JStr "transaction.simulate");
         ("params", JList [JStr ("0x" +:+ PyStr.hex transaction_bytes)])].

(** The SDK is not installed; the node answers every POST with [outcome]. *)
Definition rpc_env (outcome : result HttpResponse) : Env :=
  {| base64_b64decode := fun s => Ok s;
     bytes_decode_utf8 := fun s => Ok s;
     json_loads := fun _ => Ok paid_payload;
     json_dumps := fun _ => "{}";
     base64_b64encode := fun s => s;
     APTOS_SDK_AVAILABLE := false;
     RawTransaction_deserialize := fun _ => Raise (Exn OtherException "no SDK");
     time_time := fun _ => 0;
     requests_post := fun _ _ _ => outcome;
     call_next := fun _ => Ok ok_response |}.

Definition simulated (sender : string) : HttpResponse :=
  {| http_status_code := 200;
     http_text := "{...}";
     http_json := Ok (JDict [("result", JDict [("transaction", JDict [("sender", JStr sender)])])]) |}.

(** What [_simulate_transaction] makes of the outcome of its POST. *)
Definition simulate_result_of (outcome : result HttpResponse) : json :=
  match outcome with
  | Raise e => failure (JStr (exn_msg e))
  | Ok response =>
      if http_status_code response =? 200 then
        match http_json response with
        | Raise e => failure (JStr (exn_msg e))
        | Ok j =>
            match Py.contains "result" j with
            | Raise e => failure (JStr (exn_msg e))
            | Ok true =>
                match Py.getitem j "result" with
                | Ok r => JDict [("success", JBool true); ("result", r)]
                | Raise e => failure (JStr (exn_msg e))
                end
            | Ok false =>
                match Py.get j "error" (JStr "Unknown error") with
                | Ok err => failure err
                | Raise e => failure (JStr (exn_msg e))
                end
            end
        end
      else failure (JStr ("HTTP " +:+ PyStr.of_Z (http_status_code response)))
  end.

(** The value of a hexadecimal digit as [hex] writes it. *)
Definition unhex_digit (a : ascii) : option nat :=
  let n := nat_of_ascii a in
  if (Nat.leb 48 n && Nat.leb n 57)%bool then Some (n - 48)%nat
  else if (Nat.leb 97 n && Nat.leb n 102)%bool then Some (n - 87)%nat
  else None.

(** [bytes.fromhex] *)
Fixpoint unhex (s : string) : option string :=
  match s with
  | EmptyString => Some EmptyString
  | String h (String l rest) =>
      match unhex_digit h, unhex_digit l, unhex rest with
      | Some x, Some y, Some r => Some (String (ascii_of_nat (16 * x + y)) r)
      | _, _, _ => None
      end
  | String _ EmptyString => None
  end.


(** ** The paid path of [dispatch] *)

(** The proof header [hdr] decodes to the JSON object [d], whose scheme
    (if any) is a string, whose body (the entry [payload], else [d]
    itself) is the object [p], whose [transaction] and [signature] (if
    any) have a length, and whose protocol version (1 if absent) is [v]:
    the conditions under which [dispatch] reaches the call of verify. *)
Definition proof_decodes (env : Env) (hdr : string) (d p : dict) (v : json) : Prop :=
  _decode_payment_header env hdr = Ok (JDict d) /\
  (exists s, default (JStr "exact") (Py.assoc d "scheme") = JStr s) /\
  default (JDict d) (Py.assoc d "payload") = JDict p /\
  log_length (JDict p) "transaction" = Ok tt /\
  log_length (JDict p) "signature" = Ok tt /\
  default (JInt 1) (Py.assoc d "x402Version") = v.

(** The remote end answers the n-th POST with [answers n]; the payment
    verifies. *)
Definition settling_env (answers : nat -> result HttpResponse) (handler : result Response) : Env :=
  sample_env (Ok paid_payload)
    (Ok (sample_transaction None (transfer "0x1::coin::transfer" [])))
    (fun _ => 0) answers handler.

Definition settled : HttpResponse :=
  {| http_status_code := 200;
     http_text := "{...}";
     http_json := Ok (JDict [("success", JBool true); ("txHash", JStr "0xfeed")]) |}.

Definition refused (error : string) : HttpResponse :=
  {| http_status_code := 400;
     http_text := "{...}";
     http_json := Ok (JDict [("success", JBool false); ("error", JStr error)]) |}.

(** The prefix the two [except] clauses of [dispatch] put before
    [str(e)]. *)
Definition except_prefix (e : exn) : string :=
  if is_ValueError e then "Invalid payment header: " else "Payment verification error: ".

Definition paid_header : string := "eyJ0cmFuc2FjdGlvbiI6ICJkSGc9In0=".

(** The first settle call is refused with [error], the later ones are
    answered by [later]. *)
Definition refused_then (error : string) (later : HttpResponse) (n : nat)
  : result HttpResponse :=
  match n with
  | O => Ok (refused error)
  | _ => Ok later
  end.

Definition retry_trace : trace :=
  [EvVerify; EvSettle; settle_post; EvSleep 1; EvSettle; settle_post].

Definition answered_with (content : json) : HttpResponse :=
  {| http_status_code := 200; http_text := "..."; http_json := Ok content |}.

(** What is wrong with a decoded proof, and the exception the body of
    the [try] of [dispatch] raises on it before it calls verify. *)
Inductive malformed : json -> exn -> Prop :=
| not_an_object (payload : json) :
    (forall d, payload <> JDict d) ->
    malformed payload (Py.no_attribute payload "get")
| scheme_not_text (d : dict) (x : json) :
    Py.assoc d "scheme" = Some x ->
    (forall s, x <> JStr s) ->
    malformed (JDict d) (Py.no_attribute x "lower")
| body_not_an_object (d : dict) (s : string) (x : json) :
    default (JStr "exact") (Py.assoc d "scheme") = JStr s ->
    Py.assoc d "payload" = Some x ->
    (forall p, x <> JDict p) ->
    malformed (JDict d) (Py.no_attribute x "keys")
| transaction_without_length (d p : dict) (s : string) (x : json) (e : exn) :
    default (JStr "exact") (Py.assoc d "scheme") = JStr s ->
    default (JDict d) (Py.assoc d "payload") = JDict p ->
    Py.assoc p "transaction" = Some x ->
    Py.len x = Raise e ->
    malformed (JDict d) e.

(** The header decodes to a proof whose scheme is [null]. *)
Definition null_scheme_env : Env :=
  sample_env (Ok (JDict [("scheme", JNull); ("transaction", JStr "dHg=")]))
    (Ok (sample_transaction None (transfer "0x1::coin::transfer" [])))
    (fun _ => 0) (fun _ => Ok settled) (Ok ok_response).

(** ** What [dispatch] answers on the paid path, case by case *)

Definition is_dict (v : json) : bool :=
  match v with JDict _ => true | _ => false end.

(** The 402 answer for the error value [error]: the challenge, followed
    by the [error] entry exactly when [error] is truthy. *)
Definition refusal (requirements : PaymentRequirements) (error : json) : Response :=
  JSONResponse 402 (JDict (challenge requirements ++ error_entry error)%list).

(** A decoded proof the paid path cannot use, with the exception it
    meets: one of the shapes of [malformed], or a [signature] without a
    length. *)
Inductive proof_rejected : json -> exn -> Prop :=
| rejected_malformed (payload : json) (e : exn) :
    malformed payload e ->
    proof_rejected payload e
| rejected_signature (d p : dict) (s : string) (x : json) (e : exn) :
    default (JStr "exact") (Py.assoc d "scheme") = JStr s ->
    default (JDict d) (Py.assoc d "payload") = JDict p ->
    log_length (JDict p) "transaction" = Ok tt ->
    Py.assoc p "signature" = Some x ->
    Py.len x = Raise e ->
    proof_rejected (JDict d) e.

(** The settlement of one payment, started on the trace [base]: the
    result that counts and the trace it leaves. One call of
    [settle_payment]; when its result reports a failure, a sleep of one
    second and a second call, whose result counts alone. *)
Inductive settlement (env : Env) (self : FacilitatorService) (v payload reqs : json)
    (base : trace) : json -> trace -> Prop :=
| settlement_once (first : json) (t : trace) :
    settle_payment env self v payload reqs base = (Ok first, t) ->
    reports_failure first = false ->
    settlement env self v payload reqs base first t
| settlement_retried (first second : json) (t t' : trace) :
    settle_payment env self v payload reqs base = (Ok first, t) ->
    reports_failure first = true ->
    settle_payment env self v payload reqs (t ++ [EvSleep 1])%list = (Ok second, t') ->
    settlement env self v payload reqs base second t'.

(** The answer and the trace of the paid path for the proof header
    [hdr], by what happens to the proof: each failure with the error
    value the 402 is built from. *)
Inductive paid_outcome (env : Env) (self : X402PaywallMiddleware) (request : Request)
    (r : PaymentRequirements) (hdr : string) (tr : trace) : Response -> trace -> Prop :=
| header_undecodable (e : exn) :
    _decode_payment_header env hdr = Raise e ->
    paid_outcome env self request r hdr tr
      (refusal r (JStr ("Invalid payment header: " +:+ exn_msg e))) tr
| proof_unusable (payload : json) (e : exn) :
    _decode_payment_header env hdr = Ok payload ->
    proof_rejected payload e ->
    paid_outcome env self request r hdr tr
      (refusal r (JStr ("Payment verification error: " +:+ exn_msg e))) tr
| payment_invalid (d p : dict) (v reason : json) (t : trace) :
    proof_decodes env hdr d p v ->
    verify_payment env (facilitator_service self) v (JDict p) (to_dict r) tr
    = (Ok (invalid reason), t) ->
    paid_outcome env self request r hdr tr (refusal r reason) t
| settlement_failed (d p : dict) (v payer : json) (t : trace) (result : dict) (t' : trace) :
    proof_decodes env hdr d p v ->
    verify_payment env (facilitator_service self) v (JDict p) (to_dict r) tr
    = (Ok (valid payer), t) ->
    settlement env (facilitator_service self) v (JDict p) (to_dict r) t (JDict result) t' ->
    reports_failure (JDict result) = true ->
    paid_outcome env self request r hdr tr
      (refusal r (default (JStr "Settlement failed") (Py.assoc result "error"))) t'
| settlement_unreadable (d p : dict) (v payer : json) (t : trace) (result : json)
    (t' : trace) :
    proof_decodes env hdr d p v ->
    verify_payment env (facilitator_service self) v (JDict p) (to_dict r) tr
    = (Ok (valid payer), t) ->
    settlement env (facilitator_service self) v (JDict p) (to_dict r) t result t' ->
    is_dict result = false ->
    paid_outcome env self request r hdr tr
      (refusal r (JStr ("Payment verification error: '" +:+ Py.type_name result
                          +:+ "' object has no attribute 'get'"))) t'
| handler_failed (d p : dict) (v payer : json) (t : trace) (result : json) (t' : trace)
    (e : exn) :
    proof_decodes env hdr d p v ->
    verify_payment env (facilitator_service self) v (JDict p) (to_dict r) tr
    = (Ok (valid payer), t) ->
    settlement env (facilitator_service self) v (JDict p) (to_dict r) t result t' ->
    reports_success result = true ->
    call_next env request = Raise e ->
    paid_outcome env self request r hdr tr
      (refusal r (JStr (except_prefix e +:+ exn_msg e))) (t' ++ [EvCallNext])%list
| access_granted (d p : dict) (v payer : json) (t : trace) (result : json) (t' : trace)
    (h : Response) :
    proof_decodes env hdr d p v ->
    verify_payment env (facilitator_service self) v (JDict p) (to_dict r) tr
    = (Ok (valid payer), t) ->
    settlement env (facilitator_service self) v (JDict p) (to_dict r) t result t' ->
    reports_success result = true ->
    call_next env request = Ok h ->
    paid_outcome env self request r hdr tr (with_receipt env result h)
      (t' ++ [EvCallNext])%list.

(** ** [app/facilitator/routes.py] *)

(** What an endpoint hands to the framework: a [JSONResponse], or the
    [HTTPException] it lets through. *)
Inductive endpoint_result : Type :=
| Responds (status : Z) (content : json)
| HTTPException (status : Z) (detail : string).

(** [POST /facilitator/verify]; [request_json] is the outcome of
    [await request.json()]. An [HTTPException] leaves the [try] through
    [except HTTPException: raise]. *)
Definition verify_endpoint (env : Env) (facilitator_service : FacilitatorService)
    (request_json : result json) : M endpoint_result :=
  try_except
    (body <- lift request_json ;;
     x402_version <- lift (Py.get body "x402Version" (JInt 1)) ;;
     payment_payload <- lift (Py.get body "paymentPayload" (JDict [])) ;;
     payment_requirements <- lift (Py.get body "paymentRequirements" (JDict [])) ;;
     if negb (Py.truthy payment_payload) then
       ret (HTTPException 400 "paymentPayload is required")
     else if negb (Py.truthy payment_requirements) then
       ret (HTTPException 400 "paymentRequirements is required")
     else
       result <- verify_payment env facilitator_service
                   x402_version payment_payload payment_requirements ;;
       ret (Responds 200 result))
    (fun e =>
       ret (Responds 500 (invalid (JStr ("Verification error: " +:+ exn_msg e))))).

(** [POST /facilitator/settle] *)
Definition settle_endpoint (env : Env) (facilitator_service : FacilitatorService)
    (request_json : result json) : M endpoint_result :=
  try_except
    (body <- lift request_json ;;
     x402_version <- lift (Py.get body "x402Version" (JInt 1)) ;;
     payment_payload <- lift (Py.get body "paymentPayload" (JDict [])) ;;
     payment_requirements <- lift (Py.get body "paymentRequirements" (JDict [])) ;;
     if negb (Py.truthy payment_payload) then
       ret (HTTPException 400 "paymentPayload is required")
     else if negb (Py.truthy payment_requirements) then
       ret (HTTPException 400 "paymentRequirements is required")
     else
       result <- settle_payment env facilitator_service
                   x402_version payment_payload payment_requirements ;;
       success <- lift (Py.get result "success" JNull) ;;
       let status_code := if Py.truthy success then 200 else 400 in
       ret (Responds status_code result))
    (fun e =>
       ret (Responds 500 (failure (JStr ("Settlement error: " +:+ exn_msg e))))).

(** The status of what an endpoint hands over. *)
Definition status_of (r : endpoint_result) : Z :=
  match r with
  | Responds status _ => status
  | HTTPException status _ => status
  end.

(** The [AttributeError] text of [settle_payment]'s logging when one of
    its two arguments has no [keys]. *)
Definition keyless (payment_payload payment_requirements : json) : json :=
  let culprit := if is_dict payment_payload then payment_requirements else payment_payload in
  JStr ("Settlement failed: '" +:+ Py.type_name culprit +:+ "' object has no attribute 'keys'").

(** What the client of an endpoint receives: the framework sends a
    [JSONResponse] as it is and an [HTTPException] as the object
    [{detail: ...}] with the exception's status. *)
Definition served (env : Env) (r : endpoint_result) : HttpResponse :=
  match r with
  | Responds status content =>
      {| http_status_code := status;
         http_text := json_dumps env content;
         http_json := Ok content |}
  | HTTPException status detail =>
      {| http_status_code := status;
         http_text := json_dumps env (JDict [("detail", JStr detail)]);
         http_json := Ok (JDict [("detail", JStr detail)]) |}
  end.

Definition settle_request (x402_version payment_payload payment_requirements : json)
  : result json :=
  Ok (settle_body x402_version payment_payload payment_requirements).

(** ** Reading the header and writing the requirements *)

(** [FacilitatorService.extract_transaction_info]: the two [get]s of the
    first lines are outside the [try]. *)
Definition extract_transaction_info (env : Env) (payment_data : json) : result json :=
  match Py.get payment_data "payload" (JDict []) with
  | Raise e => Raise e
  | Ok payload =>
      match get_either payload "transaction" "transactionBcsBase64" with
      | Raise e => Raise e
      | Ok transaction_bcs =>
          match get_either payload "signature" "signatureBcsBase64" with
          | Raise e => Raise e
          | Ok signature_bcs =>
              if negb (Py.truthy transaction_bcs) then
                Raise (Exn ValueError "Transaction BCS not found in payment header")
              else
                match b64decode_value env transaction_bcs with
                | Ok transaction_bytes =>
                    Ok (JDict [("transaction_bcs", transaction_bcs);
                               ("signature_bcs", signature_bcs);
                               ("transaction_bytes", JStr (PyStr.hex transaction_bytes))])
                | Raise e =>
                    Raise (Exn ValueError ("Failed to decode transaction BCS: " +:+ exn_msg e))
                end
          end
      end
  end.

(** The keys of a JSON object, in order. *)
Definition keys_of (v : json) : list string :=
  match v with
  | JDict d => List.map fst d
  | _ => []
  end.

Definition mandatory_keys : list string :=
  ["scheme"; "network"; "maxAmountRequired"; "resource"; "description"; "mimeType";
   "payTo"; "maxTimeoutSeconds"; "asset"].

(** * Properties *)

Local Close Scope string_scope.

(** ** Strings, on examples *)

Example rstrip_ex : PyStr.rstrip "/" "/a/b//" = "/a/b". Proof. reflexivity. Qed.
Example rstrip_root : PyStr.rstrip "/" "///" = "". Proof. reflexivity. Qed.
Example to_Z_ex1 : PyStr.to_Z " +1_000 " = Some 1000. Proof. reflexivity. Qed.
Example to_Z_ex2 : PyStr.to_Z "1__0" = None. Proof. reflexivity. Qed.
Example to_Z_ex3 : PyStr.to_Z "-12" = Some (-12). Proof. reflexivity. Qed.
Example to_Z_ex4 : PyStr.to_Z "" = None. Proof. reflexivity. Qed.
Example of_Z_ex : PyStr.of_Z (-402) = "-402" /\ PyStr.of_Z 0 = "0". Proof. split; reflexivity. Qed.
Example hex_ex : PyStr.hex "AZ" = "415a". Proof. reflexivity. Qed.
Example contains_ex : PyStr.contains "/x/.well-known/agent.json/y" "/.well-known/agent.json" = true.
Proof. reflexivity. Qed.

(** ** Strings *)

Lemma append_cons (a : ascii) (s t : string) : String a s +:+ t = String a (s +:+ t).
Proof. reflexivity. Qed.

Lemma append_nil_l (s : string) : "" +:+ s = s.
Proof. reflexivity. Qed.

Lemma append_nil_r (s : string) : s +:+ "" = s.
Proof. induction s as [|a s IH]; [reflexivity | rewrite append_cons, IH; reflexivity]. Qed.

Lemma append_assoc (a b c : string) : (a +:+ b) +:+ c = a +:+ (b +:+ c).
Proof. induction a as [|x a IH]; [reflexivity | rewrite !append_cons, IH; reflexivity]. Qed.

(** [rstrip] removes a run of trailing slashes and nothing else. *)
Lemma rstrip_decompose (s : string) :
  exists k, s = PyStr.rstrip "/" s +:+ PyStr.repeat "/" k
            /\ PyStr.endswith (PyStr.rstrip "/" s) "/" = false.
Proof.
  induction s as [|a s [k [Hs He]]].
  - exists O. split; reflexivity.
  - simpl. destruct (PyStr.rstrip "/" s) as [|b r] eqn:Hr.
    + rewrite append_nil_l in Hs.
      destruct (PyStr.eqb_ascii a "/") eqn:Ha.
      * apply Ascii.eqb_eq in Ha. subst a. exists (S k). split; [|reflexivity].
        rewrite append_nil_l, Hs at 1. reflexivity.
      * exists k. split.
        -- rewrite append_cons, append_nil_l. now rewrite <- Hs.
        -- simpl. unfold PyStr.eqb_ascii in Ha. rewrite Ha. reflexivity.
    + exists k. split.
      * rewrite append_cons. now rewrite <- Hs.
      * change (PyStr.endswith (String a (String b r)) "/")
          with (String.eqb (String a (String b r)) "/" || PyStr.endswith (String b r) "/").
        rewrite He. simpl. destruct (Ascii.eqb a "/"); reflexivity.
Qed.

Lemma startswith_slash_cons (s : string) :
  PyStr.startswith ("/" +:+ s) "/" = true.
Proof. reflexivity. Qed.

Lemma normalize_path_normal_form (path : string) :
  is_normal_form_of path (normalize_path path).
Proof.
  destruct (rstrip_decompose path) as [k [Hs He]].
  exists (PyStr.rstrip "/" path), k. split; [exact Hs | split; [exact He |]].
  unfold normalize_path. destruct (PyStr.rstrip "/" path) as [|b r]; [reflexivity |].
  simpl String.eqb. cbv iota.
  destruct (PyStr.startswith (String b r) "/"); reflexivity.
Qed.

(** ** Route lookup *)

Lemma get_route_config_first_match (self : X402PaywallMiddleware) (method path : string) :
  _get_route_config self method path =
  first_match (routes self) (route_candidates method (normalize_path path)).
Proof.
  unfold _get_route_config, route_candidates. simpl.
  destruct (routes self !! _) as [c|]; [reflexivity |].
  rewrite <- append_assoc.
  destruct (routes self !! _) as [c|]; [reflexivity |].
  destruct (String.eqb (PyStr.upper method) "POST"); simpl; [|reflexivity].
  destruct (routes self !! "POST /"); reflexivity.
Qed.

(** ** Requests that are forwarded *)

Lemma should_skip_true (self : X402PaywallMiddleware) (path skip_path : string) :
  In skip_path (skip_paths self) ->
  PyStr.endswith path skip_path = true \/ PyStr.contains path skip_path = true ->
  _should_skip_payment self path = true.
Proof.
  intros Hin Hmatch. unfold _should_skip_payment.
  apply existsb_exists. exists skip_path. split; [exact Hin |].
  apply orb_true_iff. exact Hmatch.
Qed.

Lemma dispatch_skipped (env : Env) (self : X402PaywallMiddleware) (request : Request) (tr : trace) :
  _should_skip_payment self (req_path request) = true ->
  dispatch env self request tr = (call_next env request, (tr ++ [EvCallNext])%list).
Proof. intros H. unfold dispatch. rewrite H. reflexivity. Qed.

Lemma dispatch_unprotected (env : Env) (self : X402PaywallMiddleware) (request : Request) (tr : trace) :
  _get_route_config self (req_method request) (req_path request) = None ->
  dispatch env self request tr = (call_next env request, (tr ++ [EvCallNext])%list).
Proof.
  intros H. unfold dispatch. rewrite H.
  destruct (_should_skip_payment self (req_path request)); reflexivity.
Qed.

(** C5: route lookup normalizes the path (trailing slashes stripped, the
    root kept, a leading slash ensured) and returns the first match among
    the exact key, the key with a trailing slash and, for a POST, the key
    [POST /]; when none matches the request is forwarded to the handler
    and nothing else happens. *)
Theorem route_lookup_order (env : Env) (self : X402PaywallMiddleware)
    (request : Request) (tr : trace) :
  let method := req_method request in
  let path := req_path request in
  is_normal_form_of path (normalize_path path) /\
  _get_route_config self method path
    = first_match (routes self) (route_candidates method (normalize_path path)) /\
  (_get_route_config self method path = None ->
   dispatch env self request tr = (call_next env request, (tr ++ [EvCallNext])%list)).
Proof.
  intros method path. split; [apply normalize_path_normal_form | split].
  - apply get_route_config_first_match.
  - apply dispatch_unprotected.
Qed.

Lemma route_lookup_order_witness :
  _get_route_config sample_middleware "GET" "/health//" = None /\
  dispatch quiet_env sample_middleware
    {| req_method := "GET"; req_path := "/health//"; req_headers := [] |} []
  = (Ok ok_response, [EvCallNext]).
Proof.
  split; [vm_compute; reflexivity |].
  apply (proj2 (proj2 (route_lookup_order quiet_env sample_middleware
                         {| req_method := "GET"; req_path := "/health//"; req_headers := [] |} []))).
  vm_compute. reflexivity.
Defined.

(** C7: a request whose path ends with or contains a skip path is
    forwarded to the handler: no route lookup result is used, no
    challenge is built, nothing is verified or settled, whatever the
    route registry holds. *)
Theorem skip_list_bypasses_payment (env : Env) (self : X402PaywallMiddleware)
    (request : Request) (tr : trace) (skip_path : string) :
  In skip_path (skip_paths self) ->
  PyStr.endswith (req_path request) skip_path = true
  \/ PyStr.contains (req_path request) skip_path = true ->
  dispatch env self request tr = (call_next env request, (tr ++ [EvCallNext])%list).
Proof.
  intros Hin Hmatch. apply dispatch_skipped. eapply should_skip_true; eassumption.
Qed.

Lemma skip_list_bypasses_payment_witness :
  _get_route_config sample_middleware (req_method discovery_request)
    (req_path discovery_request) = Some sample_route /\
  dispatch quiet_env sample_middleware discovery_request []
  = (Ok ok_response, [EvCallNext]).
Proof.
  split; [vm_compute; reflexivity |].
  apply (skip_list_bypasses_payment quiet_env sample_middleware discovery_request []
           "/.well-known/agent.json").
  - simpl. left. reflexivity.
  - left. vm_compute. reflexivity.
Defined.

(** ** The challenge *)

Lemma payment_header_absent (request : Request) :
  headers_get (req_headers request) "x-payment" = None ->
  headers_get (req_headers request) "x-402" = None ->
  payment_header request = None.
Proof. intros H1 H2. unfold payment_header. rewrite H1, H2. reflexivity. Qed.

(** C3, as the code has it: a request that is not on the skip list,
    matches a protected route and carries neither [X-PAYMENT] nor [X-402]
    is answered 402 with the body [{x402Version: 1, accepts: [r]}], where
    [r.resource] is the absolute URL of the request (scheme from
    [x-forwarded-proto], else http; host from [host], else localhost; the
    path up to a question mark) and the body has no [error] entry; nothing
    is forwarded, verified or settled. *)
Theorem no_proof_challenge (env : Env) (self : X402PaywallMiddleware)
    (request : Request) (tr : trace) (route_config : RouteConfig) :
  _should_skip_payment self (req_path request) = false ->
  _get_route_config self (req_method request) (req_path request) = Some route_config ->
  headers_get (req_headers request) "x-payment" = None ->
  headers_get (req_headers request) "x-402" = None ->
  let url := default "http" (headers_get (req_headers request) "x-forwarded-proto")
             +:+ "://" +:+ default "localhost" (headers_get (req_headers request) "host")
             +:+ PyStr.split_head "?" (req_path request) in
  let r := to_payment_requirements url (pay_to self) route_config in
  dispatch env self request tr
  = (Ok (JSONResponse 402 (JDict [("x402Version", JInt 1); ("accepts", JList [to_dict r])])), tr)
  /\ Py.get (to_dict r) "resource" JNull = Ok (JStr url)
  /\ Py.assoc [("x402Version", JInt 1); ("accepts", JList [to_dict r])] "error" = None.
Proof.
  intros Hskip Hroute Hx Hy url r. split; [| split; reflexivity].
  unfold dispatch. rewrite Hskip, Hroute, (payment_header_absent _ Hx Hy).
  reflexivity.
Qed.

Lemma no_proof_challenge_witness :
  exists r,
    dispatch quiet_env sample_middleware unpaid_request []
    = (Ok (JSONResponse 402 (JDict [("x402Version", JInt 1); ("accepts", JList [to_dict r])])), [])
    /\ pr_resource r = "https://agent.example/sentiment/"
    /\ pr_max_amount_required r = "100000000".
Proof.
  eexists. split.
  - apply (no_proof_challenge quiet_env sample_middleware unpaid_request [] sample_route);
      vm_compute; reflexivity.
  - split; reflexivity.
Defined.

(** C3 as stated fails on the skip list: this request matches the
    protected route [POST /] and carries no proof header, and it is
    forwarded to the handler, whose answer (200) comes back. *)
Lemma no_proof_challenge_counterexample :
  _get_route_config sample_middleware (req_method discovery_request)
    (req_path discovery_request) = Some sample_route /\
  headers_get (req_headers discovery_request) "x-payment" = None /\
  headers_get (req_headers discovery_request) "x-402" = None /\
  dispatch quiet_env sample_middleware discovery_request [] = (Ok ok_response, [EvCallNext]) /\
  status_code ok_response <> 402.
Proof. repeat split; try (vm_compute; reflexivity). vm_compute. discriminate. Qed.

(** ** Verification with the SDK *)

Lemma count_snoc (p : event -> bool) (tr : trace) (ev : event) :
  count p (tr ++ [ev]) = (count p tr + (if p ev then 1 else 0))%nat.
Proof.
  unfold count. rewrite List.filter_app, List.length_app. simpl.
  destruct (p ev); reflexivity.
Qed.

Lemma read_requirements_to_dict (r : PaymentRequirements) (amount : Z) :
  PyStr.to_Z (pr_max_amount_required r) = Some amount ->
  read_requirements (to_dict r)
  = Ok (PyStr.lower (pr_pay_to r), amount, pr_max_timeout_seconds r).
Proof.
  intros H. unfold read_requirements, to_dict. simpl. rewrite H. reflexivity.
Qed.

Lemma check_transfer_skipped (p : TransactionPayload) (pay : string) (amt : Z) :
  comparison_skipped p -> check_transfer p pay amt = Ok None.
Proof.
  intros H. unfold check_transfer.
  destruct H as [Hv | ef Hv Hf | ef f Hv Hf Hc | ef Hv Ha | ef args Hv Ha Hl]; rewrite Hv.
  - reflexivity.
  - rewrite Hf. reflexivity.
  - rewrite Hf, Hc. reflexivity.
  - destruct (function ef) as [f|]; [| reflexivity].
    destruct (is_coin_transfer f); [| reflexivity]. rewrite Ha. reflexivity.
  - destruct (function ef) as [f|]; [| reflexivity].
    destruct (is_coin_transfer f); [| reflexivity]. rewrite Ha.
    destruct args as [|a0 [|a1 rest]]; [reflexivity | reflexivity |].
    simpl in Hl. lia.
Qed.

Section SdkPath.

(** A call of [_verify_with_aptos_sdk] in which the transaction
    deserializes to [raw] and the three fields of the requirements are
    read: [pay] is the lower-cased [payTo], [amt] is [maxAmountRequired]
    and [tmo] is [maxTimeoutSeconds]. *)
Variables (env : Env) (self : FacilitatorService).
Variables (transaction_bytes : string) (reqs : json).
Variables (raw : RawTransaction) (pay : string) (amt tmo : Z).
Variable tr : trace.

Hypothesis deserialized : RawTransaction_deserialize env transaction_bytes = Ok raw.
Hypothesis requirements_read : read_requirements reqs = Ok (pay, amt, tmo).

Let current_time : Z := time_time env (count is_time tr).
Let verdict : result json := fst (_verify_with_aptos_sdk env self transaction_bytes reqs tr).

Lemma verify_with_aptos_sdk_eq :
  _verify_with_aptos_sdk env self transaction_bytes reqs tr =
  match expiration_timestamp_secs raw with
  | Some e =>
      (Ok (if e <? current_time then invalid (JStr "Transaction has expired")
           else if e >? current_time + tmo then
                  invalid (JStr "Transaction expiration exceeds maximum timeout")
                else transfer_verdict raw pay amt),
       (tr ++ [EvTime])%list)
  | None => (Ok (transfer_verdict raw pay amt), tr)
  end.
Proof.
  unfold _verify_with_aptos_sdk, try_except, bind, lift.
  rewrite deserialized, requirements_read.
  unfold check_expiration, transfer_verdict.
  destruct (expiration_timestamp_secs raw) as [e|].
  - unfold bind, now, ret. fold current_time.
    destruct (e <? _); [reflexivity |].
    destruct (e >? _); [reflexivity |].
    destruct (check_transfer _ _ _) as [[r|]|x]; reflexivity.
  - unfold ret. destruct (check_transfer _ _ _) as [[r|]|x]; reflexivity.
Qed.

(** The expiry checks, for a transaction object that carries an
    attribute [expiration_timestamp_secs]: with the requirements read,
    it is rejected with [Transaction has expired] when the timestamp is
    below the current time, and with [Transaction expiration exceeds
    maximum timeout] when it is above the current time plus
    [maxTimeoutSeconds] and the first check has not fired; an object
    without that attribute skips both checks: the clock is not read and
    the verdict is that of the checks that follow. *)
Theorem expiry_checks :
  match expiration_timestamp_secs raw with
  | Some expiration =>
      (expiration < current_time ->
       verdict = Ok (invalid (JStr "Transaction has expired"))) /\
      (0 <= tmo -> expiration > current_time + tmo ->
       verdict = Ok (invalid (JStr "Transaction expiration exceeds maximum timeout"))) /\
      (current_time <= expiration -> expiration > current_time + tmo ->
       verdict = Ok (invalid (JStr "Transaction expiration exceeds maximum timeout")))
  | None =>
      _verify_with_aptos_sdk env self transaction_bytes reqs tr
      = (Ok (transfer_verdict raw pay amt), tr)
  end.
Proof.
  unfold verdict. rewrite verify_with_aptos_sdk_eq.
  destruct (expiration_timestamp_secs raw) as [e|]; [| reflexivity].
  simpl fst.
  assert (Hexceeds : current_time <= e -> e > current_time + tmo ->
                     Ok (if e <? current_time
                         then invalid (JStr "Transaction has expired")
                         else if e >? current_time + tmo
                              then invalid (JStr "Transaction expiration exceeds maximum timeout")
                              else transfer_verdict raw pay amt)
                     = Ok (invalid (JStr "Transaction expiration exceeds maximum timeout"))).
  { intros Hle Hgt.
    assert (H1 : (e <? current_time) = false) by (apply Z.ltb_ge; lia).
    assert (H2 : (e >? current_time + tmo) = true) by (apply Z.gtb_lt; lia).
    rewrite H1, H2. reflexivity. }
  split; [| split].
  - intros H. apply Z.ltb_lt in H. rewrite H. reflexivity.
  - intros Htmo Hgt. apply Hexceeds; lia.
  - exact Hexceeds.
Qed.

Hypothesis in_window : within_window raw current_time tmo.

Lemma verify_within_window : verdict = Ok (transfer_verdict raw pay amt).
Proof.
  unfold verdict. rewrite verify_with_aptos_sdk_eq.
  pose proof in_window as Hwin. unfold within_window in Hwin.
  destruct (expiration_timestamp_secs raw) as [e|]; [| reflexivity].
  simpl fst.
  assert (H1 : (e <? current_time) = false) by (apply Z.ltb_ge; lia).
  assert (H2 : (e >? current_time + tmo) = false).
  { rewrite Z.gtb_ltb. apply Z.ltb_ge. lia. }
  rewrite H1, H2. reflexivity.
Qed.

(** C10: on the SDK path, a deserialized transaction that passes or
    skips the expiry checks is accepted, with the sender as payer,
    whenever the recipient and amount comparison is not reached: the
    payload is no entry-function call, its function is not a recognized
    coin transfer, or the call has fewer than two arguments. *)
Theorem accepted_without_comparison :
  comparison_skipped (payload raw) ->
  verdict = Ok (JDict [("isValid", JBool true); ("payer", JStr (sender raw))]).
Proof.
  intros Hskip. rewrite verify_within_window.
  unfold transfer_verdict. rewrite (check_transfer_skipped _ pay amt Hskip). reflexivity.
Qed.

(** The recipient and amount comparison, for an entry function object
    whose function text names a coin transfer and that carries its
    arguments under [arguments]: when the lower-cased first argument
    differs from the lower-cased [payTo] the verdict is invalid with
    [Recipient mismatch: expected X, got Y]; when the recipient matches
    and the amount is below [maxAmountRequired] the verdict is invalid
    with [Amount insufficient: required X, got Y]; when the recipient
    matches and the amount is [maxAmountRequired] or more, the
    transaction is accepted with the sender as payer. *)
Theorem transfer_checks (ef : EntryFunction) (f : string) (a0 a1 : sdk_arg)
    (rest : list sdk_arg) (amount : Z) :
  value (payload raw) = Some ef ->
  function ef = Some f ->
  is_coin_transfer f = true ->
  arguments ef = Some (a0 :: a1 :: rest) ->
  arg_amount a1 = Ok amount ->
  let recipient := PyStr.lower (arg_str a0) in
  (recipient <> pay ->
   verdict = Ok (invalid (JStr ("Recipient mismatch: expected " +:+ pay
                                  +:+ ", got " +:+ recipient)))) /\
  (recipient = pay -> amount < amt ->
   verdict = Ok (invalid (JStr ("Amount insufficient: required " +:+ PyStr.of_Z amt
                                  +:+ ", got " +:+ PyStr.of_Z amount)))) /\
  (recipient = pay -> amt <= amount ->
   verdict = Ok (valid (JStr (sender raw)))).
Proof.
  intros Hv Hf Hc Ha Hamt recipient.
  rewrite verify_within_window.
  unfold transfer_verdict, check_transfer. rewrite Hv, Hf, Hc, Ha, Hamt.
  fold recipient. repeat split.
  - intros Hne. apply String.eqb_neq in Hne. rewrite Hne. reflexivity.
  - intros He Hlt. apply String.eqb_eq in He. rewrite He. simpl.
    apply Z.ltb_lt in Hlt. rewrite Hlt. reflexivity.
  - intros He Hge. apply String.eqb_eq in He. rewrite He. simpl.
    apply Z.ltb_ge in Hge. rewrite Hge. reflexivity.
Qed.

End SdkPath.

(** An object with the attribute: the clock reads 200 and the
    timestamp is 100. *)
Example expired_example :
  fst (_verify_with_aptos_sdk
         (sdk_env (sample_transaction (Some 100) (transfer "0x1::coin::transfer" [])) 200)
         sample_service "tx" (to_dict sample_requirements) [])
  = Ok (invalid (JStr "Transaction has expired")).
Proof. vm_compute. reflexivity. Qed.

Lemma accepted_without_comparison_witness :
  fst (_verify_with_aptos_sdk
         (sdk_env (sample_transaction (Some 500)
                     (transfer "0x1::coin::transfer" [ArgStr "0xBAD"])) 200)
         sample_service "tx" (to_dict sample_requirements) [])
  = Ok (JDict [("isValid", JBool true); ("payer", JStr "0xB0B")]).
Proof.
  apply (accepted_without_comparison
           (sdk_env (sample_transaction (Some 500)
                       (transfer "0x1::coin::transfer" [ArgStr "0xBAD"])) 200)
           sample_service "tx" (to_dict sample_requirements)
           (sample_transaction (Some 500) (transfer "0x1::coin::transfer" [ArgStr "0xBAD"]))
           "0xa11ce" 100000000 600 [] eq_refl eq_refl).
  - unfold within_window. simpl. lia.
  - eapply skipped_few_arguments; [reflexivity | reflexivity | simpl; lia].
Defined.

(** ** The transactions the SDK deserializes *)

(** Every transaction object of the SDK is accepted once the
    requirements are read, with its sender as payer and without a
    reading of the clock: neither its expiration nor its recipient and
    amount are looked at. *)
Lemma sdk_transaction_accepted (env : Env) (self : FacilitatorService)
    (transaction_bytes : string) (reqs : json) (t : AptosSdk.RawTransaction)
    (pay : string) (amt tmo : Z) (tr : trace) :
  RawTransaction_deserialize env transaction_bytes = Ok (as_read t) ->
  read_requirements reqs = Ok (pay, amt, tmo) ->
  _verify_with_aptos_sdk env self transaction_bytes reqs tr
  = (Ok (valid (JStr (AptosSdk.sender t))), tr).
Proof.
  intros Hd Hr.
  rewrite (verify_with_aptos_sdk_eq env self transaction_bytes reqs (as_read t) pay amt tmo tr
             Hd Hr).
  cbn [expiration_timestamp_secs as_read].
  unfold transfer_verdict, check_transfer. cbn [payload value function arguments as_read sender].
  destruct (is_coin_transfer _); reflexivity.
Qed.

(** C2: a coin transfer of one unit to [0x0bad], as the SDK
    deserializes it, is accepted although the route asks for 100000000
    units payable to [0xa11ce]: the comparison of recipient and amount
    is not reached, because the function text of the object is
    [transfer] and its arguments are under [args]. *)
Theorem underpaid_transfer_accepted :
  read_requirements (to_dict sample_requirements) = Ok ("0xa11ce", 100000000, 600) /\
  AptosSdk.args (AptosSdk.payload underpaid_transfer)
  = [bcs_address [11; 173]%nat; bcs_u64 1] /\
  verify_payment (sdk_env (as_read underpaid_transfer) 100) sample_service (JInt 1)
    paid_payload (to_dict sample_requirements) []
  = (Ok (valid (JStr "0xb0b")), [EvVerify]).
Proof. split; [reflexivity | split; [reflexivity | vm_compute; reflexivity]]. Qed.

(** C6: a transfer of the required amount to the right recipient that
    expired at 50, as the SDK deserializes it, is accepted when the
    clock reads 100, and the clock is not read: the expiration of the
    object is under [expiration_timestamps_secs], an attribute the
    verifier does not look up. *)
Theorem expired_transaction_accepted :
  AptosSdk.expiration_timestamps_secs expired_transfer
  < time_time (sdk_env (as_read expired_transfer) 100) 0 /\
  verify_payment (sdk_env (as_read expired_transfer) 100) sample_service (JInt 1)
    paid_payload (to_dict sample_requirements) []
  = (Ok (valid (JStr "0xb0b")), [EvVerify]).
Proof. split; [reflexivity | vm_compute; reflexivity]. Qed.

(** ** Settlement *)

Lemma count_app (p : event -> bool) (tr1 tr2 : trace) :
  count p (tr1 ++ tr2) = (count p tr1 + count p tr2)%nat.
Proof. unfold count. rewrite List.filter_app, List.length_app. reflexivity. Qed.

(** A settle call on a payload and requirements that are dicts: one
    entry, one POST, and the result read off the outcome of that POST. *)
Lemma settle_payment_eq (env : Env) (self : FacilitatorService)
    (x402_version : json) (p r : dict) (tr : trace) :
  settle_payment env self x402_version (JDict p) (JDict r) tr =
  (Ok (settle_result_of
         (requests_post env (count is_post tr) (settle_url self)
            (settle_body x402_version (JDict p) (JDict r)))),
   tr ++ [EvSettle; EvPost (settle_url self) (settle_body x402_version (JDict p) (JDict r))]).
Proof.
  unfold settle_payment, bind, emit, try_except, lift, post, ret. simpl.
  rewrite count_snoc. simpl. rewrite Nat.add_0_r.
  fold (settle_url self). fold (settle_body x402_version (JDict p) (JDict r)).
  rewrite <- List.app_assoc. simpl.
  unfold settle_result_of.
  destruct (requests_post env _ _ _) as [response|e].
  - destruct (http_status_code response =? 200).
    + destruct (http_json response) as [j|e]; [reflexivity |].
      destruct (is_RequestException e); reflexivity.
    + reflexivity.
  - destruct (is_RequestException e); reflexivity.
Qed.

(** C8, as the code has it: a settle call posts once; an answer with
    status 200 whose body parses is returned as it is; another status
    gives [{success: False, error: e}], where [e] is the [error] entry of
    the body when the body is a JSON object that has one, else its
    [message] entry, else [Unknown error], and when the body is no JSON
    object [e] is [HTTP <code>: ] followed by the first 500 characters of
    the body; a [RequestException] of the POST gives [{success: False,
    error: Facilitator request failed: <cause>}]. *)
Theorem settle_results (env : Env) (self : FacilitatorService)
    (x402_version : json) (p r : dict) (tr : trace) :
  let url := facilitator_url self +:+ "/settle" in
  let body := JDict [("x402Version", x402_version); ("paymentPayload", JDict p);
                     ("paymentRequirements", JDict r)] in
  let settled := settle_payment env self x402_version (JDict p) (JDict r) tr in
  snd settled = tr ++ [EvSettle; EvPost url body] /\
  match requests_post env (count is_post tr) url body with
  | Ok response =>
      let code := http_status_code response in
      (code = 200 -> forall j, http_json response = Ok j -> fst settled = Ok j) /\
      (code <> 200 -> forall d, http_json response = Ok (JDict d) ->
       fst settled
       = Ok (JDict [("success", JBool false);
                    ("error", match Py.assoc d "error", Py.assoc d "message" with
                              | Some e, _ => e
                              | None, Some m => m
                              | None, None => JStr "Unknown error"
                              end)])) /\
      (code <> 200 -> (forall d, http_json response <> Ok (JDict d)) ->
       fst settled
       = Ok (JDict [("success", JBool false);
                    ("error", JStr ("HTTP " +:+ PyStr.of_Z code +:+ ": "
                                      +:+ PyStr.take 500 (http_text response)))]))
  | Raise e =>
      is_RequestException e = true ->
      fst settled
      = Ok (JDict [("success", JBool false);
                   ("error", JStr ("Facilitator request failed: " +:+ exn_msg e))])
  end.
Proof.
  intros url body settled. subst settled. rewrite settle_payment_eq.
  fold url. unfold settle_url, settle_body. fold url. fold body. simpl fst. simpl snd.
  split; [reflexivity |].
  destruct (requests_post env (count is_post tr) url body) as [response|e]; simpl.
  - repeat split.
    + intros Hc j Hj. apply Z.eqb_eq in Hc. rewrite Hc, Hj. reflexivity.
    + intros Hc d Hd. apply Z.eqb_neq in Hc. rewrite Hc.
      unfold settle_error_msg. rewrite Hd. simpl.
      destruct (Py.assoc d "error"), (Py.assoc d "message"); reflexivity.
    + intros Hc Hd. apply Z.eqb_neq in Hc. rewrite Hc.
      unfold settle_error_msg.
      destruct (http_json response) as [j|x]; [| reflexivity].
      destruct j; try reflexivity. exfalso. eapply Hd. reflexivity.
  - intros He. rewrite He. reflexivity.
Qed.

Lemma settle_results_witness :
  fst (settle_payment
         (remote_env {| http_status_code := 400; http_text := "{...}";
                        http_json := Ok (JDict [("message", JStr "sequence number too old")]) |})
         sample_service (JInt 1) (JDict [("transaction", JStr "dHg=")]) (JDict []) [])
  = Ok (JDict [("success", JBool false); ("error", JStr "sequence number too old")]).
Proof.
  refine (proj1 (proj2 (proj2 (settle_results
           (remote_env {| http_status_code := 400; http_text := "{...}";
                          http_json := Ok (JDict [("message", JStr "sequence number too old")]) |})
           sample_service (JInt 1) [("transaction", JStr "dHg=")] [] []))) _
           [("message", JStr "sequence number too old")] eq_refl).
  simpl. lia.
Defined.

(** C8 as stated fails on a long body: the answer is 502 with 501
    characters that are no JSON, and the error text carries 500 of
    them. *)
Lemma settle_results_counterexample :
  http_status_code bad_gateway = 502 /\
  (exists e, http_json bad_gateway = Raise e) /\
  fst (settle_payment (remote_env bad_gateway) sample_service (JInt 1)
         (JDict [("transaction", JStr "dHg=")]) (to_dict sample_requirements) [])
  = Ok (JDict [("success", JBool false);
               ("error", JStr ("HTTP 502: " +:+ PyStr.repeat "x" 500))]) /\
  fst (settle_payment (remote_env bad_gateway) sample_service (JInt 1)
         (JDict [("transaction", JStr "dHg=")]) (to_dict sample_requirements) [])
  <> Ok (JDict [("success", JBool false);
                ("error", JStr ("HTTP 502: " +:+ http_text bad_gateway))]).
Proof.
  split; [reflexivity |]. split; [eexists; reflexivity |].
  split; [vm_compute; reflexivity |]. vm_compute. discriminate.
Qed.

(** ** What verification does to the world *)

Ltac no_effect tr :=
  eexists; exists (@nil event); split;
  [rewrite (List.app_nil_r tr); reflexivity | left; reflexivity].

Ltac one_effect :=
  eexists; eexists; split;
  [reflexivity | first [right; left; reflexivity | right; right; eexists; eexists; reflexivity]].

Lemma verify_with_aptos_sdk_trace (env : Env) (self : FacilitatorService)
    (transaction_bytes : string) (reqs : json) (tr : trace) :
  exists r evs,
    _verify_with_aptos_sdk env self transaction_bytes reqs tr = (Ok r, tr ++ evs)
    /\ verify_effects evs.
Proof.
  unfold _verify_with_aptos_sdk, try_except, bind, lift.
  destruct (RawTransaction_deserialize env transaction_bytes) as [raw|e]; [| no_effect tr].
  destruct (read_requirements reqs) as [[[pay amt] tmo]|e]; [| no_effect tr].
  unfold check_expiration.
  destruct (expiration_timestamp_secs raw) as [x|].
  - unfold bind, now, ret.
    destruct (x <? _); [one_effect |].
    destruct (x >? _); [one_effect |].
    destruct (check_transfer _ _ _) as [[r|]|e]; one_effect.
  - unfold ret. destruct (check_transfer _ _ _) as [[r|]|e]; no_effect tr.
Qed.

Lemma simulate_transaction_trace (env : Env) (self : FacilitatorService)
    (transaction_bytes : string) (tr : trace) :
  exists r u b,
    _simulate_transaction env self transaction_bytes tr = (Ok r, tr ++ [EvPost u b]).
Proof.
  unfold _simulate_transaction, try_except, bind, lift, post, ret.
  destruct (requests_post env _ _ _) as [response|e]; [| eexists _, _, _; reflexivity].
  destruct (http_status_code response =? 200); [| eexists _, _, _; reflexivity].
  destruct (http_json response) as [j|e]; [| eexists _, _, _; reflexivity].
  destruct (Py.contains "result" j) as [[|]|e]; try (eexists _, _, _; reflexivity).
  - destruct (Py.getitem j "result"); eexists _, _, _; reflexivity.
  - destruct (Py.get j "error" _); eexists _, _, _; reflexivity.
Qed.

Lemma verify_with_rpc_trace (env : Env) (self : FacilitatorService)
    (transaction_bytes : string) (reqs : json) (tr : trace) :
  exists res u b,
    _verify_with_rpc env self transaction_bytes reqs tr = (res, tr ++ [EvPost u b]).
Proof.
  destruct (simulate_transaction_trace env self transaction_bytes tr) as (r & u & b & H).
  unfold _verify_with_rpc, bind. rewrite H. unfold lift, ret.
  destruct (Py.get r "success" JNull) as [s|e]; [| eexists _, _, _; reflexivity].
  destruct (negb (Py.truthy s)).
  - destruct (Py.get r "error" _); eexists _, _, _; reflexivity.
  - destruct (Py.get r "result" _) as [x|e]; [| eexists _, _, _; reflexivity].
    destruct (Py.get x "sender" JNull) as [s1|e]; [| eexists _, _, _; reflexivity].
    destruct (Py.truthy s1) eqn:Hs1.
    + rewrite Hs1. eexists _, _, _; reflexivity.
    + destruct (Py.get x "transaction" _) as [t|e]; [| eexists _, _, _; reflexivity].
      destruct (Py.get t "sender" JNull) as [s2|e]; [| eexists _, _, _; reflexivity].
      destruct (negb (Py.truthy s2)); eexists _, _, _; reflexivity.
Qed.

Lemma verify_transaction_on_chain_trace (env : Env) (self : FacilitatorService)
    (transaction_bcs : json) (reqs : json) (tr : trace) :
  exists r evs,
    verify_transaction_on_chain env self transaction_bcs reqs tr = (Ok r, tr ++ evs)
    /\ verify_effects evs.
Proof.
  unfold verify_transaction_on_chain, try_except, bind, lift.
  destruct (b64decode_value env transaction_bcs) as [bytes|e]; [| unfold ret; no_effect tr].
  destruct (APTOS_SDK_AVAILABLE env).
  - destruct (verify_with_aptos_sdk_trace env self bytes reqs tr) as (r & evs & H & Hevs).
    rewrite H. exists r, evs. split; [reflexivity | exact Hevs].
  - destruct (verify_with_rpc_trace env self bytes reqs tr) as (res & u & b & H).
    rewrite H. destruct res; unfold ret; one_effect.
Qed.

(** A verification returns a verdict, never raises, and its effects are
    its entry followed by at most one reading of the clock or one POST. *)
Lemma verify_payment_trace (env : Env) (self : FacilitatorService)
    (x402_version payment_payload reqs : json) (tr : trace) :
  exists r evs,
    verify_payment env self x402_version payment_payload reqs tr
    = (Ok r, tr ++ EvVerify :: evs)
    /\ verify_effects evs.
Proof.
  unfold verify_payment, bind, emit, try_except, lift, ret.
  destruct (get_either payment_payload "transaction" _) as [bcs|e].
  2:{ eexists; exists []. split; [reflexivity | left; reflexivity]. }
  destruct (get_either payment_payload "signature" _) as [sig|e].
  2:{ eexists; exists []. split; [reflexivity | left; reflexivity]. }
  destruct (negb (Py.truthy bcs)).
  { eexists; exists []. split; [reflexivity | left; reflexivity]. }
  destruct (verify_transaction_on_chain_trace env self bcs reqs (tr ++ [EvVerify]))
    as (r & evs & H & Hevs).
  rewrite H. exists r, evs. split; [| exact Hevs].
  rewrite <- List.app_assoc. reflexivity.
Qed.

(** ** The paid path of [dispatch] *)

Lemma keys_ok_dict (v : json) (ks : list string) :
  Py.keys v = Ok ks -> exists d, v = JDict d.
Proof. destruct v; try discriminate. intros _. eexists; reflexivity. Qed.

Lemma to_dict_is_dict (r : PaymentRequirements) : exists d, to_dict r = JDict d.
Proof. unfold to_dict. eexists; reflexivity. Qed.

Lemma create_402_eq (r : PaymentRequirements) (error : json) :
  _create_payment_required_response r error
  = JSONResponse 402 (JDict (challenge r ++ error_entry error)).
Proof.
  unfold _create_payment_required_response, error_entry, challenge.
  destruct (Py.truthy error); [reflexivity | rewrite List.app_nil_r; reflexivity].
Qed.

Ltac trace_eq :=
  unfold ret;
  try match goal with b := _ : list event |- _ => unfold b end;
  rewrite <- ?List.app_assoc; rewrite ?List.app_nil_r; reflexivity.

Ltac stop_here tr :=
  eexists; exists (@nil event), (@nil event), (@nil event);
  split; [rewrite !List.app_nil_r; reflexivity |];
  split; [reflexivity |]; split; [reflexivity |];
  split; [left; reflexivity |]; split; [left; reflexivity |];
  try exact I.

Lemma verify_effects_quiet (evs : list event) :
  verify_effects evs ->
  count is_settle (EvVerify :: evs) = 0%nat /\ count is_sleep (EvVerify :: evs) = 0%nat.
Proof.
  intros [H | [H | (u & b & H)]]; subst evs; split; reflexivity.
Qed.

Lemma reports_failure_get (j : json) :
  reports_failure j =
  match Py.get j "success" JNull with
  | Ok s => negb (Py.truthy s)
  | Raise _ => false
  end.
Proof. reflexivity. Qed.

(** Every way through the body of the [try]. *)
Lemma pay_and_forward_outcome (env : Env) (self : X402PaywallMiddleware)
    (request : Request) (r : PaymentRequirements) (hdr : string) (tr : trace) :
  exists res pre S fin,
    pay_and_forward env self request r hdr tr = (res, tr ++ pre ++ S ++ fin) /\
    count is_settle pre = 0%nat /\
    count is_sleep pre = 0%nat /\
    settle_shape env (facilitator_service self) (to_dict r) (tr ++ pre) S /\
    (fin = [] \/ fin = [EvCallNext]) /\
    match res with
    | Raise _ => True
    | Ok resp =>
        (fin = [] /\ exists error, resp = _create_payment_required_response r error)
        \/ forwarded_after_payment env self request r hdr tr resp
    end.
Proof.
  unfold pay_and_forward, bind, lift.
  destruct (_decode_payment_header env hdr) as [payload|e] eqn:Hdec; [| stop_here tr].
  destruct (Py.get payload "scheme" JNull) as [x0|e]; [| stop_here tr].
  destruct (Py.keys payload) as [ks|e]; [| stop_here tr].
  destruct (Py.get payload "scheme" (JStr "exact")) as [sv|e]; [| stop_here tr].
  destruct (Py.lower sv) as [scheme|e]; [| stop_here tr].
  destruct (Py.get payload "payload" payload) as [data|e] eqn:Hdata; [| stop_here tr].
  destruct (Py.keys data) as [dks|e] eqn:Hkeys; [| stop_here tr].
  destruct (keys_ok_dict _ _ Hkeys) as [p Hp]. subst data.
  destruct (log_length (JDict p) "transaction") as [[]|e]; [| stop_here tr].
  destruct (log_length (JDict p) "signature") as [[]|e]; [| stop_here tr].
  destruct (Py.get payload "x402Version" (JInt 1)) as [v|e] eqn:Hver; [| stop_here tr].
  destruct (verify_payment_trace env (facilitator_service self) v (JDict p) (to_dict r) tr)
    as (vr & evs & Hv & Hevs).
  rewrite Hv.
  destruct (verify_effects_quiet evs Hevs) as [Hq1 Hq2].
  destruct (Py.get vr "isValid" JNull) as [iv|e] eqn:Hiv.
  2:{ eexists; exists (EvVerify :: evs), [], [].
      split; [trace_eq |].
      repeat split; auto; left; reflexivity. }
  destruct (Py.truthy iv) eqn:Htiv; cbv beta iota delta [negb].
  2:{ destruct (Py.get vr "invalidReason" _) as [reason|e];
      eexists; exists (EvVerify :: evs), [], [];
      (split; [trace_eq |]);
      repeat split; auto; try (left; reflexivity).
      left. split; [reflexivity |]. eexists; reflexivity. }
  assert (Hvalid : reports_valid vr = true).
  { unfold reports_valid. rewrite Hiv. exact Htiv. }
  destruct (to_dict_is_dict r) as [rd Hrd].
  set (svc := facilitator_service self) in *.
  set (base := tr ++ EvVerify :: evs) in *.
  set (ev_post := EvPost (settle_url svc) (settle_body v (JDict p) (to_dict r))).
  assert (Hs1 : forall t, settle_payment env svc v (JDict p) (to_dict r) t
                = (Ok (settle_result_of
                         (requests_post env (count is_post t) (settle_url svc)
                            (settle_body v (JDict p) (to_dict r)))),
                   t ++ [EvSettle; ev_post])).
  { intros t. subst ev_post. rewrite Hrd. apply settle_payment_eq. }
  rewrite (Hs1 base).
  set (first := settle_result_of (requests_post env (count is_post base) _ _)) in *.
  assert (Hfirst : fst (settle_payment env svc v (JDict p) (to_dict r) base) = Ok first).
  { rewrite (Hs1 base). reflexivity. }
  pose proof (reports_failure_get first) as Hrf.
  destruct (Py.get first "success" JNull) as [s1|e] eqn:Hget1.
  2:{ eexists; exists (EvVerify :: evs), [EvSettle; ev_post], [].
      split; [trace_eq |].
      repeat split; auto; try (left; reflexivity).
      right. exists v, p, first. split; [exact Hfirst |]. left. split; [exact Hrf | reflexivity]. }
  destruct (Py.truthy s1) eqn:Hts1; cbv beta iota delta [negb] in Hrf |- *.
  - (* the first attempt reports success *)
    unfold ret. cbv beta iota. rewrite Hget1, Hts1. cbv beta iota delta [negb].
    unfold forward.
    assert (Hshape : settle_shape env svc (to_dict r) base [EvSettle; ev_post]).
    { right. exists v, p, first. split; [exact Hfirst |]. left. split; [exact Hrf | reflexivity]. }
    destruct (call_next env request) as [h|e] eqn:Hh.
    + eexists; exists (EvVerify :: evs), [EvSettle; ev_post], [EvCallNext].
      split; [trace_eq |].
      repeat split; auto.
      right. exists payload, v, p, vr, first, base, h.
      split; [exact Hdec |]. split; [exact Hdata |]. split; [exact Hver |].
      split; [exact (f_equal fst Hv) |]. split; [exact Hvalid |].
      split; [exact Hfirst |].
      split; [unfold reports_success; rewrite Hget1; exact Hts1 |].
      split; [exact Hh | reflexivity].
    + eexists; exists (EvVerify :: evs), [EvSettle; ev_post], [EvCallNext].
      split; [trace_eq |].
      repeat split; auto.
  - (* the first attempt reports a failure: sleep, then the retry *)
    unfold sleep, emit. rewrite (Hs1 ((base ++ [EvSettle; ev_post]) ++ [EvSleep 1])).
    set (second := settle_result_of _).
    assert (Hshape : settle_shape env svc (to_dict r) base
                       [EvSettle; ev_post; EvSleep 1; EvSettle; ev_post]).
    { right. exists v, p, first. split; [exact Hfirst |]. right. split; [exact Hrf | reflexivity]. }
    assert (Hsecond : fst (settle_payment env svc v (JDict p) (to_dict r)
                             ((base ++ [EvSettle; ev_post]) ++ [EvSleep 1])) = Ok second).
    { rewrite Hs1. reflexivity. }
    destruct (Py.get second "success" JNull) as [s2|e] eqn:Hget2.
    2:{ eexists; exists (EvVerify :: evs), [EvSettle; ev_post; EvSleep 1; EvSettle; ev_post], [].
        split; [trace_eq |].
        repeat split; auto; left; reflexivity. }
    destruct (Py.truthy s2) eqn:Hts2; cbv beta iota delta [negb].
    + unfold forward.
      destruct (call_next env request) as [h|e] eqn:Hh.
      * eexists; exists (EvVerify :: evs),
          [EvSettle; ev_post; EvSleep 1; EvSettle; ev_post], [EvCallNext].
        split; [trace_eq |].
        repeat split; auto.
        right. exists payload, v, p, vr, second, ((base ++ [EvSettle; ev_post]) ++ [EvSleep 1]), h.
        split; [exact Hdec |]. split; [exact Hdata |]. split; [exact Hver |].
        split; [exact (f_equal fst Hv) |]. split; [exact Hvalid |].
        split; [exact Hsecond |].
        split; [unfold reports_success; rewrite Hget2; exact Hts2 |].
        split; [exact Hh | reflexivity].
      * eexists; exists (EvVerify :: evs),
          [EvSettle; ev_post; EvSleep 1; EvSettle; ev_post], [EvCallNext].
        split; [trace_eq |].
        repeat split; auto.
    + destruct (Py.get second "error" _) as [err|e];
        eexists; exists (EvVerify :: evs),
          [EvSettle; ev_post; EvSleep 1; EvSettle; ev_post], [];
        (split; [trace_eq |]);
        repeat split; auto; try (left; reflexivity).
      left. split; [reflexivity |]. eexists; reflexivity.
Qed.

(** ** [dispatch] *)

Lemma settle_shape_count (env : Env) (self : FacilitatorService) (reqs : json)
    (base : trace) (S : list event) :
  settle_shape env self reqs base S -> (count is_settle S <= 2)%nat.
Proof.
  intros [H | (v & p & first & _ & [[_ H] | [_ H]])]; subst S; unfold count; simpl; lia.
Qed.

Lemma count_fin (fin : list event) :
  fin = [] \/ fin = [EvCallNext] -> count is_settle fin = 0%nat.
Proof. intros [H | H]; subst fin; reflexivity. Qed.

(** C4: the effects of [dispatch] on any request are some effects without
    a settle call or a sleep, then the settlement activity, then at most
    the call of the handler; the settlement activity is nothing, or one
    settle call whose result did not report a failure, or one settle call
    whose result reported a failure, a sleep of 1 and one more settle
    call; in each settle call the entry is followed by exactly one POST
    to the facilitator's [/settle]; so there are at most two settle calls
    and never a third. *)
Theorem settle_at_most_twice (env : Env) (self : X402PaywallMiddleware)
    (request : Request) (tr : trace) :
  (exists pre S fin reqs,
      snd (dispatch env self request tr) = tr ++ pre ++ S ++ fin /\
      count is_settle pre = 0%nat /\
      count is_sleep pre = 0%nat /\
      settle_shape env (facilitator_service self) reqs (tr ++ pre) S /\
      (fin = [] \/ fin = [EvCallNext]) /\
      (count is_settle (pre ++ S ++ fin) <= 2)%nat) /\
  (forall (v : json) (p r : dict) (t : trace),
      snd (settle_payment env (facilitator_service self) v (JDict p) (JDict r) t)
      = t ++ [EvSettle;
              EvPost (facilitator_url (facilitator_service self) +:+ "/settle")
                (JDict [("x402Version", v); ("paymentPayload", JDict p);
                        ("paymentRequirements", JDict r)])]).
Proof.
  split; [| intros v p r t; rewrite settle_payment_eq; reflexivity].
  assert (Hforward : exists pre S fin reqs,
             (tr ++ [EvCallNext] : trace) = tr ++ pre ++ S ++ fin /\
             count is_settle pre = 0%nat /\ count is_sleep pre = 0%nat /\
             settle_shape env (facilitator_service self) reqs (tr ++ pre) S /\
             (fin = [] \/ fin = [EvCallNext]) /\
             (count is_settle (pre ++ S ++ fin) <= 2)%nat).
  { exists [], [], [EvCallNext], JNull. repeat split; try reflexivity.
    - left; reflexivity.
    - right; reflexivity.
    - unfold count; simpl; lia. }
  unfold dispatch.
  destruct (_should_skip_payment self (req_path request)); [exact Hforward |].
  destruct (_get_route_config self (req_method request) (req_path request)) as [rc|];
    [| exact Hforward].
  destruct (payment_header request) as [hdr|].
  2:{ exists [], [], [], JNull. unfold ret. simpl snd.
      repeat split; try reflexivity.
      - rewrite List.app_nil_r; reflexivity.
      - left; reflexivity.
      - left; reflexivity.
      - unfold count; simpl; lia. }
  set (r := to_payment_requirements _ _ rc).
  destruct (pay_and_forward_outcome env self request r hdr tr)
    as (res & pre & S & fin & Heq & Hp1 & Hp2 & Hshape & Hfin & _).
  exists pre, S, fin, (to_dict r).
  split.
  { unfold try_except. rewrite Heq.
    destruct res as [resp|e]; [reflexivity |].
    destruct (is_ValueError e); reflexivity. }
  repeat split; auto.
  rewrite !count_app, Hp1, (count_fin fin Hfin).
  pose proof (settle_shape_count _ _ _ _ _ Hshape). lia.
Qed.

(** A settlement that fails twice: the entry and the POST, the sleep, the
    entry and the POST again, and no call of the handler. *)
Example retry_example :
  snd (dispatch (remote_env silent_refusal) sample_middleware paid_request [])
  = [EvVerify; EvSettle; settle_post; EvSleep 1; EvSettle; settle_post].
Proof. vm_compute. reflexivity. Qed.

(** A settlement that succeeds at once: one entry, one POST, then the
    handler. *)
Example settled_example :
  snd (dispatch
         (remote_env {| http_status_code := 200; http_text := "{}";
                        http_json := Ok (JDict [("success", JBool true);
                                                ("txHash", JStr "0xfeed")]) |})
         sample_middleware paid_request [])
  = [EvVerify; EvSettle; settle_post; EvCallNext].
Proof. vm_compute. reflexivity. Qed.

Lemma create_402_truthy (r : PaymentRequirements) (error : json) :
  Py.truthy error = true ->
  _create_payment_required_response r error
  = JSONResponse 402 (JDict (challenge r ++ [("error", error)])).
Proof. intros H. rewrite create_402_eq. unfold error_entry. rewrite H. reflexivity. Qed.

Lemma decode_payment_header_raise (env : Env) (hdr : string) (e : exn) :
  _decode_payment_header env hdr = Raise e ->
  exn_cls e = ValueError /\
  exists cause, exn_msg e = "Failed to decode payment header: " +:+ exn_msg cause.
Proof.
  unfold _decode_payment_header.
  destruct (base64_b64decode env hdr) as [b|c].
  2:{ intros H. injection H as <-. split; [reflexivity | exists c; reflexivity]. }
  destruct (bytes_decode_utf8 env b) as [s|c].
  2:{ intros H. injection H as <-. split; [reflexivity | exists c; reflexivity]. }
  destruct (json_loads env s) as [j|c]; [discriminate |].
  intros H. injection H as <-. split; [reflexivity | exists c; reflexivity].
Qed.

Lemma pay_and_forward_undecodable (env : Env) (self : X402PaywallMiddleware)
    (request : Request) (r : PaymentRequirements) (hdr : string) (tr : trace) (e : exn) :
  _decode_payment_header env hdr = Raise e ->
  pay_and_forward env self request r hdr tr = (Raise e, tr).
Proof. intros H. unfold pay_and_forward, bind, lift. rewrite H. reflexivity. Qed.

(** C1 as stated fails when the facilitator declines without a text:
    the payment verifies, both settle calls come back with
    [{success: false, error: ""}], and the 402 carries no error. *)
Lemma dispatch_fails_closed_counterexample :
  fst (settle_payment (remote_env silent_refusal) sample_service (JInt 1) paid_payload
         (to_dict paid_requirements) [])
  = Ok (JDict [("success", JBool false); ("error", JStr "")]) /\
  dispatch (remote_env silent_refusal) sample_middleware paid_request []
  = (Ok (JSONResponse 402
           (JDict [("x402Version", JInt 1); ("accepts", JList [to_dict paid_requirements])])),
     [EvVerify; EvSettle; settle_post; EvSleep 1; EvSettle; settle_post]) /\
  Py.assoc [("x402Version", JInt 1); ("accepts", JList [to_dict paid_requirements])] "error"
  = None.
Proof. repeat split; vm_compute; reflexivity. Qed.

(** ** Verification and the state of the world *)

Lemma same_answers_snoc (env : Env) (tr tr' : trace) :
  same_answers env tr tr' -> same_answers env (tr ++ [EvVerify]) (tr' ++ [EvVerify]).
Proof.
  intros [Ht Hp]. unfold same_answers. rewrite !count_snoc. simpl.
  rewrite !Nat.add_0_r. split; assumption.
Qed.

Lemma verify_with_aptos_sdk_same (env : Env) (self : FacilitatorService)
    (transaction_bytes : string) (reqs : json) (tr tr' : trace) :
  same_answers env tr tr' ->
  fst (_verify_with_aptos_sdk env self transaction_bytes reqs tr)
  = fst (_verify_with_aptos_sdk env self transaction_bytes reqs tr').
Proof.
  intros [Ht _].
  unfold _verify_with_aptos_sdk, try_except, bind, lift.
  destruct (RawTransaction_deserialize env transaction_bytes) as [raw|e]; [| reflexivity].
  destruct (read_requirements reqs) as [[[pay amt] tmo]|e]; [| reflexivity].
  unfold check_expiration.
  destruct (expiration_timestamp_secs raw) as [x|].
  - unfold bind, now, ret. rewrite Ht.
    destruct (x <? _); [reflexivity |].
    destruct (x >? _); [reflexivity |].
    destruct (check_transfer _ _ _) as [[r|]|e]; reflexivity.
  - unfold ret. destruct (check_transfer _ _ _) as [[r|]|e]; reflexivity.
Qed.

Lemma simulate_transaction_same (env : Env) (self : FacilitatorService)
    (transaction_bytes : string) (tr tr' : trace) :
  same_answers env tr tr' ->
  fst (_simulate_transaction env self transaction_bytes tr)
  = fst (_simulate_transaction env self transaction_bytes tr').
Proof.
  intros [_ Hp].
  unfold _simulate_transaction, try_except, bind, lift, post, ret. rewrite Hp.
  destruct (requests_post env _ _ _) as [response|e]; [| reflexivity].
  destruct (http_status_code response =? 200); [| reflexivity].
  destruct (http_json response) as [j|e]; [| reflexivity].
  destruct (Py.contains "result" j) as [[|]|e]; try reflexivity.
  - destruct (Py.getitem j "result"); reflexivity.
  - destruct (Py.get j "error" _); reflexivity.
Qed.

Lemma verify_with_rpc_same (env : Env) (self : FacilitatorService)
    (transaction_bytes : string) (reqs : json) (tr tr' : trace) :
  same_answers env tr tr' ->
  fst (_verify_with_rpc env self transaction_bytes reqs tr)
  = fst (_verify_with_rpc env self transaction_bytes reqs tr').
Proof.
  intros Hsame.
  pose proof (simulate_transaction_same env self transaction_bytes tr tr' Hsame) as Hfst.
  destruct (simulate_transaction_trace env self transaction_bytes tr) as (r & u & b & H).
  destruct (simulate_transaction_trace env self transaction_bytes tr') as (r' & u' & b' & H').
  rewrite H, H' in Hfst. simpl in Hfst. injection Hfst as <-.
  unfold _verify_with_rpc, bind. rewrite H, H'. unfold lift, ret.
  destruct (Py.get r "success" JNull) as [s|e]; [| reflexivity].
  destruct (negb (Py.truthy s)).
  - destruct (Py.get r "error" _); reflexivity.
  - destruct (Py.get r "result" _) as [x|e]; [| reflexivity].
    destruct (Py.get x "sender" JNull) as [s1|e]; [| reflexivity].
    destruct (Py.truthy s1) eqn:Hs1.
    + rewrite Hs1. reflexivity.
    + destruct (Py.get x "transaction" _) as [t|e]; [| reflexivity].
      destruct (Py.get t "sender" JNull) as [s2|e]; [| reflexivity].
      destruct (negb (Py.truthy s2)); reflexivity.
Qed.

Lemma verify_transaction_on_chain_same (env : Env) (self : FacilitatorService)
    (transaction_bcs : json) (reqs : json) (tr tr' : trace) :
  same_answers env tr tr' ->
  fst (verify_transaction_on_chain env self transaction_bcs reqs tr)
  = fst (verify_transaction_on_chain env self transaction_bcs reqs tr').
Proof.
  intros Hsame.
  unfold verify_transaction_on_chain, try_except, bind, lift.
  destruct (b64decode_value env transaction_bcs) as [bytes|e]; [| reflexivity].
  destruct (APTOS_SDK_AVAILABLE env).
  - pose proof (verify_with_aptos_sdk_same env self bytes reqs tr tr' Hsame) as Hfst.
    destruct (_verify_with_aptos_sdk env self bytes reqs tr) as [[r1|e1] t1];
      destruct (_verify_with_aptos_sdk env self bytes reqs tr') as [[r2|e2] t2];
      simpl in Hfst; try discriminate Hfst; injection Hfst as <-; reflexivity.
  - pose proof (verify_with_rpc_same env self bytes reqs tr tr' Hsame) as Hfst.
    destruct (_verify_with_rpc env self bytes reqs tr) as [[r1|e1] t1];
      destruct (_verify_with_rpc env self bytes reqs tr') as [[r2|e2] t2];
      simpl in Hfst; try discriminate Hfst; injection Hfst as <-; reflexivity.
Qed.

Lemma verify_payment_same (env : Env) (self : FacilitatorService)
    (x402_version payment_payload reqs : json) (tr tr' : trace) :
  same_answers env tr tr' ->
  fst (verify_payment env self x402_version payment_payload reqs tr)
  = fst (verify_payment env self x402_version payment_payload reqs tr').
Proof.
  intros Hsame. apply same_answers_snoc in Hsame.
  unfold verify_payment, bind, emit, try_except, lift, ret.
  destruct (get_either payment_payload "transaction" _) as [bcs|e]; [| reflexivity].
  destruct (get_either payment_payload "signature" _) as [sig|e]; [| reflexivity].
  destruct (negb (Py.truthy bcs)); [reflexivity |].
  pose proof (verify_transaction_on_chain_same env self bcs reqs _ _ Hsame) as Hfst.
  destruct (verify_transaction_on_chain env self bcs reqs (tr ++ [EvVerify])) as [[r1|e1] t1];
    destruct (verify_transaction_on_chain env self bcs reqs (tr' ++ [EvVerify])) as [[r2|e2] t2];
    simpl in Hfst; try discriminate Hfst; injection Hfst as <-; reflexivity.
Qed.

(** C9: two calls of verify with the same payload and requirements,
    one after the other, return the same verdict, the clock and the RPC
    node answering at the second call what they answered at the first;
    a call returns a verdict and never raises, keeps and changes no
    state, and its only effects are its entry followed by at most one
    reading of the clock or one POST. *)
Theorem verify_twice_same_world (env : Env) (self : FacilitatorService)
    (x402_version payment_payload reqs : json) (tr : trace) :
  let first := verify_payment env self x402_version payment_payload reqs tr in
  let second := verify_payment env self x402_version payment_payload reqs (snd first) in
  time_time env (count is_time tr) = time_time env (count is_time (snd first)) ->
  (forall u b, requests_post env (count is_post tr) u b
               = requests_post env (count is_post (snd first)) u b) ->
  fst second = fst first /\
  (exists verdict, fst first = Ok verdict) /\
  (exists evs, snd first = tr ++ EvVerify :: evs /\ verify_effects evs).
Proof.
  intros first second Ht Hp. split; [| split].
  - subst second. symmetry. apply verify_payment_same. split; assumption.
  - destruct (verify_payment_trace env self x402_version payment_payload reqs tr)
      as (r & evs & H & _).
    exists r. subst first. rewrite H. reflexivity.
  - destruct (verify_payment_trace env self x402_version payment_payload reqs tr)
      as (r & evs & H & Hevs).
    exists evs. subst first. rewrite H. split; [reflexivity | exact Hevs].
Qed.

Lemma verify_twice_same_world_witness :
  fst (verify_payment (rpc_env (Ok (simulated "0xB0B"))) sample_service (JInt 1)
         paid_payload (to_dict paid_requirements)
         [EvVerify; EvPost (rpc_url sample_service) (simulate_request "dHg=")])
  = fst (verify_payment (rpc_env (Ok (simulated "0xB0B"))) sample_service (JInt 1)
           paid_payload (to_dict paid_requirements) []).
Proof.
  refine (proj1 (verify_twice_same_world (rpc_env (Ok (simulated "0xB0B")))
                   sample_service (JInt 1) paid_payload (to_dict paid_requirements) [] _ _)).
  - reflexivity.
  - intros u b. reflexivity.
Defined.

(** * Further properties *)

(** ** Substrings, prefixes and the skip list *)

Lemma startswith_app (p b : string) : PyStr.startswith (p +:+ b) p = true.
Proof.
  induction p as [|a p IH]; [reflexivity |].
  rewrite append_cons. simpl. unfold PyStr.eqb_ascii. rewrite Ascii.eqb_refl. exact IH.
Qed.

Lemma startswith_split (s p : string) :
  PyStr.startswith s p = true -> exists b, s = p +:+ b.
Proof.
  revert s. induction p as [|a p IH]; intros s H.
  - exists s. reflexivity.
  - destruct s as [|c s]; [discriminate H |].
    simpl in H. apply andb_true_iff in H. destruct H as [Hc Hs].
    apply Ascii.eqb_eq in Hc. subst c.
    destruct (IH s Hs) as [b Hb]. exists b. rewrite append_cons, <- Hb. reflexivity.
Qed.

Lemma contains_eq (s p : string) :
  PyStr.contains s p
  = (PyStr.startswith s p
     || match s with
        | EmptyString => false
        | String _ s' => PyStr.contains s' p
        end).
Proof. destruct s; reflexivity. Qed.

Lemma endswith_eq (s p : string) :
  PyStr.endswith s p
  = (String.eqb s p
     || match s with
        | EmptyString => false
        | String _ s' => PyStr.endswith s' p
        end).
Proof. destruct s; reflexivity. Qed.

Lemma contains_split (s p : string) :
  PyStr.contains s p = true <-> exists a b, s = a +:+ p +:+ b.
Proof.
  split.
  - induction s as [|c s IH]; rewrite contains_eq; intros H.
    + rewrite orb_false_r in H. destruct (startswith_split _ _ H) as [b Hb].
      exists "", b. exact Hb.
    + apply orb_true_iff in H. destruct H as [H | H].
      * destruct (startswith_split _ _ H) as [b Hb]. exists "", b. exact Hb.
      * destruct (IH H) as (a & b & Hab). exists (String c a), b.
        rewrite append_cons, <- Hab. reflexivity.
  - intros (a & b & Hab). subst s. induction a as [|c a IH].
    + rewrite append_nil_l, contains_eq, startswith_app. reflexivity.
    + rewrite append_cons, contains_eq, IH. apply orb_true_r.
Qed.

Lemma endswith_split (s p : string) :
  PyStr.endswith s p = true <-> exists a, s = a +:+ p.
Proof.
  split.
  - induction s as [|c s IH]; rewrite endswith_eq; intros H.
    + rewrite orb_false_r in H. apply String.eqb_eq in H. exists "". exact H.
    + apply orb_true_iff in H. destruct H as [H | H].
      * apply String.eqb_eq in H. exists "". exact H.
      * destruct (IH H) as [a Ha]. exists (String c a). rewrite append_cons, <- Ha. reflexivity.
  - intros [a Ha]. subst s. induction a as [|c a IH].
    + rewrite append_nil_l, endswith_eq, String.eqb_refl. reflexivity.
    + rewrite append_cons, endswith_eq, IH. apply orb_true_r.
Qed.

(** X1: a path is skipped exactly when one of the skip paths occurs in it
    as a substring (the test for a suffix adds nothing); so an empty skip
    path skips every request. *)
Theorem skip_iff_substring (self : X402PaywallMiddleware) (path : string) :
  (_should_skip_payment self path = true <->
   exists skip_path a b, In skip_path (skip_paths self) /\ path = a +:+ skip_path +:+ b)
  /\ (In "" (skip_paths self) -> _should_skip_payment self path = true).
Proof.
  assert (Hiff : _should_skip_payment self path = true <->
                 exists skip_path a b, In skip_path (skip_paths self)
                                       /\ path = a +:+ skip_path +:+ b).
  { unfold _should_skip_payment. rewrite existsb_exists. split.
    - intros (s & Hin & H). apply orb_true_iff in H. destruct H as [H | H].
      + apply endswith_split in H. destruct H as [a Ha].
        exists s, a, "". split; [exact Hin |]. rewrite append_nil_r. exact Ha.
      + apply contains_split in H. destruct H as (a & b & Hab). exists s, a, b. tauto.
    - intros (s & a & b & Hin & Hab). exists s. split; [exact Hin |].
      apply orb_true_iff. right. apply contains_split. exists a, b. exact Hab. }
  split; [exact Hiff |].
  intros Hin. apply Hiff. exists "", "", path. split; [exact Hin | reflexivity].
Qed.

Lemma skip_iff_substring_witness :
  _should_skip_payment sample_middleware "/sentiment/.well-known/agent.json/extra" = true.
Proof.
  apply (proj1 (skip_iff_substring sample_middleware "/sentiment/.well-known/agent.json/extra")).
  exists "/.well-known/agent.json", "/sentiment", "/extra".
  split; [simpl; left; reflexivity | reflexivity].
Defined.

(** ** Route lookup *)

Lemma rstrip_snoc_slash (s : string) : PyStr.rstrip "/" (s +:+ "/") = PyStr.rstrip "/" s.
Proof.
  induction s as [|a s IH]; [reflexivity |].
  rewrite append_cons. simpl. rewrite IH. reflexivity.
Qed.

Lemma rstrip_fixed (s : string) :
  PyStr.endswith s "/" = false -> PyStr.rstrip "/" s = s.
Proof.
  induction s as [|a s IH]; [reflexivity |].
  rewrite endswith_eq. intros H. apply orb_false_iff in H. destruct H as [Ha Hs].
  simpl. rewrite (IH Hs). destruct s as [|b s]; [| reflexivity].
  unfold PyStr.eqb_ascii. simpl in Ha.
  destruct (Ascii.eqb a "/"); [discriminate Ha | reflexivity].
Qed.

Lemma upper_lower_ascii (a : ascii) :
  PyStr.upper_ascii (PyStr.lower_ascii a) = PyStr.upper_ascii a.
Proof.
  destruct a as [[] [] [] [] [] [] [] []]; reflexivity.
Qed.

Lemma upper_upper_ascii (a : ascii) :
  PyStr.upper_ascii (PyStr.upper_ascii a) = PyStr.upper_ascii a.
Proof.
  destruct a as [[] [] [] [] [] [] [] []]; reflexivity.
Qed.

Lemma upper_lower (s : string) : PyStr.upper (PyStr.lower s) = PyStr.upper s.
Proof.
  induction s as [|a s IH]; [reflexivity |].
  change (String (PyStr.upper_ascii (PyStr.lower_ascii a)) (PyStr.upper (PyStr.lower s))
          = String (PyStr.upper_ascii a) (PyStr.upper s)).
  rewrite upper_lower_ascii, IH. reflexivity.
Qed.

Lemma upper_upper (s : string) : PyStr.upper (PyStr.upper s) = PyStr.upper s.
Proof.
  induction s as [|a s IH]; [reflexivity |].
  change (String (PyStr.upper_ascii (PyStr.upper_ascii a)) (PyStr.upper (PyStr.upper s))
          = String (PyStr.upper_ascii a) (PyStr.upper s)).
  rewrite upper_upper_ascii, IH. reflexivity.
Qed.

Lemma normalize_path_snoc_slash (path : string) :
  normalize_path (path +:+ "/") = normalize_path path.
Proof. unfold normalize_path. rewrite rstrip_snoc_slash. reflexivity. Qed.

Lemma get_route_config_method (self : X402PaywallMiddleware) (m1 m2 path : string) :
  PyStr.upper m1 = PyStr.upper m2 ->
  _get_route_config self m1 path = _get_route_config self m2 path.
Proof. intros H. unfold _get_route_config. rewrite H. reflexivity. Qed.

(** X2: route lookup does not see trailing slashes of the path nor the
    case of the method: adding slashes at the end of the path, or writing
    the method in lower or upper case, gives the same route
    configuration. *)
Theorem route_lookup_insensitive (self : X402PaywallMiddleware) (method path : string)
    (k : nat) :
  _get_route_config self method (path +:+ PyStr.repeat "/" k)
  = _get_route_config self method path
  /\ _get_route_config self (PyStr.lower method) path = _get_route_config self method path
  /\ _get_route_config self (PyStr.upper method) path = _get_route_config self method path.
Proof.
  split; [| split].
  - assert (H : normalize_path (path +:+ PyStr.repeat "/" k) = normalize_path path).
    { revert path. induction k as [|k IH]; intros path.
      - simpl. rewrite append_nil_r. reflexivity.
      - change (PyStr.repeat "/" (S k)) with ("/" +:+ PyStr.repeat "/" k).
        rewrite <- append_assoc, IH. apply normalize_path_snoc_slash. }
    unfold _get_route_config. rewrite H. reflexivity.
  - apply get_route_config_method. apply upper_lower.
  - apply get_route_config_method. apply upper_upper.
Qed.

Lemma normalize_path_shape (path : string) :
  normalize_path path = "/"
  \/ (PyStr.startswith (normalize_path path) "/" = true
      /\ PyStr.endswith (normalize_path path) "/" = false
      /\ normalize_path path <> "").
Proof.
  destruct (rstrip_decompose path) as [k [_ He]].
  unfold normalize_path.
  destruct (PyStr.rstrip "/" path) as [|a r] eqn:Hr; [left; reflexivity |].
  right. destruct (PyStr.startswith (String a r) "/") eqn:Hs; simpl negb; cbv iota.
  - split; [exact Hs |]. split; [exact He | discriminate].
  - split; [reflexivity |]. split; [| discriminate].
    rewrite append_cons, append_nil_l, endswith_eq.
    rewrite He. simpl. reflexivity.
Qed.

(** X3: normalizing a path twice is normalizing it once, and the
    normalized path always starts with a slash. *)
Theorem normalize_path_idempotent (path : string) :
  normalize_path (normalize_path path) = normalize_path path
  /\ PyStr.startswith (normalize_path path) "/" = true.
Proof.
  assert (Hstart : PyStr.startswith (normalize_path path) "/" = true).
  { destruct (normalize_path_shape path) as [H | (Hs & _)]; [rewrite H; reflexivity | exact Hs]. }
  destruct (normalize_path_shape path) as [H | (Hs & He & Hne)].
  - rewrite H. split; reflexivity.
  - split; [| exact Hstart].
    unfold normalize_path at 1. rewrite (rstrip_fixed _ He).
    destruct (normalize_path path) as [|a r]; [contradiction Hne; reflexivity |].
    rewrite Hs. reflexivity.
Qed.

Lemma post_key_method (m q : string) :
  m +:+ " /" +:+ q = "POST /" -> m = "POST" /\ q = "".
Proof.
  intros H.
  destruct m as [|c1 m]; [discriminate H |]. rewrite append_cons in H. injection H as -> H.
  destruct m as [|c2 m]; [discriminate H |]. rewrite append_cons in H. injection H as -> H.
  destruct m as [|c3 m]; [discriminate H |]. rewrite append_cons in H. injection H as -> H.
  destruct m as [|c4 m]; [discriminate H |]. rewrite append_cons in H. injection H as -> H.
  destruct m as [|c5 m].
  - rewrite append_nil_l in H. injection H as H. split; [reflexivity | exact H].
  - rewrite append_cons in H. injection H as -> H.
    destruct m as [|c6 m]; [discriminate H |]. rewrite append_cons in H. injection H as -> H.
    destruct m; discriminate H.
Qed.

Lemma normalize_path_slash (path : string) : exists q, normalize_path path = "/" +:+ q.
Proof.
  apply startswith_split.
  destruct (normalize_path_shape path) as [H | (Hs & _)]; [rewrite H; reflexivity | exact Hs].
Qed.

Lemma get_route_config_wildcard_only (self : X402PaywallMiddleware) (c : RouteConfig)
    (method path : string) :
  routes self = {[ "POST /" := c ]} ->
  _get_route_config self method path
  = (if String.eqb (PyStr.upper method) "POST" then Some c else None).
Proof.
  intros Hroutes. unfold _get_route_config. rewrite Hroutes.
  destruct (normalize_path_slash path) as [q Hq]. rewrite Hq.
  destruct (String.eqb (PyStr.upper method) "POST") eqn:Hm.
  - rewrite lookup_singleton_eq.
    destruct (_ !! (PyStr.upper method +:+ " " +:+ "/" +:+ q)) as [x|] eqn:H1.
    { apply lookup_singleton_Some in H1. destruct H1 as [_ <-]. reflexivity. }
    destruct (_ !! (PyStr.upper method +:+ " " +:+ ("/" +:+ q) +:+ "/")) as [x|] eqn:H2.
    { apply lookup_singleton_Some in H2. destruct H2 as [_ <-]. reflexivity. }
    reflexivity.
  - apply String.eqb_neq in Hm.
    rewrite lookup_singleton_ne.
    2:{ intros H. symmetry in H. apply (post_key_method (PyStr.upper method) q) in H.
        destruct H as [H _]. contradiction. }
    rewrite lookup_singleton_ne; [reflexivity |].
    intros H. symmetry in H.
    apply (post_key_method (PyStr.upper method) (q +:+ "/")) in H.
    destruct H as [H _]. contradiction.
Qed.

(** X4: in a registry that holds only the wildcard [POST /], every POST
    request, whatever its path, gets the wildcard's configuration, and no
    request of another method gets one. *)
Theorem wildcard_only_registry (self : X402PaywallMiddleware) (c : RouteConfig)
    (method path : string) :
  routes self = {[ "POST /" := c ]} ->
  _get_route_config self method path
  = (if String.eqb (PyStr.upper method) "POST" then Some c else None).
Proof. apply get_route_config_wildcard_only. Qed.

Lemma wildcard_only_registry_witness :
  _get_route_config sample_middleware "post" "/any/where" = Some sample_route.
Proof.
  apply (wildcard_only_registry sample_middleware sample_route "post" "/any/where").
  reflexivity.
Defined.

(** ** The paywall of the sentiment agent *)

Lemma sentiment_paywall_ok (os : OsEnv) (mw : X402PaywallMiddleware) :
  sentiment_paywall os = Ok mw ->
  routes mw = {[ "POST /" := sentiment_route ]}
  /\ skip_paths mw = ["/.well-known/agent.json"; "/.well-known/agent-card.json"]
  /\ pay_to mw <> ""
  /\ (nonempty (getenv os "MOVEMENT_PAY_TO") = Some (pay_to mw)
      \/ (nonempty (getenv os "MOVEMENT_PAY_TO") = None
          /\ nonempty (getenv os "NEXT_PUBLIC_MOVEMENT_PAY_TO") = Some (pay_to mw))).
Proof.
  assert (Hne : forall o p, nonempty o = Some p -> p <> "").
  { intros [s|] p; simpl; [| discriminate].
    destruct (String.eqb s "") eqn:E; [discriminate |].
    intros H. injection H as <-. apply String.eqb_neq. exact E. }
  unfold sentiment_paywall.
  destruct (nonempty (getenv os "MOVEMENT_PAY_TO")) as [p|] eqn:H1.
  - intros H. injection H as <-. simpl.
    split; [reflexivity |]. split; [reflexivity |].
    split; [eapply Hne; exact H1 | left; reflexivity].
  - destruct (nonempty (getenv os "NEXT_PUBLIC_MOVEMENT_PAY_TO")) as [p|] eqn:H2;
      [| discriminate].
    intros H. injection H as <-. simpl.
    split; [reflexivity |]. split; [reflexivity |].
    split; [eapply Hne; exact H2 | right; split; reflexivity].
Qed.

Lemma nonempty_set (os : OsEnv) (name p : string) :
  is_set os name p -> nonempty (getenv os name) = Some p.
Proof.
  intros [H Hne]. rewrite H. simpl.
  destruct (String.eqb p "") eqn:E; [| reflexivity].
  apply String.eqb_eq in E. contradiction.
Qed.

Lemma nonempty_unset (os : OsEnv) (name : string) :
  is_unset os name -> nonempty (getenv os name) = None.
Proof. intros [H | H]; rewrite H; reflexivity. Qed.

Lemma sentiment_paywall_charges (os : OsEnv) (mw : X402PaywallMiddleware) :
  sentiment_paywall os = Ok mw -> charges_posts mw (pay_to mw).
Proof.
  intros Hbuild.
  destruct (sentiment_paywall_ok os mw Hbuild) as (Hroutes & Hskip & Hpay & _).
  intros env request tr. split.
  - intros Hm. apply dispatch_unprotected.
    rewrite (get_route_config_wildcard_only mw sentiment_route _ _ Hroutes), Hm.
    reflexivity.
  - intros Hm Hc1 Hc2 Hhdr.
    assert (Hnoskip : _should_skip_payment mw (req_path request) = false).
    { unfold _should_skip_payment. rewrite Hskip. simpl. rewrite Hc1, Hc2.
      assert (He : forall s p, PyStr.contains s p = false -> PyStr.endswith s p = false).
      { intros s p Hc. destruct (PyStr.endswith s p) eqn:E; [| reflexivity].
        apply endswith_split in E. destruct E as [a Ha].
        assert (PyStr.contains s p = true).
        { apply contains_split. exists a, "". rewrite append_nil_r. exact Ha. }
        congruence. }
      rewrite (He _ _ Hc1), (He _ _ Hc2). reflexivity. }
    eexists. split.
    + unfold dispatch. rewrite Hnoskip.
      rewrite (get_route_config_wildcard_only mw sentiment_route _ _ Hroutes), Hm, Hhdr.
      reflexivity.
    + repeat split; reflexivity.
Qed.

(** X5: the paywall the sentiment agent builds takes its recipient from
    [MOVEMENT_PAY_TO] or, when that is unset or empty, from
    [NEXT_PUBLIC_MOVEMENT_PAY_TO]: with such a recipient [p] the build
    succeeds and pays to [p]; a request of any method but POST is
    forwarded to the agent untouched, and a POST whose path contains
    neither discovery path and that carries no proof header is answered
    402, asking for 100000000 units of the Aptos coin on [movement],
    payable to [p]. With both variables unset or empty the build raises
    the [ValueError] that asks for [MOVEMENT_PAY_TO]. *)
Theorem sentiment_paywall_policy (os : OsEnv) :
  (forall p,
      is_set os "MOVEMENT_PAY_TO" p
      \/ (is_unset os "MOVEMENT_PAY_TO" /\ is_set os "NEXT_PUBLIC_MOVEMENT_PAY_TO" p) ->
      exists mw, sentiment_paywall os = Ok mw /\ pay_to mw = p /\ charges_posts mw p)
  /\ (is_unset os "MOVEMENT_PAY_TO" ->
       is_unset os "NEXT_PUBLIC_MOVEMENT_PAY_TO" ->
       sentiment_paywall os
       = Raise (Exn ValueError
                  "MOVEMENT_PAY_TO environment variable is required for sentiment/trading agent. Please set MOVEMENT_PAY_TO to your payment recipient address.")).
Proof.
  split.
  - intros p Hp.
    assert (Hbuild : exists mw, sentiment_paywall os = Ok mw /\ pay_to mw = p).
    { unfold sentiment_paywall.
      destruct Hp as [H1 | [H1 H2]].
      - rewrite (nonempty_set _ _ _ H1). eexists. split; reflexivity.
      - rewrite (nonempty_unset _ _ H1), (nonempty_set _ _ _ H2).
        eexists. split; reflexivity. }
    destruct Hbuild as (mw & Hb & Hpay). exists mw.
    split; [exact Hb | split; [exact Hpay |]].
    rewrite <- Hpay. exact (sentiment_paywall_charges os mw Hb).
  - intros H1 H2. unfold sentiment_paywall.
    rewrite (nonempty_unset _ _ H1), (nonempty_unset _ _ H2). reflexivity.
Qed.

Lemma sentiment_paywall_policy_witness :
  exists mw r,
    sentiment_paywall (os_of [("NEXT_PUBLIC_MOVEMENT_PAY_TO", "0xA11CE")] false) = Ok mw /\
    pay_to mw = "0xA11CE" /\
    dispatch quiet_env mw unpaid_request []
    = (Ok (JSONResponse 402 (JDict [("x402Version", JInt 1); ("accepts", JList [to_dict r])])), [])
    /\ pr_pay_to r = "0xA11CE".
Proof.
  assert (Hp : is_set (os_of [("NEXT_PUBLIC_MOVEMENT_PAY_TO", "0xA11CE")] false)
                 "MOVEMENT_PAY_TO" "0xA11CE"
               \/ (is_unset (os_of [("NEXT_PUBLIC_MOVEMENT_PAY_TO", "0xA11CE")] false)
                      "MOVEMENT_PAY_TO"
                    /\ is_set (os_of [("NEXT_PUBLIC_MOVEMENT_PAY_TO", "0xA11CE")] false)
                         "NEXT_PUBLIC_MOVEMENT_PAY_TO" "0xA11CE")).
  { right. split; [left; reflexivity | split; [reflexivity | discriminate]]. }
  destruct (proj1 (sentiment_paywall_policy
                     (os_of [("NEXT_PUBLIC_MOVEMENT_PAY_TO", "0xA11CE")] false))
              "0xA11CE" Hp)
    as (mw & Hb & Hpay & Hpolicy).
  destruct (proj2 (Hpolicy quiet_env unpaid_request []) eq_refl eq_refl eq_refl eq_refl)
    as (r & Hd & _ & _ & _ & Hp').
  exists mw, r. split; [exact Hb | split; [exact Hpay | split; [exact Hd | exact Hp']]].
Defined.

(** ** Verdicts of the verification *)

Lemma check_transfer_rejects (p : TransactionPayload) (pay : string) (amt : Z) (r : json) :
  check_transfer p pay amt = Ok (Some r) -> exists reason, r = invalid reason.
Proof.
  unfold check_transfer.
  destruct (value p) as [ef|]; [| discriminate].
  destruct (function ef) as [f|]; [| discriminate].
  destruct (is_coin_transfer f); [| discriminate].
  destruct (arguments ef) as [[|a0 [|a1 rest]]|]; try discriminate.
  destruct (arg_amount a1) as [amount|e]; [| discriminate].
  destruct (negb _).
  - intros H. injection H as <-. eexists; reflexivity.
  - destruct (amount <? amt); [| discriminate].
    intros H. injection H as <-. eexists; reflexivity.
Qed.

Ltac rejected := eexists; split; [reflexivity | left; eexists; reflexivity].

Lemma verify_with_aptos_sdk_verdict (env : Env) (self : FacilitatorService)
    (transaction_bytes : string) (reqs : json) (tr : trace) :
  exists j, fst (_verify_with_aptos_sdk env self transaction_bytes reqs tr) = Ok j
            /\ ((exists reason, j = invalid reason) \/ exists s, j = valid (JStr s)).
Proof.
  unfold _verify_with_aptos_sdk, try_except, bind, lift.
  destruct (RawTransaction_deserialize env transaction_bytes) as [raw|e]; [| rejected].
  destruct (read_requirements reqs) as [[[pay amt] tmo]|e]; [| rejected].
  unfold check_expiration.
  destruct (expiration_timestamp_secs raw) as [x|].
  - unfold bind, now, ret.
    destruct (x <? _); [rejected |].
    destruct (x >? _); [rejected |].
    destruct (check_transfer _ _ _) as [[r|]|e] eqn:Hc.
    + destruct (check_transfer_rejects _ _ _ _ Hc) as [reason ->]. rejected.
    + eexists; split; [reflexivity | right; eexists; reflexivity].
    + rejected.
  - unfold ret.
    destruct (check_transfer _ _ _) as [[r|]|e] eqn:Hc.
    + destruct (check_transfer_rejects _ _ _ _ Hc) as [reason ->]. rejected.
    + eexists; split; [reflexivity | right; eexists; reflexivity].
    + rejected.
Qed.

Lemma verify_with_rpc_verdict (env : Env) (self : FacilitatorService)
    (transaction_bytes : string) (reqs : json) (tr : trace) :
  match fst (_verify_with_rpc env self transaction_bytes reqs tr) with
  | Ok j => (exists reason, j = invalid reason)
            \/ (exists payer, j = valid payer /\ Py.truthy payer = true)
  | Raise _ => True
  end.
Proof.
  destruct (simulate_transaction_trace env self transaction_bytes tr) as (r & u & b & H).
  unfold _verify_with_rpc, bind. rewrite H. unfold lift, ret.
  destruct (Py.get r "success" JNull) as [s|e]; [| exact I].
  destruct (negb (Py.truthy s)).
  - destruct (Py.get r "error" _); [left; eexists; reflexivity | exact I].
  - destruct (Py.get r "result" _) as [x|e]; [| exact I].
    destruct (Py.get x "sender" JNull) as [s1|e]; [| exact I].
    destruct (Py.truthy s1) eqn:Hs1.
    + rewrite Hs1. simpl. right. exists s1. split; [reflexivity | exact Hs1].
    + destruct (Py.get x "transaction" _) as [t|e]; [| exact I].
      destruct (Py.get t "sender" JNull) as [s2|e]; [| exact I].
      destruct (Py.truthy s2) eqn:Hs2; simpl.
      * right. exists s2. split; [reflexivity | exact Hs2].
      * left. eexists; reflexivity.
Qed.

(** X6: whatever the payload, the requirements and the answers of the
    outside world, verify returns a well-formed verdict: either
    [{isValid: False, invalidReason: r}] or [{isValid: True, payer: p}];
    on the RPC path an accepted payer is never empty. *)
Theorem verify_returns_verdict (env : Env) (self : FacilitatorService)
    (x402_version payment_payload reqs : json) (tr : trace) :
  exists j,
    fst (verify_payment env self x402_version payment_payload reqs tr) = Ok j /\
    ((exists reason, j = JDict [("isValid", JBool false); ("invalidReason", reason)])
     \/ (exists payer, j = JDict [("isValid", JBool true); ("payer", payer)]
                       /\ (APTOS_SDK_AVAILABLE env = false -> Py.truthy payer = true))).
Proof.
  unfold verify_payment, bind, emit, try_except, lift, ret.
  destruct (get_either payment_payload "transaction" _) as [bcs|e];
    [| rejected].
  destruct (get_either payment_payload "signature" _) as [sig|e];
    [| rejected].
  destruct (negb (Py.truthy bcs));
    [rejected |].
  unfold verify_transaction_on_chain, try_except, bind, lift.
  destruct (b64decode_value env bcs) as [bytes|e];
    [| rejected].
  destruct (APTOS_SDK_AVAILABLE env) eqn:Hsdk.
  - destruct (verify_with_aptos_sdk_verdict env self bytes reqs (tr ++ [EvVerify]))
      as (j & Hj & Hshape).
    destruct (_verify_with_aptos_sdk env self bytes reqs (tr ++ [EvVerify])) as [[j'|e] t];
      simpl in Hj; [| discriminate Hj].
    injection Hj as ->. exists j. split; [reflexivity |].
    destruct Hshape as [[reason ->] | [s ->]].
    + left. eexists; reflexivity.
    + right. eexists. split; [reflexivity | discriminate].
  - pose proof (verify_with_rpc_verdict env self bytes reqs (tr ++ [EvVerify])) as Hshape.
    destruct (_verify_with_rpc env self bytes reqs (tr ++ [EvVerify])) as [[j|e] t];
      simpl in Hshape.
    + exists j. split; [reflexivity |].
      destruct Hshape as [[reason ->] | (payer & -> & Hp)].
      * left. eexists; reflexivity.
      * right. eexists. split; [reflexivity | intros _; exact Hp].
    + rejected.
Qed.

Lemma get_dict (d : dict) (k : string) :
  Py.get (JDict d) k JNull = Ok (default JNull (Py.assoc d k)).
Proof. simpl. destruct (Py.assoc d k); reflexivity. Qed.

Lemma get_either_dict (d : dict) (k1 k2 : string) :
  exists x, get_either (JDict d) k1 k2 = Ok x.
Proof.
  unfold get_either. simpl. destruct (Py.truthy _); eexists; reflexivity.
Qed.

(** X7: a payload that is a dict without a usable transaction (both
    [transaction] and [transactionBcsBase64] absent, null or empty) is
    rejected with [Transaction not found in payment payload]; a payload
    that is no dict is rejected with [Verification failed: ...]; in both
    cases nothing is decoded, the clock is not read and no request is
    sent. *)
Theorem verify_without_transaction (env : Env) (self : FacilitatorService)
    (x402_version payment_payload reqs : json) (tr : trace) :
  (forall d,
      payment_payload = JDict d ->
      Py.truthy (default JNull (Py.assoc d "transaction")) = false ->
      Py.truthy (default JNull (Py.assoc d "transactionBcsBase64")) = false ->
      verify_payment env self x402_version payment_payload reqs tr
      = (Ok (invalid (JStr "Transaction not found in payment payload")), tr ++ [EvVerify]))
  /\ ((forall d, payment_payload <> JDict d) ->
      verify_payment env self x402_version payment_payload reqs tr
      = (Ok (invalid (JStr ("Verification failed: '" +:+ Py.type_name payment_payload
                              +:+ "' object has no attribute 'get'"))),
         tr ++ [EvVerify])).
Proof.
  split.
  - intros d -> H1 H2.
    unfold verify_payment, bind, emit, try_except, lift, ret, get_either.
    rewrite !get_dict. cbv beta iota. rewrite H1.
    destruct (Py.truthy (default JNull (Py.assoc d "signature"))); rewrite H2; reflexivity.
  - intros Hnd.
    unfold verify_payment, bind, emit, try_except, lift, ret, get_either.
    destruct payment_payload; try reflexivity.
    exfalso. eapply Hnd. reflexivity.
Qed.

Lemma verify_without_transaction_witness :
  verify_payment quiet_env sample_service (JInt 1)
    (JDict [("transaction", JStr ""); ("signature", JStr "c2ln")])
    (to_dict sample_requirements) []
  = (Ok (invalid (JStr "Transaction not found in payment payload")), [EvVerify]).
Proof.
  apply (proj1 (verify_without_transaction quiet_env sample_service (JInt 1)
                  (JDict [("transaction", JStr ""); ("signature", JStr "c2ln")])
                  (to_dict sample_requirements) [])
           [("transaction", JStr ""); ("signature", JStr "c2ln")]);
    reflexivity.
Defined.

(** X8: of the payload, verify reads only the transaction blob it
    selects ([transaction], else [transactionBcsBase64]): two payloads
    that select the same blob get the same verdict and cause the same
    effects, whatever their signature, their other entries and the
    protocol version passed along. *)
Theorem verify_reads_only_transaction (env : Env) (self : FacilitatorService)
    (v1 v2 : json) (d1 d2 : dict) (reqs : json) (tr : trace) :
  get_either (JDict d1) "transaction" "transactionBcsBase64"
  = get_either (JDict d2) "transaction" "transactionBcsBase64" ->
  verify_payment env self v1 (JDict d1) reqs tr
  = verify_payment env self v2 (JDict d2) reqs tr.
Proof.
  intros H.
  unfold verify_payment, bind, emit, try_except, lift, ret. rewrite H.
  destruct (get_either (JDict d2) "transaction" _) as [bcs|e]; [| reflexivity].
  destruct (get_either_dict d1 "signature" "signatureBcsBase64") as [s1 ->].
  destruct (get_either_dict d2 "signature" "signatureBcsBase64") as [s2 ->].
  reflexivity.
Qed.

Lemma verify_reads_only_transaction_witness :
  verify_payment (sdk_env (sample_transaction None (transfer "0x1::coin::transfer" [])) 0)
    sample_service (JInt 1)
    (JDict [("transactionBcsBase64", JStr "dHg="); ("signature", JStr "forged")])
    (to_dict sample_requirements) []
  = verify_payment (sdk_env (sample_transaction None (transfer "0x1::coin::transfer" [])) 0)
      sample_service (JInt 2)
      (JDict [("transaction", JStr "dHg=")])
      (to_dict sample_requirements) [].
Proof.
  apply (verify_reads_only_transaction
           (sdk_env (sample_transaction None (transfer "0x1::coin::transfer" [])) 0)
           sample_service (JInt 1) (JInt 2)
           [("transactionBcsBase64", JStr "dHg="); ("signature", JStr "forged")]
           [("transaction", JStr "dHg=")]).
  reflexivity.
Defined.

(** X9: without the SDK, verification does not look at the payment
    requirements: recipient, amount and timeout play no part in the
    verdict of the RPC path. *)
Theorem rpc_path_ignores_requirements (env : Env) (self : FacilitatorService)
    (x402_version payment_payload reqs1 reqs2 : json) (tr : trace) :
  APTOS_SDK_AVAILABLE env = false ->
  verify_payment env self x402_version payment_payload reqs1 tr
  = verify_payment env self x402_version payment_payload reqs2 tr.
Proof.
  intros Hsdk.
  unfold verify_payment, verify_transaction_on_chain, bind, emit, try_except, lift, ret.
  rewrite Hsdk. reflexivity.
Qed.

Lemma rpc_path_ignores_requirements_witness :
  verify_payment (rpc_env (Ok (simulated "0xB0B"))) sample_service (JInt 1) paid_payload
    (to_dict sample_requirements) []
  = verify_payment (rpc_env (Ok (simulated "0xB0B"))) sample_service (JInt 1) paid_payload
      (JDict [("payTo", JStr "0xSOMEONE"); ("maxAmountRequired", JStr "999999999999")]) [].
Proof.
  apply (rpc_path_ignores_requirements (rpc_env (Ok (simulated "0xB0B")))).
  reflexivity.
Defined.

(** ** The RPC path *)

Lemma simulate_transaction_eq (env : Env) (self : FacilitatorService)
    (transaction_bytes : string) (tr : trace) :
  _simulate_transaction env self transaction_bytes tr
  = (Ok (simulate_result_of
           (requests_post env (count is_post tr) (rpc_url self)
              (simulate_request transaction_bytes))),
     tr ++ [EvPost (rpc_url self) (simulate_request transaction_bytes)]).
Proof.
  unfold _simulate_transaction, try_except, bind, lift, post, ret, simulate_result_of.
  fold (simulate_request transaction_bytes).
  destruct (requests_post env _ _ _) as [response|e]; [| reflexivity].
  destruct (http_status_code response =? 200); [| reflexivity].
  destruct (http_json response) as [j|e]; [| reflexivity].
  destruct (Py.contains "result" j) as [[|]|e]; try reflexivity.
  - destruct (Py.getitem j "result"); reflexivity.
  - destruct (Py.get j "error" _); reflexivity.
Qed.

Lemma verify_on_chain_rpc (env : Env) (self : FacilitatorService)
    (transaction_bcs reqs : json) (transaction_bytes : string) (tr : trace) :
  APTOS_SDK_AVAILABLE env = false ->
  b64decode_value env transaction_bcs = Ok transaction_bytes ->
  exists res,
    verify_transaction_on_chain env self transaction_bcs reqs tr
    = (Ok match res with
          | Ok j => j
          | Raise e => invalid (JStr ("Verification error: " +:+ exn_msg e))
          end,
       tr ++ [EvPost (rpc_url self) (simulate_request transaction_bytes)])
    /\ _verify_with_rpc env self transaction_bytes reqs tr
       = (res, tr ++ [EvPost (rpc_url self) (simulate_request transaction_bytes)]).
Proof.
  intros Hsdk Hbytes.
  destruct (verify_with_rpc_trace env self transaction_bytes reqs tr) as (res & u & b & H).
  assert (Hub : tr ++ [EvPost u b]
                = tr ++ [EvPost (rpc_url self) (simulate_request transaction_bytes)]).
  { revert H. unfold _verify_with_rpc, bind. rewrite simulate_transaction_eq.
    unfold lift, ret.
    destruct (Py.get _ "success" JNull) as [s|e]; [| intros H; injection H as _ <-; reflexivity].
    destruct (negb (Py.truthy s)).
    - destruct (Py.get _ "error" _); intros H; injection H as _ <-; reflexivity.
    - destruct (Py.get _ "result" _) as [x|e]; [| intros H; injection H as _ <-; reflexivity].
      destruct (Py.get x "sender" JNull) as [s1|e];
        [| intros H; injection H as _ <-; reflexivity].
      destruct (Py.truthy s1) eqn:Hs1.
      + rewrite Hs1. intros H; injection H as _ <-; reflexivity.
      + destruct (Py.get x "transaction" _) as [t|e];
          [| intros H; injection H as _ <-; reflexivity].
        destruct (Py.get t "sender" JNull) as [s2|e];
          [| intros H; injection H as _ <-; reflexivity].
        destruct (negb (Py.truthy s2)); intros H; injection H as _ <-; reflexivity. }
  rewrite Hub in H. exists res. split; [| exact H].
  unfold verify_transaction_on_chain, try_except, bind, lift. rewrite Hbytes, Hsdk, H.
  destruct res; reflexivity.
Qed.

(** X10: on the RPC path (no SDK, the blob decoded) exactly one request is
    sent, the simulation of the transaction on the node.  A transport
    error is a rejection with the text of the exception and a status other
    than 200 a rejection with [HTTP <code>]; an answer 200 whose JSON
    object has no [result] is a rejection with its [error] (any JSON
    value), or [Unknown error]; an answer whose [result] is an object with
    a non-empty [sender], or else with a non-empty [transaction.sender], is
    an acceptance with that sender as payer; an object with neither is
    rejected with [Could not extract sender from transaction]. *)
Theorem rpc_verdicts (env : Env) (self : FacilitatorService)
    (transaction_bcs reqs : json) (transaction_bytes : string) (tr : trace) :
  APTOS_SDK_AVAILABLE env = false ->
  b64decode_value env transaction_bcs = Ok transaction_bytes ->
  let run := verify_transaction_on_chain env self transaction_bcs reqs tr in
  snd run = tr ++ [EvPost (rpc_url self) (simulate_request transaction_bytes)] /\
  match requests_post env (count is_post tr) (rpc_url self)
          (simulate_request transaction_bytes) with
  | Raise e => fst run = Ok (invalid (JStr (exn_msg e)))
  | Ok response =>
      (http_status_code response <> 200 ->
       fst run = Ok (invalid (JStr ("HTTP " +:+ PyStr.of_Z (http_status_code response)))))
      /\ (http_status_code response = 200 ->
          forall body, http_json response = Ok (JDict body) ->
          match Py.assoc body "result" with
          | None =>
              fst run = Ok (invalid (default (JStr "Unknown error") (Py.assoc body "error")))
          | Some (JDict result) =>
              let s1 := default JNull (Py.assoc result "sender") in
              if Py.truthy s1 then fst run = Ok (valid s1)
              else
                match default (JDict []) (Py.assoc result "transaction") with
                | JDict t =>
                    let s2 := default JNull (Py.assoc t "sender") in
                    fst run = Ok (if Py.truthy s2 then valid s2
                                  else invalid (JStr "Could not extract sender from transaction"))
                | other =>
                    fst run = Ok (invalid (JStr ("Verification error: '" +:+ Py.type_name other
                                                   +:+ "' object has no attribute 'get'")))
                end
          | Some other =>
              fst run = Ok (invalid (JStr ("Verification error: '" +:+ Py.type_name other
                                             +:+ "' object has no attribute 'get'")))
          end)
  end.
Proof.
  intros Hsdk Hbytes run. subst run.
  destruct (verify_on_chain_rpc env self transaction_bcs reqs transaction_bytes tr Hsdk Hbytes)
    as (res & Hrun & Hrpc).
  rewrite Hrun. simpl fst. simpl snd. split; [reflexivity |].
  revert Hrpc. unfold _verify_with_rpc, bind. rewrite simulate_transaction_eq.
  unfold simulate_result_of, lift, ret.
  destruct (requests_post env _ _ _) as [response|e].
  2:{ simpl. intros H. injection H as <-. reflexivity. }
  split.
  - intros Hc. apply Z.eqb_neq in Hc. revert Hrpc. rewrite Hc. simpl.
    intros H. injection H as <-. reflexivity.
  - intros Hc body Hbody. apply Z.eqb_eq in Hc. revert Hrpc. rewrite Hc, Hbody. simpl.
    destruct (Py.assoc body "result") as [x|]; simpl.
    + destruct x as [| | | | |result]; simpl;
        try (intros H; injection H as <-; reflexivity).
      destruct (Py.assoc result "sender") as [s1|]; simpl.
      * destruct (Py.truthy s1) eqn:Hs1; simpl.
        { rewrite Hs1. simpl. intros H; injection H as <-; reflexivity. }
        destruct (Py.assoc result "transaction") as [t|]; simpl;
          [| intros H; injection H as <-; reflexivity].
        destruct t as [| | | | |t]; simpl; try (intros H; injection H as <-; reflexivity).
        destruct (Py.assoc t "sender") as [s2|]; simpl;
          [| intros H; injection H as <-; reflexivity].
        destruct (Py.truthy s2); simpl; intros H; injection H as <-; reflexivity.
      * destruct (Py.assoc result "transaction") as [t|]; simpl;
          [| intros H; injection H as <-; reflexivity].
        destruct t as [| | | | |t]; simpl; try (intros H; injection H as <-; reflexivity).
        destruct (Py.assoc t "sender") as [s2|]; simpl;
          [| intros H; injection H as <-; reflexivity].
        destruct (Py.truthy s2); simpl; intros H; injection H as <-; reflexivity.
    + destruct (Py.assoc body "error"); simpl; intros H; injection H as <-; reflexivity.
Qed.

Lemma rpc_verdicts_witness :
  fst (verify_transaction_on_chain (rpc_env (Ok (simulated "0xB0B"))) sample_service
         (JStr "dHg=") (JDict []) [])
  = Ok (valid (JStr "0xB0B")).
Proof.
  destruct (rpc_verdicts (rpc_env (Ok (simulated "0xB0B"))) sample_service
              (JStr "dHg=") (JDict []) "dHg=" [] eq_refl eq_refl) as [_ H].
  simpl in H. destruct H as [_ H].
  exact (H eq_refl _ eq_refl).
Defined.

Lemma unhex_hex_byte (a : ascii) :
  unhex_digit (PyStr.hex_digit (Nat.div (nat_of_ascii a) 16)) = Some (Nat.div (nat_of_ascii a) 16)
  /\ unhex_digit (PyStr.hex_digit (Nat.modulo (nat_of_ascii a) 16))
     = Some (Nat.modulo (nat_of_ascii a) 16)
  /\ ascii_of_nat (16 * Nat.div (nat_of_ascii a) 16 + Nat.modulo (nat_of_ascii a) 16) = a.
Proof.
  destruct a as [[] [] [] [] [] [] [] []]; vm_compute; repeat split.
Qed.

Lemma unhex_hex (s : string) : unhex (PyStr.hex s) = Some s.
Proof.
  induction s as [|a s IH]; [reflexivity |].
  destruct (unhex_hex_byte a) as (H1 & H2 & H3).
  change (PyStr.hex (String a s))
    with (String (PyStr.hex_digit (Nat.div (nat_of_ascii a) 16))
            (String (PyStr.hex_digit (Nat.modulo (nat_of_ascii a) 16)) (PyStr.hex s))).
  cbn [unhex]. rewrite H1, H2, IH, H3. reflexivity.
Qed.

Lemma hex_length (s : string) : String.length (PyStr.hex s) = (2 * String.length s)%nat.
Proof.
  induction s as [|a s IH]; [reflexivity |].
  change (PyStr.hex (String a s))
    with (String (PyStr.hex_digit (Nat.div (nat_of_ascii a) 16))
            (String (PyStr.hex_digit (Nat.modulo (nat_of_ascii a) 16)) (PyStr.hex s))).
  cbn [String.length]. rewrite IH. lia.
Qed.

(** X11: the simulation sends one POST to the RPC URL whose only
    parameter is [0x] followed by two lower-case hexadecimal digits per
    byte of the transaction; the bytes can be read back from it, so two
    different transactions never produce the same request. *)
Theorem simulate_request_faithful (env : Env) (self : FacilitatorService)
    (b1 b2 : string) (tr : trace) :
  snd (_simulate_transaction env self b1 tr)
  = tr ++ [EvPost (rpc_url self)
             (JDict [("jsonrpc", JStr "2.0"); ("id", JInt 1);
                     ("method", JStr "transaction.simulate");
                     ("params", JList [JStr ("0x" +:+ PyStr.hex b1)])])]
  /\ String.length (PyStr.hex b1) = (2 * String.length b1)%nat
  /\ unhex (PyStr.hex b1) = Some b1
  /\ (snd (_simulate_transaction env self b1 tr) = snd (_simulate_transaction env self b2 tr)
      -> b1 = b2).
Proof.
  split; [rewrite simulate_transaction_eq; reflexivity |].
  split.
  { apply hex_length. }
  split; [apply unhex_hex |].
  rewrite !simulate_transaction_eq. simpl snd. intros H.
  apply List.app_inv_head in H. injection H as H.
  assert (Hh : PyStr.hex b1 = PyStr.hex b2) by exact H.
  assert (Hu : unhex (PyStr.hex b1) = unhex (PyStr.hex b2)) by (rewrite Hh; reflexivity).
  rewrite !unhex_hex in Hu. injection Hu as ->. reflexivity.
Qed.

Lemma simulate_request_faithful_witness :
  snd (_simulate_transaction (rpc_env (Ok (simulated "0xB0B"))) sample_service "tx" [])
  = [EvPost (rpc_url sample_service)
       (JDict [("jsonrpc", JStr "2.0"); ("id", JInt 1);
               ("method", JStr "transaction.simulate");
               ("params", JList [JStr "0x7478"])])].
Proof.
  exact (proj1 (simulate_request_faithful (rpc_env (Ok (simulated "0xB0B")))
                  sample_service "tx" "tx" [])).
Defined.

(** ** Requirements that cannot be read *)

Example repr_plain : PyStr.repr "1.5" = "'1.5'".
Proof. reflexivity. Qed.

Example repr_apostrophe :
  PyStr.repr "1'0" = String PyStr.quote2 "1'0" +:+ String PyStr.quote2 EmptyString.
Proof. reflexivity. Qed.

Example repr_newline :
  PyStr.repr (String (ascii_of_nat 10) "7") = "'" +:+ String PyStr.backslash "n7'".
Proof. reflexivity. Qed.

(** X12: for a route whose recipient and [max_amount_required] are
    ASCII text, the verifier reads back from the serialized requirements
    the lower-cased recipient, the amount and the timeout exactly when
    [int()] accepts the amount text; when it does not, the SDK path
    rejects every transaction it deserializes, whatever the transaction,
    with the text of the [ValueError] of [int()] (the limit on digits, or
    [invalid literal] followed by at most 200 characters of the
    [repr] of the text), before any check is made and without reading
    the clock. *)
Theorem unreadable_amount_rejects (r : PaymentRequirements) :
  PyStr.is_ascii (pr_pay_to r) = true ->
  PyStr.is_ascii (pr_max_amount_required r) = true ->
  let rejects_all (reason : string) :=
    forall (env : Env) (self : FacilitatorService) (transaction_bytes : string)
           (raw : RawTransaction) (tr : trace),
      RawTransaction_deserialize env transaction_bytes = Ok raw ->
      _verify_with_aptos_sdk env self transaction_bytes (to_dict r) tr
      = (Ok (invalid (JStr ("SDK verification error: " +:+ reason))), tr) in
  match PyStr.parse_int (pr_max_amount_required r) with
  | PyStr.IntValue amount =>
      read_requirements (to_dict r)
      = Ok (PyStr.lower (pr_pay_to r), amount, pr_max_timeout_seconds r)
  | PyStr.IntTooLong digits =>
      rejects_all
        ("Exceeds the limit (4300 digits) for integer string conversion: value has "
           +:+ PyStr.of_nat digits
           +:+ " digits; use sys.set_int_max_str_digits() to increase the limit")
  | PyStr.IntInvalid =>
      rejects_all
        ("invalid literal for int() with base 10: "
           +:+ PyStr.take 200 (PyStr.repr (pr_max_amount_required r)))
  end.
Proof.
  intros _ _ rejects_all.
  assert (Hrej : PyStr.to_Z (pr_max_amount_required r) = None ->
                 rejects_all (exn_msg (Py.int_error (pr_max_amount_required r)))).
  { intros Hz env self transaction_bytes raw tr Hraw.
    unfold _verify_with_aptos_sdk, try_except, bind, lift. rewrite Hraw.
    unfold read_requirements, to_dict. simpl. rewrite Hz. reflexivity. }
  unfold PyStr.to_Z, Py.int_error in Hrej.
  destruct (PyStr.parse_int (pr_max_amount_required r)) as [amount|digits|] eqn:Hp.
  - apply read_requirements_to_dict. unfold PyStr.to_Z. rewrite Hp. reflexivity.
  - exact (Hrej eq_refl).
  - exact (Hrej eq_refl).
Qed.

Lemma unreadable_amount_rejects_witness :
  _verify_with_aptos_sdk
    (sdk_env (sample_transaction None (transfer "0x1::coin::transfer" [])) 0)
    sample_service "tx"
    (to_dict (to_payment_requirements "http://agent.example/x" "0xA11CE"
                (RouteConfig_init "movement" "0x1::aptos_coin::AptosCoin" "1.5"
                   None None None None None))) []
  = (Ok (invalid (JStr "SDK verification error: invalid literal for int() with base 10: '1.5'")),
     []).
Proof.
  apply (unreadable_amount_rejects
           (to_payment_requirements "http://agent.example/x" "0xA11CE"
              (RouteConfig_init "movement" "0x1::aptos_coin::AptosCoin" "1.5"
                 None None None None None))
           eq_refl eq_refl
           (sdk_env (sample_transaction None (transfer "0x1::coin::transfer" [])) 0)
           sample_service "tx"
           (sample_transaction None (transfer "0x1::coin::transfer" [])) []).
  reflexivity.
Defined.

(** ** Response headers *)

Lemma headers_set_get (hs : list (string * string)) (name v : string) :
  headers_get (headers_set hs name v) (PyStr.lower name) = Some v.
Proof.
  unfold headers_set. induction hs as [|[k x] hs IH]; cbn.
  - rewrite String.eqb_refl. reflexivity.
  - destruct (String.eqb k (PyStr.lower name)) eqn:E; cbn.
    + rewrite String.eqb_refl. reflexivity.
    + rewrite E. exact IH.
Qed.

Lemma headers_set_other (hs : list (string * string)) (name v other : string) :
  other <> PyStr.lower name ->
  headers_get (headers_set hs name v) other = headers_get hs other.
Proof.
  intros Hne. unfold headers_set.
  set (go := fix go (hs0 : list (string * string)) (seen : bool) {struct hs0} :=
               match hs0 with
               | [] => if seen then [] else [(PyStr.lower name, v)]
               | (k, x) :: hs' =>
                   if String.eqb k (PyStr.lower name)
                   then if seen then go hs' true else (PyStr.lower name, v) :: go hs' true
                   else (k, x) :: go hs' seen
               end).
  assert (Hkey : String.eqb (PyStr.lower name) other = false).
  { apply String.eqb_neq. intros H. apply Hne. symmetry. exact H. }
  assert (H : forall seen, headers_get (go hs seen) other = headers_get hs other).
  { induction hs as [|[k x] hs IH]; intros seen; cbn.
    - destruct seen; cbn; [reflexivity | rewrite Hkey; reflexivity].
    - destruct (String.eqb k (PyStr.lower name)) eqn:E.
      + apply String.eqb_eq in E. subst k. rewrite Hkey.
        destruct seen; cbn; [apply IH | rewrite Hkey; apply IH].
      + cbn. destruct (String.eqb k other); [reflexivity | apply IH]. }
  apply H.
Qed.

(** ** The paid path, case by case *)

Lemma get_dict_default (d : dict) (k : string) (x : json) :
  Py.get (JDict d) k x = Ok (default x (Py.assoc d k)).
Proof. simpl. destruct (Py.assoc d k); reflexivity. Qed.

Lemma verify_payment_verdict (env : Env) (self : FacilitatorService)
    (x402_version payment_payload reqs : json) (tr : trace) :
  exists x, fst (verify_payment env self x402_version payment_payload reqs tr) = Ok (invalid x)
            \/ fst (verify_payment env self x402_version payment_payload reqs tr) = Ok (valid x).
Proof.
  unfold verify_payment, bind, emit, try_except, lift, ret.
  destruct (get_either payment_payload "transaction" _) as [bcs|e];
    [| eexists; left; reflexivity].
  destruct (get_either payment_payload "signature" _) as [sig|e];
    [| eexists; left; reflexivity].
  destruct (negb (Py.truthy bcs)); [eexists; left; reflexivity |].
  unfold verify_transaction_on_chain, try_except, bind, lift.
  destruct (b64decode_value env bcs) as [bytes|e]; [| eexists; left; reflexivity].
  destruct (APTOS_SDK_AVAILABLE env).
  - destruct (verify_with_aptos_sdk_verdict env self bytes reqs (tr ++ [EvVerify]))
      as (j & Hj & Hshape).
    destruct (_verify_with_aptos_sdk env self bytes reqs (tr ++ [EvVerify])) as [[j'|e] t];
      simpl in Hj; [| discriminate Hj].
    injection Hj as ->.
    destruct Hshape as [[reason ->] | [s ->]]; eexists; [left | right]; reflexivity.
  - pose proof (verify_with_rpc_verdict env self bytes reqs (tr ++ [EvVerify])) as Hshape.
    destruct (_verify_with_rpc env self bytes reqs (tr ++ [EvVerify])) as [[j|e] t];
      simpl in Hshape.
    + destruct Hshape as [[reason ->] | (payer & -> & Hp)]; eexists; [left | right]; reflexivity.
    + eexists; left; reflexivity.
Qed.

Section PaidPath.

(** A request that is not skipped, matches a protected route and carries
    a proof header that decodes. *)
Variables (env : Env) (self : X402PaywallMiddleware) (request : Request) (tr : trace).
Variables (route_config : RouteConfig) (hdr : string) (d p : dict) (v : json).

Hypothesis not_skipped : _should_skip_payment self (req_path request) = false.
Hypothesis protected :
  _get_route_config self (req_method request) (req_path request) = Some route_config.
Hypothesis carries_proof : payment_header request = Some hdr.
Hypothesis decodes : proof_decodes env hdr d p v.

Let r : PaymentRequirements :=
  to_payment_requirements (absolute_resource_url request) (pay_to self) route_config.
Let svc : FacilitatorService := facilitator_service self.
Let verified : result json * trace := verify_payment env svc v (JDict p) (to_dict r) tr.
Let t1 : trace := snd verified.
Let ev_post : event := EvPost (settle_url svc) (settle_body v (JDict p) (to_dict r)).
Let first : json :=
  settle_result_of (requests_post env (count is_post t1) (settle_url svc)
                      (settle_body v (JDict p) (to_dict r))).
Let second : json :=
  settle_result_of (requests_post env (S (count is_post t1)) (settle_url svc)
                      (settle_body v (JDict p) (to_dict r))).

Lemma settle_at (t : trace) :
  settle_payment env svc v (JDict p) (to_dict r) t
  = (Ok (settle_result_of (requests_post env (count is_post t) (settle_url svc)
                             (settle_body v (JDict p) (to_dict r)))),
     t ++ [EvSettle; ev_post]).
Proof.
  destruct (to_dict_is_dict r) as [rd Hrd]. unfold ev_post. rewrite Hrd.
  apply settle_payment_eq.
Qed.

(** The body of the [try], from the call of verify on. *)
Lemma pay_and_forward_decoded :
  pay_and_forward env self request r hdr tr =
  match fst verified with
  | Raise e => (Raise e, t1)
  | Ok verify_result =>
      match Py.get verify_result "isValid" JNull with
      | Raise e => (Raise e, t1)
      | Ok is_valid =>
          if negb (Py.truthy is_valid) then
            match Py.get verify_result "invalidReason" (JStr "Invalid payment") with
            | Ok reason => (Ok (_create_payment_required_response r reason), t1)
            | Raise e => (Raise e, t1)
            end
          else
            match Py.get first "success" JNull with
            | Raise e => (Raise e, t1 ++ [EvSettle; ev_post])
            | Ok s1 =>
                let settle_result := if negb (Py.truthy s1) then second else first in
                let t2 := if negb (Py.truthy s1)
                          then t1 ++ [EvSettle; ev_post; EvSleep 1; EvSettle; ev_post]
                          else t1 ++ [EvSettle; ev_post] in
                match Py.get settle_result "success" JNull with
                | Raise e => (Raise e, t2)
                | Ok s2 =>
                    if negb (Py.truthy s2) then
                      match Py.get settle_result "error" (JStr "Settlement failed") with
                      | Ok err => (Ok (_create_payment_required_response r err), t2)
                      | Raise e => (Raise e, t2)
                      end
                    else
                      match call_next env request with
                      | Ok h => (Ok (with_receipt env settle_result h), t2 ++ [EvCallNext])
                      | Raise e => (Raise e, t2 ++ [EvCallNext])
                      end
                end
            end
      end
  end.
Proof.
  destruct decodes as (Hdec & [s Hscheme] & Hdata & Hlt & Hls & Hv).
  unfold pay_and_forward, bind, lift. rewrite Hdec.
  rewrite !get_dict_default. cbv beta iota.
  change (Py.keys (JDict d)) with (Ok (List.map fst d)). cbv beta iota.
  rewrite Hscheme. cbn [Py.lower]. cbv beta iota.
  rewrite Hdata. change (Py.keys (JDict p)) with (Ok (List.map fst p)). cbv beta iota.
  rewrite Hlt, Hls, Hv. cbv beta iota.
  fold r. fold svc. fold verified.
  destruct verified as [[vr|e] t] eqn:Hver; unfold t1; rewrite ?Hver; cbn [fst snd]; cbv beta iota;
    [| reflexivity].
  destruct (Py.get vr "isValid" JNull) as [iv|e]; [| reflexivity].
  destruct (Py.truthy iv); cbv beta iota delta [negb].
  2:{ unfold ret. destruct (Py.get vr "invalidReason" _); reflexivity. }
  rewrite (settle_at t).
  change (settle_result_of (requests_post env (count is_post t) (settle_url svc)
            (settle_body v (JDict p) (to_dict r)))) with first.
  destruct (Py.get first "success" JNull) as [s1|e]; [| reflexivity].
  destruct (Py.truthy s1); cbv beta iota delta [negb].
  - unfold ret at 1. cbv beta iota.
    destruct (Py.get first "success" JNull) as [s2|e]; [| reflexivity].
    destruct (Py.truthy s2); cbv beta iota delta [negb].
    + unfold forward, ret, with_receipt. destruct (call_next env request); reflexivity.
    + unfold ret. destruct (Py.get first "error" _); reflexivity.
  - unfold sleep, emit. rewrite settle_at.
    assert (Hcount : count is_post ((t ++ [EvSettle; ev_post]) ++ [EvSleep 1])
                     = S (count is_post t)).
    { rewrite !count_app. unfold count. simpl. lia. }
    rewrite Hcount.
    change (settle_result_of (requests_post env (S (count is_post t)) (settle_url svc)
              (settle_body v (JDict p) (to_dict r)))) with second.
    assert (Happ : ((t ++ [EvSettle; ev_post]) ++ [EvSleep 1]) ++ [EvSettle; ev_post]
                   = t ++ [EvSettle; ev_post; EvSleep 1; EvSettle; ev_post]).
    { rewrite <- !List.app_assoc. reflexivity. }
    rewrite Happ.
    destruct (Py.get second "success" JNull) as [s2|e]; [| reflexivity].
    destruct (Py.truthy s2); cbv beta iota delta [negb].
    + unfold forward, ret, with_receipt. destruct (call_next env request); reflexivity.
    + unfold ret. destruct (Py.get second "error" _); reflexivity.
Qed.

Lemma dispatch_paid :
  dispatch env self request tr =
  try_except (pay_and_forward env self request r hdr)
    (fun e =>
       if is_ValueError e then
         ret (_create_payment_required_response r
                (JStr ("Invalid payment header: " +:+ exn_msg e)))
       else
         ret (_create_payment_required_response r
                (JStr ("Payment verification error: " +:+ exn_msg e)))) tr.
Proof. unfold dispatch. rewrite not_skipped, protected, carries_proof. reflexivity. Qed.

Lemma verify_effects_no_call (evs : list event) :
  verify_effects evs -> count is_call_next (EvVerify :: evs) = 0%nat.
Proof. intros [H | [H | (u & b & H)]]; subst evs; reflexivity. Qed.

Lemma reports_success_inv (j : json) :
  reports_success j = true ->
  exists s, Py.get j "success" JNull = Ok s /\ Py.truthy s = true.
Proof.
  unfold reports_success. destruct (Py.get j "success" JNull) as [s|e]; [| discriminate].
  intros H. exists s. split; [reflexivity | exact H].
Qed.

Lemma reports_failure_inv (j : json) :
  reports_failure j = true ->
  exists s, Py.get j "success" JNull = Ok s /\ Py.truthy s = false.
Proof.
  unfold reports_failure. destruct (Py.get j "success" JNull) as [s|e]; [| discriminate].
  intros H. exists s. split; [reflexivity |]. destruct (Py.truthy s); [discriminate H | reflexivity].
Qed.

Lemma verified_trace :
  count is_settle t1 = count is_settle tr /\
  count is_call_next t1 = count is_call_next tr /\
  count is_sleep t1 = count is_sleep tr.
Proof.
  destruct (verify_payment_trace env svc v (JDict p) (to_dict r) tr) as (x & evs & Hv & He).
  unfold t1, verified. rewrite Hv. simpl snd. rewrite !count_app.
  destruct (verify_effects_quiet evs He) as [Hs Hz].
  rewrite Hs, Hz, (verify_effects_no_call evs He). lia.
Qed.

(** X13: a proof that the facilitator judges invalid is answered 402
    with the facilitator's reason; nothing is settled, the caller is not
    put to sleep, and the handler is not called. *)
Theorem invalid_payment_not_settled (reason : json) :
  fst verified = Ok (invalid reason) ->
  dispatch env self request tr
  = (Ok (JSONResponse 402 (JDict (challenge r ++ error_entry reason))), t1) /\
  count is_settle t1 = count is_settle tr /\
  count is_call_next t1 = count is_call_next tr /\
  count is_sleep t1 = count is_sleep tr.
Proof.
  intros Hv. split; [| exact verified_trace].
  rewrite dispatch_paid. unfold try_except. rewrite pay_and_forward_decoded, Hv.
  cbn. rewrite create_402_eq. reflexivity.
Qed.

(** X14: when the proof verifies and the first settle call reports
    success, the handler is called once, after the only settle call, and
    its response is returned with status and body untouched; the receipt
    of the settlement can be read under [x-payment-response], and every
    other header reads as the handler set it. *)
Theorem settled_payment_forwarded (payer : json) (h : Response) :
  fst verified = Ok (valid payer) ->
  reports_success first = true ->
  call_next env request = Ok h ->
  exists resp,
    dispatch env self request tr = (Ok resp, t1 ++ [EvSettle; ev_post; EvCallNext]) /\
    status_code resp = status_code h /\
    resp_body resp = resp_body h /\
    headers_get (headers resp) "x-payment-response"
    = Some (base64_b64encode env (json_dumps env first)) /\
    forall name, name <> "x-payment-response" ->
                 headers_get (headers resp) name = headers_get (headers h) name.
Proof.
  intros Hv Hs Hh. exists (with_receipt env first h).
  split; [| split; [reflexivity | split; [reflexivity | split]]].
  - rewrite dispatch_paid. unfold try_except. rewrite pay_and_forward_decoded, Hv.
    cbn [fst Py.get invalid valid Py.assoc String.eqb Ascii.eqb Bool.eqb Py.truthy negb].
    cbv beta iota.
    destruct (reports_success_inv first Hs) as (s1 & Hg & Ht).
    rewrite Hg. cbv beta iota zeta. rewrite Ht. cbv beta iota zeta delta [negb].
    rewrite Hg. cbv beta iota zeta. rewrite Ht. cbv beta iota zeta delta [negb].
    rewrite Hh. rewrite <- List.app_assoc. reflexivity.
  - exact (headers_set_get (headers h) "X-PAYMENT-RESPONSE" _).
  - intros name Hne. exact (headers_set_other (headers h) "X-PAYMENT-RESPONSE" _ name Hne).
Qed.

Lemma dispatch_retry (payer : json) :
  fst verified = Ok (valid payer) ->
  reports_failure first = true ->
  dispatch env self request tr =
  let t2 := t1 ++ [EvSettle; ev_post; EvSleep 1; EvSettle; ev_post] in
  match Py.get second "success" JNull with
  | Raise e =>
      (Ok (_create_payment_required_response r (JStr (except_prefix e +:+ exn_msg e))), t2)
  | Ok s2 =>
      if Py.truthy s2 then
        match call_next env request with
        | Ok h => (Ok (with_receipt env second h), t2 ++ [EvCallNext])
        | Raise e =>
            (Ok (_create_payment_required_response r (JStr (except_prefix e +:+ exn_msg e))),
             t2 ++ [EvCallNext])
        end
      else
        match Py.get second "error" (JStr "Settlement failed") with
        | Ok err => (Ok (_create_payment_required_response r err), t2)
        | Raise e =>
            (Ok (_create_payment_required_response r (JStr (except_prefix e +:+ exn_msg e))), t2)
        end
  end.
Proof.
  intros Hv Hf. rewrite dispatch_paid. unfold try_except. rewrite pay_and_forward_decoded, Hv.
  cbn [fst Py.get invalid valid Py.assoc String.eqb Ascii.eqb Bool.eqb Py.truthy negb].
  cbv beta iota.
  destruct (reports_failure_inv first Hf) as (s1 & Hg & Ht).
  rewrite Hg. cbv beta iota zeta. rewrite Ht. cbv beta iota zeta delta [negb].
  unfold except_prefix, ret.
  destruct (Py.get second "success" JNull) as [s2|e].
  - destruct (Py.truthy s2).
    + destruct (call_next env request) as [h|e]; [reflexivity |].
      destruct (is_ValueError e); reflexivity.
    + destruct (Py.get second "error" _) as [err|e]; [reflexivity |].
      destruct (is_ValueError e); reflexivity.
  - destruct (is_ValueError e); reflexivity.
Qed.

(** X15: when the first settle call reports a failure, the second one
    is made after a sleep of one second and decides alone: if it reports
    success the handler's response is returned with the receipt of the
    second result. *)
Theorem retry_success_forwarded (payer : json) (h : Response) :
  fst verified = Ok (valid payer) ->
  reports_failure first = true ->
  reports_success second = true ->
  call_next env request = Ok h ->
  dispatch env self request tr
  = (Ok (with_receipt env second h),
     t1 ++ [EvSettle; ev_post; EvSleep 1; EvSettle; ev_post; EvCallNext]).
Proof.
  intros Hv Hf Hs Hh. rewrite (dispatch_retry payer Hv Hf). cbv zeta.
  destruct (reports_success_inv second Hs) as (s2 & Hg & Ht).
  rewrite Hg, Ht, Hh. rewrite <- List.app_assoc. reflexivity.
Qed.

(** X16: when both settle calls report a failure, the answer is 402
    with the [error] entry of the second result ([Settlement failed] if
    it has none); what the first attempt reported is dropped, and the
    handler is not called. *)
Theorem second_failure_reported (payer : json) (sd : dict) :
  fst verified = Ok (valid payer) ->
  reports_failure first = true ->
  second = JDict sd ->
  reports_failure second = true ->
  dispatch env self request tr
  = (Ok (JSONResponse 402
           (JDict (challenge r ++
                   error_entry (default (JStr "Settlement failed") (Py.assoc sd "error"))))),
     t1 ++ [EvSettle; ev_post; EvSleep 1; EvSettle; ev_post]).
Proof.
  intros Hv Hf Hd Hs. rewrite (dispatch_retry payer Hv Hf). cbv zeta.
  destruct (reports_failure_inv second Hs) as (s2 & Hg & Ht).
  rewrite Hg, Ht, Hd, get_dict_default, create_402_eq. reflexivity.
Qed.

Lemma prefixed_truthy (e : exn) : Py.truthy (JStr (except_prefix e +:+ exn_msg e)) = true.
Proof. unfold except_prefix. destruct (is_ValueError e); reflexivity. Qed.

(** X17: a handler that raises after the payment has been settled is
    answered 402, with the text of the handler's exception after
    [Invalid payment header: ] if it is a [ValueError] and after
    [Payment verification error: ] otherwise; the settle POST has been
    made by then. *)
Theorem handler_failure_after_settlement (payer : json) (e : exn) :
  fst verified = Ok (valid payer) ->
  reports_success first = true ->
  call_next env request = Raise e ->
  dispatch env self request tr
  = (Ok (JSONResponse 402
           (JDict (challenge r ++ [("error", JStr (except_prefix e +:+ exn_msg e))]))),
     t1 ++ [EvSettle; ev_post; EvCallNext]).
Proof.
  intros Hv Hs Hh. rewrite dispatch_paid. unfold try_except.
  rewrite pay_and_forward_decoded, Hv.
  cbn [fst Py.get invalid valid Py.assoc String.eqb Ascii.eqb Bool.eqb Py.truthy negb].
  cbv beta iota.
  destruct (reports_success_inv first Hs) as (s1 & Hg & Ht).
  rewrite Hg. cbv beta iota zeta. rewrite Ht. cbv beta iota zeta delta [negb].
  rewrite Hg. cbv beta iota zeta. rewrite Ht. cbv beta iota zeta delta [negb].
  rewrite Hh. rewrite <- (create_402_truthy r _ (prefixed_truthy e)).
  rewrite <- List.app_assoc. unfold except_prefix, ret.
  destruct (is_ValueError e); reflexivity.
Qed.

(** X18: a settlement answer that is no JSON object (the remote end
    answered 200 with a list, a number, a string or [null]) is not
    treated as a refusal: there is no second attempt and no call of the
    handler, and the answer is 402 with the text of the attribute
    error. *)
Theorem unstructured_settlement_answer (payer : json) :
  fst verified = Ok (valid payer) ->
  (forall sd, first <> JDict sd) ->
  dispatch env self request tr
  = (Ok (JSONResponse 402
           (JDict (challenge r ++
                   [("error", JStr ("Payment verification error: '" +:+ Py.type_name first
                                      +:+ "' object has no attribute 'get'"))]))),
     t1 ++ [EvSettle; ev_post]).
Proof.
  intros Hv Hn. rewrite dispatch_paid. unfold try_except.
  rewrite pay_and_forward_decoded, Hv.
  cbn [fst Py.get invalid valid Py.assoc String.eqb Ascii.eqb Bool.eqb Py.truthy negb].
  cbv beta iota.
  assert (Hg : Py.get first "success" JNull = Raise (Py.no_attribute first "get")).
  { destruct first as [| | | | |sd]; try reflexivity. exfalso. exact (Hn sd eq_refl). }
  rewrite Hg. cbv beta iota.
  change (is_ValueError (Py.no_attribute first "get")) with false. cbv iota.
  unfold ret. rewrite create_402_truthy; reflexivity.
Qed.

Lemma settlement_first :
  reports_failure first = false ->
  settlement env svc v (JDict p) (to_dict r) t1 first (t1 ++ [EvSettle; ev_post]).
Proof. intros H. eapply settlement_once; [apply settle_at | exact H]. Qed.

Lemma settlement_second :
  reports_failure first = true ->
  settlement env svc v (JDict p) (to_dict r) t1 second
    (t1 ++ [EvSettle; ev_post; EvSleep 1; EvSettle; ev_post]).
Proof.
  intros H. eapply settlement_retried; [apply settle_at | exact H |].
  rewrite settle_at.
  assert (Hcount : count is_post ((t1 ++ [EvSettle; ev_post]) ++ [EvSleep 1])
                   = S (count is_post t1)).
  { rewrite !count_app. unfold count. simpl. lia. }
  rewrite Hcount. rewrite <- !List.app_assoc. reflexivity.
Qed.

Lemma verified_eq (x : json) :
  fst verified = Ok x ->
  verify_payment env svc v (JDict p) (to_dict r) tr = (Ok x, t1).
Proof.
  unfold t1, verified. destruct (verify_payment env svc v (JDict p) (to_dict r) tr) as [res t].
  simpl. intros ->. reflexivity.
Qed.

Lemma handler_answer (e : exn) (t : trace) :
  (if is_ValueError e
   then ret (_create_payment_required_response r
               (JStr ("Invalid payment header: " +:+ exn_msg e)))
   else ret (_create_payment_required_response r
               (JStr ("Payment verification error: " +:+ exn_msg e)))) t
  = (Ok (refusal r (JStr (except_prefix e +:+ exn_msg e))), t).
Proof.
  unfold except_prefix, refusal, ret.
  destruct (is_ValueError e); rewrite create_402_eq; reflexivity.
Qed.

(** [dispatch] after a valid verdict, by the settlement result that
    counts. *)
Lemma dispatch_settling (payer : json) :
  fst verified = Ok (valid payer) ->
  dispatch env self request tr =
  let result := if reports_failure first then second else first in
  let t2 := if reports_failure first
            then t1 ++ [EvSettle; ev_post; EvSleep 1; EvSettle; ev_post]
            else t1 ++ [EvSettle; ev_post] in
  match result with
  | JDict sd =>
      if Py.truthy (default JNull (Py.assoc sd "success")) then
        match call_next env request with
        | Ok h => (Ok (with_receipt env result h), t2 ++ [EvCallNext])
        | Raise e => (Ok (refusal r (JStr (except_prefix e +:+ exn_msg e))), t2 ++ [EvCallNext])
        end
      else (Ok (refusal r (default (JStr "Settlement failed") (Py.assoc sd "error"))), t2)
  | other =>
      (Ok (refusal r (JStr ("Payment verification error: '" +:+ Py.type_name other
                              +:+ "' object has no attribute 'get'"))), t2)
  end.
Proof.
  intros Hv. rewrite dispatch_paid. unfold try_except.
  rewrite pay_and_forward_decoded, Hv.
  cbn [fst Py.get invalid valid Py.assoc String.eqb Ascii.eqb Bool.eqb Py.truthy negb].
  cbv beta iota zeta. unfold reports_failure.
  clearbody first second.
  assert (Hend : forall (result : json) (t2 : trace),
    (let (r0, tr') :=
       match Py.get result "success" JNull with
       | Ok s2 =>
           if negb (Py.truthy s2) then
             match Py.get result "error" (JStr "Settlement failed") with
             | Ok err => (Ok (_create_payment_required_response r err), t2)
             | Raise e => (Raise e, t2)
             end
           else
             match call_next env request with
             | Ok h => (Ok (with_receipt env result h), t2 ++ [EvCallNext])
             | Raise e => (Raise e, t2 ++ [EvCallNext])
             end
       | Raise e => (Raise e, t2)
       end in
     match r0 with
     | Ok a => (Ok a, tr')
     | Raise e =>
         (if is_ValueError e
          then ret (_create_payment_required_response r
                      (JStr ("Invalid payment header: " +:+ exn_msg e)))
          else ret (_create_payment_required_response r
                      (JStr ("Payment verification error: " +:+ exn_msg e)))) tr'
     end)
    = match result with
      | JDict sd =>
          if Py.truthy (default JNull (Py.assoc sd "success")) then
            match call_next env request with
            | Ok h => (Ok (with_receipt env result h), t2 ++ [EvCallNext])
            | Raise e =>
                (Ok (refusal r (JStr (except_prefix e +:+ exn_msg e))), t2 ++ [EvCallNext])
            end
          else (Ok (refusal r (default (JStr "Settlement failed") (Py.assoc sd "error"))), t2)
      | other =>
          (Ok (refusal r (JStr ("Payment verification error: '" +:+ Py.type_name other
                                  +:+ "' object has no attribute 'get'"))), t2)
      end).
  { intros result t2.
    destruct result as [| | | | |sd];
      try (cbn [Py.get]; cbv beta iota; rewrite handler_answer; reflexivity).
    rewrite !get_dict_default. cbv beta iota.
    destruct (Py.truthy (default JNull (Py.assoc sd "success"))); cbv beta iota delta [negb].
    - destruct (call_next env request) as [h|e]; [reflexivity | apply handler_answer].
    - unfold refusal. rewrite create_402_eq. reflexivity. }
  destruct (Py.get first "success" JNull) as [s1|e] eqn:Hg1.
  - destruct (Py.truthy s1) eqn:Ht1; cbv beta iota zeta delta [negb].
    + rewrite <- Hend. rewrite Hg1. reflexivity.
    + rewrite <- Hend. reflexivity.
  - cbv beta iota zeta. rewrite <- Hend. rewrite Hg1. reflexivity.
Qed.

Lemma settlement_counts :
  settlement env svc v (JDict p) (to_dict r) t1
    (if reports_failure first then second else first)
    (if reports_failure first
     then t1 ++ [EvSettle; ev_post; EvSleep 1; EvSettle; ev_post]
     else t1 ++ [EvSettle; ev_post]).
Proof.
  destruct (reports_failure first) eqn:Hf;
    [apply settlement_second | apply settlement_first]; exact Hf.
Qed.

Lemma outcome_of_settlement (payer result : json) (t2 : trace) :
  verify_payment env svc v (JDict p) (to_dict r) tr = (Ok (valid payer), t1) ->
  settlement env svc v (JDict p) (to_dict r) t1 result t2 ->
  exists resp tr',
    match result with
    | JDict sd =>
        if Py.truthy (default JNull (Py.assoc sd "success")) then
          match call_next env request with
          | Ok h => (Ok (with_receipt env result h), t2 ++ [EvCallNext])
          | Raise e =>
              (Ok (refusal r (JStr (except_prefix e +:+ exn_msg e))), t2 ++ [EvCallNext])
          end
        else (Ok (refusal r (default (JStr "Settlement failed") (Py.assoc sd "error"))), t2)
    | other =>
        (Ok (refusal r (JStr ("Payment verification error: '" +:+ Py.type_name other
                                +:+ "' object has no attribute 'get'"))), t2)
    end = (Ok resp, tr') /\
    paid_outcome env self request r hdr tr resp tr'.
Proof.
  intros Hrun Hset.
  destruct result as [| | | | |sd];
    try (eexists; eexists; split; [reflexivity |];
         eapply settlement_unreadable; [exact decodes | exact Hrun | exact Hset | reflexivity]).
  destruct (Py.truthy (default JNull (Py.assoc sd "success"))) eqn:Ht.
  - assert (Hs : reports_success (JDict sd) = true).
    { unfold reports_success. rewrite get_dict_default. exact Ht. }
    destruct (call_next env request) as [h|e] eqn:Hh; eexists; eexists;
      (split; [reflexivity |]).
    + eapply access_granted; [exact decodes | exact Hrun | exact Hset | exact Hs | exact Hh].
    + eapply handler_failed; [exact decodes | exact Hrun | exact Hset | exact Hs | exact Hh].
  - assert (Hf : reports_failure (JDict sd) = true).
    { unfold reports_failure. rewrite get_dict_default, Ht. reflexivity. }
    eexists; eexists. split; [reflexivity |].
    eapply settlement_failed; [exact decodes | exact Hrun | exact Hset | exact Hf].
Qed.

(** What the paid path answers once the proof is decoded. *)
Lemma paid_outcome_decoded :
  exists resp tr',
    dispatch env self request tr = (Ok resp, tr') /\
    paid_outcome env self request r hdr tr resp tr'.
Proof.
  destruct (verify_payment_verdict env svc v (JDict p) (to_dict r) tr) as [x [Hv | Hv]];
    fold verified in Hv.
  - eexists; eexists. split.
    + rewrite dispatch_paid. unfold try_except. rewrite pay_and_forward_decoded, Hv.
      cbn. rewrite create_402_eq. reflexivity.
    + apply (payment_invalid env self request r hdr tr d p v x t1 decodes).
      apply verified_eq. exact Hv.
  - rewrite (dispatch_settling x Hv). cbv zeta.
    exact (outcome_of_settlement x _ _ (verified_eq _ Hv) settlement_counts).
Qed.

End PaidPath.

Lemma paid_header_decodes (raw : result RawTransaction) (clock : nat -> Z)
    (remote : nat -> result HttpResponse) (handler : result Response) :
  proof_decodes (sample_env (Ok paid_payload) raw clock remote handler) paid_header
    [("transaction", JStr "dHg=")] [("transaction", JStr "dHg=")] (JInt 1).
Proof.
  unfold proof_decodes. repeat split; try reflexivity. exists "exact". reflexivity.
Qed.

Lemma invalid_payment_not_settled_witness :
  dispatch (sdk_env (sample_transaction (Some 50) (transfer "0x1::coin::transfer" [])) 100)
    sample_middleware paid_request []
  = (Ok (JSONResponse 402
           (JDict (challenge paid_requirements ++
                   [("error", JStr "Transaction has expired")]))),
     [EvVerify; EvTime]).
Proof.
  exact (proj1 (invalid_payment_not_settled
                  (sdk_env (sample_transaction (Some 50) (transfer "0x1::coin::transfer" [])) 100)
                  sample_middleware paid_request [] sample_route paid_header
                  [("transaction", JStr "dHg=")] [("transaction", JStr "dHg=")] (JInt 1)
                  eq_refl eq_refl eq_refl (paid_header_decodes _ _ _ _)
                  (JStr "Transaction has expired") eq_refl)).
Defined.

Lemma settled_payment_forwarded_witness :
  exists resp,
    dispatch (settling_env (fun _ => Ok settled) (Ok ok_response)) sample_middleware
      paid_request []
    = (Ok resp, [EvVerify; EvSettle; settle_post; EvCallNext]) /\
    headers_get (headers resp) "x-payment-response" = Some "{}" /\
    headers_get (headers resp) "content-type" = Some "text/plain".
Proof.
  destruct (settled_payment_forwarded
              (settling_env (fun _ => Ok settled) (Ok ok_response))
              sample_middleware paid_request [] sample_route paid_header
              [("transaction", JStr "dHg=")] [("transaction", JStr "dHg=")] (JInt 1)
              eq_refl eq_refl eq_refl (paid_header_decodes _ _ _ _)
              (JStr "0xB0B") ok_response eq_refl eq_refl eq_refl)
    as (resp & Hd & _ & _ & Hr & Ho).
  exists resp. split; [exact Hd | split; [exact Hr |]].
  rewrite (Ho "content-type"); [reflexivity | discriminate].
Defined.

Lemma retry_success_forwarded_witness :
  dispatch (settling_env (refused_then "sequence number too old" settled) (Ok ok_response))
    sample_middleware paid_request []
  = (Ok (with_receipt (settling_env (refused_then "sequence number too old" settled)
                         (Ok ok_response))
           (JDict [("success", JBool true); ("txHash", JStr "0xfeed")]) ok_response),
     retry_trace ++ [EvCallNext]).
Proof.
  exact (retry_success_forwarded
           (settling_env (refused_then "sequence number too old" settled) (Ok ok_response))
           sample_middleware paid_request [] sample_route paid_header
           [("transaction", JStr "dHg=")] [("transaction", JStr "dHg=")] (JInt 1)
           eq_refl eq_refl eq_refl (paid_header_decodes _ _ _ _)
           (JStr "0xB0B") ok_response eq_refl eq_refl eq_refl eq_refl).
Defined.

Lemma second_failure_reported_witness :
  dispatch (settling_env (refused_then "sequence number too old" (refused "insufficient balance"))
              (Ok ok_response))
    sample_middleware paid_request []
  = (Ok (JSONResponse 402
           (JDict (challenge paid_requirements ++
                   [("error", JStr "insufficient balance")]))),
     retry_trace).
Proof.
  exact (second_failure_reported
           (settling_env (refused_then "sequence number too old" (refused "insufficient balance"))
              (Ok ok_response))
           sample_middleware paid_request [] sample_route paid_header
           [("transaction", JStr "dHg=")] [("transaction", JStr "dHg=")] (JInt 1)
           eq_refl eq_refl eq_refl (paid_header_decodes _ _ _ _)
           (JStr "0xB0B")
           [("success", JBool false); ("error", JStr "insufficient balance")]
           eq_refl eq_refl eq_refl eq_refl).
Defined.

Lemma handler_failure_after_settlement_witness :
  dispatch (settling_env (fun _ => Ok settled) (Raise (Exn KeyError "'query'")))
    sample_middleware paid_request []
  = (Ok (JSONResponse 402
           (JDict (challenge paid_requirements ++
                   [("error", JStr "Payment verification error: 'query'")]))),
     [EvVerify; EvSettle; settle_post; EvCallNext]).
Proof.
  exact (handler_failure_after_settlement
           (settling_env (fun _ => Ok settled) (Raise (Exn KeyError "'query'")))
           sample_middleware paid_request [] sample_route paid_header
           [("transaction", JStr "dHg=")] [("transaction", JStr "dHg=")] (JInt 1)
           eq_refl eq_refl eq_refl (paid_header_decodes _ _ _ _)
           (JStr "0xB0B") (Exn KeyError "'query'") eq_refl eq_refl eq_refl).
Defined.

Lemma unstructured_settlement_answer_witness :
  dispatch (settling_env (fun _ => Ok (answered_with JNull)) (Ok ok_response))
    sample_middleware paid_request []
  = (Ok (JSONResponse 402
           (JDict (challenge paid_requirements ++
                   [("error",
                     JStr "Payment verification error: 'NoneType' object has no attribute 'get'")]))),
     [EvVerify; EvSettle; settle_post]).
Proof.
  refine (unstructured_settlement_answer
            (settling_env (fun _ => Ok (answered_with JNull)) (Ok ok_response))
            sample_middleware paid_request [] sample_route paid_header
            [("transaction", JStr "dHg=")] [("transaction", JStr "dHg=")] (JInt 1)
            eq_refl eq_refl eq_refl (paid_header_decodes _ _ _ _)
            (JStr "0xB0B") eq_refl _).
  intros sd H. discriminate H.
Defined.

Lemma malformed_not_value_error (payload : json) (e : exn) :
  malformed payload e -> is_ValueError e = false.
Proof.
  intros [pl _ | d x _ _ | d s x _ _ _ | d p s x e' _ _ _ Hl]; try reflexivity.
  destruct x; simpl in Hl; try discriminate Hl; injection Hl as <-; reflexivity.
Qed.

Lemma malformed_message (payload : json) (e : exn) :
  malformed payload e -> String.eqb ("Payment verification error: " +:+ exn_msg e) "" = false.
Proof. intros _. reflexivity. Qed.

Lemma pay_and_forward_malformed (env : Env) (self : X402PaywallMiddleware)
    (request : Request) (r : PaymentRequirements) (hdr : string) (tr : trace)
    (payload : json) (e : exn) :
  _decode_payment_header env hdr = Ok payload ->
  malformed payload e ->
  pay_and_forward env self request r hdr tr = (Raise e, tr).
Proof.
  intros Hdec Hm. unfold pay_and_forward, bind, lift. rewrite Hdec.
  destruct Hm as [pl Hn | d x Hx Hn | d s x Hs Hx Hn | d p s x e' Hs Hp Hx Hl].
  - destruct pl as [| | | | |d]; try reflexivity. exfalso. exact (Hn d eq_refl).
  - rewrite !get_dict_default. cbv beta iota.
    change (Py.keys (JDict d)) with (Ok (List.map fst d)). cbv beta iota.
    rewrite Hx. cbn [default from_option id].
    destruct x as [| | | s | |]; try reflexivity. exfalso. exact (Hn s eq_refl).
  - rewrite !get_dict_default. cbv beta iota.
    change (Py.keys (JDict d)) with (Ok (List.map fst d)). cbv beta iota.
    rewrite Hs. cbn [Py.lower]. cbv beta iota.
    rewrite Hx. cbn [default from_option id].
    destruct x as [| | | | |p]; try reflexivity. exfalso. exact (Hn p eq_refl).
  - rewrite !get_dict_default. cbv beta iota.
    change (Py.keys (JDict d)) with (Ok (List.map fst d)). cbv beta iota.
    rewrite Hs. cbn [Py.lower]. cbv beta iota.
    rewrite Hp. change (Py.keys (JDict p)) with (Ok (List.map fst p)). cbv beta iota.
    unfold log_length. cbn [Py.contains Py.get]. rewrite Hx. cbv beta iota. rewrite Hl.
    reflexivity.
Qed.

(** X19: a proof header that decodes to JSON of the wrong shape (no
    object; a scheme that is no string; a [payload] entry that is no
    object; a [transaction] without a length) is answered 402 with
    [Payment verification error: ] and the text of the exception, before
    the facilitator is asked: no effect is performed. *)
Theorem malformed_proof_not_verified (env : Env) (self : X402PaywallMiddleware)
    (request : Request) (tr : trace) (route_config : RouteConfig) (hdr : string)
    (payload : json) (e : exn) :
  _should_skip_payment self (req_path request) = false ->
  _get_route_config self (req_method request) (req_path request) = Some route_config ->
  payment_header request = Some hdr ->
  _decode_payment_header env hdr = Ok payload ->
  malformed payload e ->
  dispatch env self request tr
  = (Ok (JSONResponse 402
           (JDict (challenge (to_payment_requirements (absolute_resource_url request)
                                (pay_to self) route_config) ++
                   [("error", JStr ("Payment verification error: " +:+ exn_msg e))]))),
     tr).
Proof.
  intros Hskip Hroute Hhdr Hdec Hm.
  rewrite (dispatch_paid env self request tr route_config hdr Hskip Hroute Hhdr).
  unfold try_except. rewrite (pay_and_forward_malformed _ _ _ _ _ _ _ _ Hdec Hm).
  rewrite (malformed_not_value_error _ _ Hm). unfold ret.
  rewrite create_402_truthy; [reflexivity |].
  unfold Py.truthy. rewrite (malformed_message _ _ Hm). reflexivity.
Qed.

Lemma malformed_proof_not_verified_witness :
  dispatch null_scheme_env sample_middleware paid_request []
  = (Ok (JSONResponse 402
           (JDict (challenge paid_requirements ++
                   [("error",
                     JStr "Payment verification error: 'NoneType' object has no attribute 'lower'")]))),
     []).
Proof.
  refine (malformed_proof_not_verified null_scheme_env sample_middleware paid_request [] sample_route
            paid_header (JDict [("scheme", JNull); ("transaction", JStr "dHg=")])
            (Py.no_attribute JNull "lower") eq_refl eq_refl eq_refl eq_refl _).
  apply scheme_not_text; [reflexivity | intros s H; discriminate H].
Defined.

(** ** Every failure of the paid path is a 402 *)

Lemma proof_rejected_not_value_error (payload : json) (e : exn) :
  proof_rejected payload e -> is_ValueError e = false.
Proof.
  intros [pl e' Hm | d p s x e' _ _ _ _ Hl].
  - exact (malformed_not_value_error _ _ Hm).
  - destruct x; simpl in Hl; try discriminate Hl; injection Hl as <-; reflexivity.
Qed.

Lemma pay_and_forward_rejected (env : Env) (self : X402PaywallMiddleware)
    (request : Request) (r : PaymentRequirements) (hdr : string) (tr : trace)
    (payload : json) (e : exn) :
  _decode_payment_header env hdr = Ok payload ->
  proof_rejected payload e ->
  pay_and_forward env self request r hdr tr = (Raise e, tr).
Proof.
  intros Hdec Hrej. revert Hdec.
  destruct Hrej as [pl e' Hm | d p s x e' Hs Hp Ht Hx Hl]; intros Hdec.
  - exact (pay_and_forward_malformed env self request r hdr tr _ _ Hdec Hm).
  - unfold pay_and_forward, bind, lift. rewrite Hdec.
    rewrite !get_dict_default. cbv beta iota.
    change (Py.keys (JDict d)) with (Ok (List.map fst d)). cbv beta iota.
    rewrite Hs. cbn [Py.lower]. cbv beta iota.
    rewrite Hp. change (Py.keys (JDict p)) with (Ok (List.map fst p)). cbv beta iota.
    rewrite Ht. cbv beta iota.
    unfold log_length. cbn [Py.contains Py.get]. rewrite Hx. cbv beta iota. rewrite Hl.
    reflexivity.
Qed.

Lemma log_length_dict (p : dict) (k : string) :
  log_length (JDict p) k
  = match Py.assoc p k with
    | None => Ok tt
    | Some x => match Py.len x with Ok _ => Ok tt | Raise e => Raise e end
    end.
Proof. unfold log_length. cbn [Py.contains Py.get]. destruct (Py.assoc p k); reflexivity. Qed.

Lemma proof_shape_fields (env : Env) (hdr : string) (d p : dict) (s : string) :
  _decode_payment_header env hdr = Ok (JDict d) ->
  default (JStr "exact") (Py.assoc d "scheme") = JStr s ->
  default (JDict d) (Py.assoc d "payload") = JDict p ->
  (exists e, proof_rejected (JDict d) e) \/ (exists d' p' v, proof_decodes env hdr d' p' v).
Proof.
  intros Hdec Hs Hp.
  destruct (log_length (JDict p) "transaction") as [[]|e] eqn:Ht.
  2:{ left. exists e. apply rejected_malformed.
      rewrite log_length_dict in Ht.
      destruct (Py.assoc p "transaction") as [x|] eqn:Hx; [| discriminate Ht].
      eapply (transaction_without_length d p s x e Hs Hp Hx).
      destruct (Py.len x) as [n|e0]; [discriminate Ht | injection Ht as ->; reflexivity]. }
  destruct (log_length (JDict p) "signature") as [[]|e] eqn:Hg.
  2:{ left. exists e.
      rewrite log_length_dict in Hg.
      destruct (Py.assoc p "signature") as [x|] eqn:Hx; [| discriminate Hg].
      eapply (rejected_signature d p s x e Hs Hp Ht Hx).
      destruct (Py.len x) as [n|e0]; [discriminate Hg | injection Hg as ->; reflexivity]. }
  right. exists d, p, (default (JInt 1) (Py.assoc d "x402Version")).
  unfold proof_decodes. repeat split; try assumption. exists s. exact Hs.
Qed.

Lemma proof_shape_body (env : Env) (hdr : string) (d : dict) (s : string) :
  _decode_payment_header env hdr = Ok (JDict d) ->
  default (JStr "exact") (Py.assoc d "scheme") = JStr s ->
  (exists e, proof_rejected (JDict d) e) \/ (exists d' p' v, proof_decodes env hdr d' p' v).
Proof.
  intros Hdec Hs.
  destruct (Py.assoc d "payload") as [x|] eqn:Hx.
  - destruct x as [| | | | |p];
      try (left; eexists; apply rejected_malformed;
           eapply (body_not_an_object d s _ Hs Hx); intros p H; discriminate H).
    apply (proof_shape_fields env hdr d p s Hdec Hs). rewrite Hx. reflexivity.
  - apply (proof_shape_fields env hdr d d s Hdec Hs). rewrite Hx. reflexivity.
Qed.

(** A decoded proof is either rejected for its shape or decodes to a
    body and a version. *)
Lemma proof_shape (env : Env) (hdr : string) (payload : json) :
  _decode_payment_header env hdr = Ok payload ->
  (exists e, proof_rejected payload e) \/ (exists d p v, proof_decodes env hdr d p v).
Proof.
  intros Hdec.
  destruct payload as [| | | | |d];
    try (left; eexists; apply rejected_malformed, not_an_object; intros d H; discriminate H).
  destruct (Py.assoc d "scheme") as [x|] eqn:Hsch.
  - destruct x as [| | |s| |];
      try (left; eexists; apply rejected_malformed;
           eapply scheme_not_text; [exact Hsch | intros s H; discriminate H]).
    apply (proof_shape_body env hdr d s Hdec). rewrite Hsch. reflexivity.
  - apply (proof_shape_body env hdr d "exact" Hdec). rewrite Hsch. reflexivity.
Qed.

(** C1: for a request that is not on the skip list, matches a protected
    route and carries a proof header, [dispatch] raises nothing, and its
    answer is the handler's response with the receipt, reached only after
    a valid verdict, a settlement that reported success and a handler
    that returned, or else a 402 made of the accepts challenge and of an
    [error] entry that is there exactly when the error value of the
    failure is truthy. The error value is [Invalid payment header: ]
    followed by the decoder's text when the header does not decode (no
    effect is performed then); [Payment verification error: ] followed by
    the exception's text when the decoded proof has the wrong shape or a
    settle result is no object; the facilitator's [invalidReason] when
    the verdict is invalid; the [error] of the settle result that counts
    ([Settlement failed] without one) when it reports a failure; and the
    text of the handler's exception, after [Invalid payment header: ]
    for a [ValueError] and [Payment verification error: ] otherwise,
    when the handler raises. The layer's own answers all have status
    402. *)
Theorem dispatch_fails_closed (env : Env) (self : X402PaywallMiddleware)
    (request : Request) (tr : trace) (route_config : RouteConfig) (hdr : string) :
  _should_skip_payment self (req_path request) = false ->
  _get_route_config self (req_method request) (req_path request) = Some route_config ->
  payment_header request = Some hdr ->
  let r := to_payment_requirements (absolute_resource_url request) (pay_to self)
             route_config in
  exists resp tr',
    dispatch env self request tr = (Ok resp, tr') /\
    paid_outcome env self request r hdr tr resp tr' /\
    (status_code resp = 402 \/
     exists h, call_next env request = Ok h /\ status_code resp = status_code h).
Proof.
  intros Hskip Hroute Hhdr r.
  assert (Hout : exists resp tr',
             dispatch env self request tr = (Ok resp, tr') /\
             paid_outcome env self request r hdr tr resp tr').
  { destruct (_decode_payment_header env hdr) as [payload|e] eqn:Hdec.
    - destruct (proof_shape env hdr payload Hdec) as [[e Hrej] | (d & p & v & Hshape)].
      + eexists; eexists. split.
        * rewrite (dispatch_paid env self request tr route_config hdr Hskip Hroute Hhdr).
          unfold try_except.
          rewrite (pay_and_forward_rejected env self request _ hdr tr payload e Hdec Hrej).
          rewrite (proof_rejected_not_value_error _ _ Hrej).
          unfold ret. rewrite create_402_eq. reflexivity.
        * exact (proof_unusable env self request r hdr tr payload e Hdec Hrej).
      + exact (paid_outcome_decoded env self request tr route_config hdr d p v
                 Hskip Hroute Hhdr Hshape).
    - destruct (decode_payment_header_raise env hdr e Hdec) as [Hcls _].
      eexists; eexists. split.
      + rewrite (dispatch_paid env self request tr route_config hdr Hskip Hroute Hhdr).
        unfold try_except.
        rewrite (pay_and_forward_undecodable env self request _ hdr tr e Hdec).
        unfold is_ValueError. rewrite Hcls. unfold ret. rewrite create_402_eq. reflexivity.
      + exact (header_undecodable env self request r hdr tr e Hdec). }
  destruct Hout as (resp & tr' & Hd & Ho).
  exists resp, tr'. split; [exact Hd | split; [exact Ho |]].
  destruct Ho; try (left; reflexivity).
  right. eexists. split; [eassumption | reflexivity].
Qed.

Lemma dispatch_fails_closed_witness :
  dispatch garbled_env sample_middleware paid_request []
  = (Ok (refusal paid_requirements
           (JStr "Invalid payment header: Failed to decode payment header: Expecting value: line 1 column 1 (char 0)")),
     []).
Proof.
  destruct (dispatch_fails_closed garbled_env sample_middleware paid_request []
              sample_route paid_header eq_refl eq_refl eq_refl)
    as (resp & tr' & Hd & Ho & _).
  rewrite Hd.
  inversion Ho as [e He | payload e He _ | d p v reason t [He _] _
                  | d p v payer t result t2 [He _] _ _ _
                  | d p v payer t result t2 [He _] _ _ _
                  | d p v payer t result t2 e [He _] _ _ _ _
                  | d p v payer t result t2 h [He _] _ _ _ _];
    try discriminate He.
  injection He as <-. reflexivity.
Defined.

(** ** The facilitator's [settle_payment] on any arguments *)

Lemma settle_payment_any (env : Env) (self : FacilitatorService)
    (x402_version payment_payload payment_requirements : json) (tr : trace) :
  exists j posts,
    settle_payment env self x402_version payment_payload payment_requirements tr
    = (Ok j, tr ++ EvSettle :: posts) /\
    if is_dict payment_payload && is_dict payment_requirements then
      posts = [EvPost (settle_url self)
                 (settle_body x402_version payment_payload payment_requirements)] /\
      j = settle_result_of
            (requests_post env (count is_post tr) (settle_url self)
               (settle_body x402_version payment_payload payment_requirements))
    else
      posts = [] /\ j = failure (keyless payment_payload payment_requirements).
Proof.
  destruct payment_payload as [| | | | |p];
    try (eexists; exists []; split; [reflexivity | split; reflexivity]).
  destruct payment_requirements as [| | | | |r];
    try (eexists; exists []; split; [reflexivity | split; reflexivity]).
  eexists; eexists. split.
  - rewrite settle_payment_eq. reflexivity.
  - split; reflexivity.
Qed.

(** X20: [settle_payment] never raises, whatever it is given, and makes
    at most one POST: exactly one when the payload and the requirements
    are both objects, and none otherwise, in which case it returns
    [{success: false, error: "Settlement failed: '<type>' object has no
    attribute 'keys'"}] for the first of the two that is no object. *)
Theorem settle_never_raises (env : Env) (self : FacilitatorService)
    (x402_version payment_payload payment_requirements : json) (tr : trace) :
  exists j posts,
    settle_payment env self x402_version payment_payload payment_requirements tr
    = (Ok j, tr ++ EvSettle :: posts) /\
    if is_dict payment_payload && is_dict payment_requirements then
      posts = [EvPost (settle_url self)
                 (settle_body x402_version payment_payload payment_requirements)] /\
      j = settle_result_of
            (requests_post env (count is_post tr) (settle_url self)
               (settle_body x402_version payment_payload payment_requirements))
    else
      posts = [] /\ j = failure (keyless payment_payload payment_requirements).
Proof. apply settle_payment_any. Qed.

(** ** The facilitator's endpoints *)

Lemma verify_payment_ok (env : Env) (self : FacilitatorService)
    (x402_version payment_payload reqs : json) (tr : trace) :
  exists x t,
    verify_payment env self x402_version payment_payload reqs tr = (Ok (invalid x), t)
    \/ verify_payment env self x402_version payment_payload reqs tr = (Ok (valid x), t).
Proof.
  destruct (verify_payment_verdict env self x402_version payment_payload reqs tr) as [x H].
  exists x, (snd (verify_payment env self x402_version payment_payload reqs tr)).
  destruct (verify_payment env self x402_version payment_payload reqs tr) as [res t].
  simpl in *. destruct H as [-> | ->]; [left | right]; reflexivity.
Qed.

Ltac endpoint_case :=
  simpl; split; [auto |];
  split; [intros ?H; try discriminate; eauto |];
  split;
  [ split;
    [ intros ?H; try discriminate; intros ?b ?Hb; discriminate
    | let Hn := fresh in intros Hn; try reflexivity; exfalso; eapply Hn; reflexivity ]
  | let Hn := fresh in intros Hn; try reflexivity; exfalso; apply Hn; reflexivity ].

(** X21: [POST /facilitator/verify] raises nothing of its own and
    answers with status 200, 400 or 500; a 200 answer is always a
    verdict, valid or invalid (a payment judged invalid is still
    answered 200); status 500 is given exactly when the request body is
    no JSON object; and unless the status is 200 no effect is
    performed. *)
Theorem verify_endpoint_answers (env : Env) (facilitator_service : FacilitatorService)
    (request_json : result json) (tr : trace) :
  exists out,
    fst (verify_endpoint env facilitator_service request_json tr) = Ok out /\
    (status_of out = 200 \/ status_of out = 400 \/ status_of out = 500) /\
    (status_of out = 200 ->
     exists x, out = Responds 200 (invalid x) \/ out = Responds 200 (valid x)) /\
    (status_of out = 500 <-> forall b, request_json <> Ok (JDict b)) /\
    (status_of out <> 200 ->
     snd (verify_endpoint env facilitator_service request_json tr) = tr).
Proof.
  unfold verify_endpoint, try_except, bind, lift, ret.
  destruct request_json as [body|e]; [| eexists; split; [reflexivity | endpoint_case]].
  destruct body as [| | | | |b]; try (eexists; split; [reflexivity | endpoint_case]).
  rewrite !get_dict_default. cbv beta iota.
  destruct (Py.truthy (default (JDict []) (Py.assoc b "paymentPayload")));
    cbv beta iota delta [negb]; [| eexists; split; [reflexivity | endpoint_case]].
  destruct (Py.truthy (default (JDict []) (Py.assoc b "paymentRequirements")));
    cbv beta iota delta [negb]; [| eexists; split; [reflexivity | endpoint_case]].
  destruct (verify_payment_ok env facilitator_service
              (default (JInt 1) (Py.assoc b "x402Version"))
              (default (JDict []) (Py.assoc b "paymentPayload"))
              (default (JDict []) (Py.assoc b "paymentRequirements")) tr)
    as (x & t & [H | H]); rewrite H; cbv beta iota;
    (eexists; split; [reflexivity | endpoint_case]).
Qed.

Lemma get_non_dict (j : json) (k : string) (x : json) :
  is_dict j = false -> Py.get j k x = Raise (Py.no_attribute j "get").
Proof. destruct j; try reflexivity. discriminate. Qed.

Lemma settle_endpoint_fields (env : Env) (facilitator_service : FacilitatorService)
    (b : dict) (tr : trace) :
  Py.truthy (default (JDict []) (Py.assoc b "paymentPayload")) = true ->
  Py.truthy (default (JDict []) (Py.assoc b "paymentRequirements")) = true ->
  exists j posts,
    settle_payment env facilitator_service
      (default (JInt 1) (Py.assoc b "x402Version"))
      (default (JDict []) (Py.assoc b "paymentPayload"))
      (default (JDict []) (Py.assoc b "paymentRequirements")) tr
    = (Ok j, tr ++ EvSettle :: posts) /\
    (posts = [] \/ exists u body, posts = [EvPost u body]) /\
    settle_endpoint env facilitator_service (Ok (JDict b)) tr
    = (Ok (if reports_success j then Responds 200 j
           else if reports_failure j then Responds 400 j
           else Responds 500
                  (failure (JStr ("Settlement error: '" +:+ Py.type_name j
                                    +:+ "' object has no attribute 'get'")))),
       tr ++ EvSettle :: posts).
Proof.
  intros Hp Hr.
  destruct (settle_payment_any env facilitator_service
              (default (JInt 1) (Py.assoc b "x402Version"))
              (default (JDict []) (Py.assoc b "paymentPayload"))
              (default (JDict []) (Py.assoc b "paymentRequirements")) tr)
    as (j & posts & Hs & Hshape).
  exists j, posts. split; [exact Hs | split].
  - destruct (is_dict _ && is_dict _); destruct Hshape as [-> _]; [right; eauto | left; reflexivity].
  - unfold settle_endpoint, try_except, bind, lift, ret.
    rewrite !get_dict_default. cbv beta iota. rewrite Hp, Hr. cbv beta iota delta [negb].
    rewrite Hs. cbv beta iota.
    unfold reports_success, reports_failure.
    destruct (Py.get j "success" JNull) as [s|e] eqn:Hg.
    + destruct (Py.truthy s); reflexivity.
    + destruct j; try discriminate Hg; injection Hg as <-; reflexivity.
Qed.

(** X22: [POST /facilitator/settle], on a body whose payload and
    requirements are not empty, calls [settle_payment] once (there is no
    second attempt at this level) and hands its result over with status
    200 when [success] is truthy, with status 400 when it is falsy or
    absent, and answers 500 with [Settlement error: ...] when the result
    is no object. *)
Theorem settle_endpoint_status (env : Env) (facilitator_service : FacilitatorService)
    (b : dict) (tr : trace) :
  Py.truthy (default (JDict []) (Py.assoc b "paymentPayload")) = true ->
  Py.truthy (default (JDict []) (Py.assoc b "paymentRequirements")) = true ->
  exists j posts,
    settle_payment env facilitator_service
      (default (JInt 1) (Py.assoc b "x402Version"))
      (default (JDict []) (Py.assoc b "paymentPayload"))
      (default (JDict []) (Py.assoc b "paymentRequirements")) tr
    = (Ok j, tr ++ EvSettle :: posts) /\
    (posts = [] \/ exists u body, posts = [EvPost u body]) /\
    settle_endpoint env facilitator_service (Ok (JDict b)) tr
    = (Ok (if reports_success j then Responds 200 j
           else if reports_failure j then Responds 400 j
           else Responds 500
                  (failure (JStr ("Settlement error: '" +:+ Py.type_name j
                                    +:+ "' object has no attribute 'get'")))),
       tr ++ EvSettle :: posts).
Proof. apply settle_endpoint_fields. Qed.

Lemma settle_endpoint_status_witness :
  settle_endpoint (remote_env (refused "insufficient balance")) sample_service
    (settle_request (JInt 1) paid_payload (to_dict paid_requirements)) []
  = (Ok (Responds 400 (JDict [("success", JBool false);
                              ("error", JStr "insufficient balance")])),
     [EvSettle; settle_post]).
Proof.
  destruct (settle_endpoint_status (remote_env (refused "insufficient balance"))
              sample_service
              [("x402Version", JInt 1); ("paymentPayload", paid_payload);
               ("paymentRequirements", to_dict paid_requirements)] [] eq_refl eq_refl)
    as (j & posts & Hs & _ & He).
  injection Hs as <- <-. exact He.
Defined.

(** X23: the endpoint as a proxy. When the client's settle request (the
    body [settle_payment] posts) reaches [POST /facilitator/settle], the
    endpoint posts the same body on to its own facilitator; if that one
    answers with an object, the client's [settle_payment] ends with the
    same object when it reports success, and otherwise with
    [{success: false, error: e}], [e] being the object's [error], else
    its [message], else [Unknown error]. Success is reported to the
    client exactly when the remote facilitator reported it. *)
Theorem proxied_settlement (env : Env) (facilitator_service : FacilitatorService)
    (x402_version : json) (p r jd : dict) (tr : trace) :
  p <> [] -> r <> [] ->
  settle_result_of
    (requests_post env (count is_post tr) (settle_url facilitator_service)
       (settle_body x402_version (JDict p) (JDict r))) = JDict jd ->
  exists out,
    settle_endpoint env facilitator_service
      (settle_request x402_version (JDict p) (JDict r)) tr
    = (Ok out,
       tr ++ [EvSettle;
              EvPost (settle_url facilitator_service)
                (settle_body x402_version (JDict p) (JDict r))]) /\
    settle_result_of (Ok (served env out))
    = (if reports_success (JDict jd) then JDict jd
       else failure (default (default (JStr "Unknown error") (Py.assoc jd "message"))
                       (Py.assoc jd "error"))) /\
    reports_success (settle_result_of (Ok (served env out))) = reports_success (JDict jd).
Proof.
  intros Hp Hr Hj.
  assert (Hrun :
    settle_endpoint env facilitator_service
      (settle_request x402_version (JDict p) (JDict r)) tr
    = (Ok (if reports_success (JDict jd) then Responds 200 (JDict jd)
           else Responds 400 (JDict jd)),
       tr ++ [EvSettle;
              EvPost (settle_url facilitator_service)
                (settle_body x402_version (JDict p) (JDict r))])).
  { unfold settle_endpoint, settle_request, settle_body, try_except, bind, lift, ret.
    cbn [Py.get Py.assoc String.eqb Ascii.eqb Bool.eqb].
    destruct p as [|kv p]; [exfalso; apply Hp; reflexivity |].
    destruct r as [|kv' r]; [exfalso; apply Hr; reflexivity |].
    cbn [Py.truthy negb]. cbv beta iota.
    rewrite settle_payment_eq. rewrite Hj. cbv beta iota.
    unfold reports_success. cbn [Py.get]. cbv beta iota.
    destruct (Py.truthy _); reflexivity. }
  eexists. split; [exact Hrun |].
  unfold reports_success. cbn [Py.get].
  destruct (Py.truthy (match Py.assoc jd "success" with Some x => x | None => JNull end))
    eqn:Ht.
  - split; [reflexivity |]. cbn. rewrite Ht. reflexivity.
  - split; [| reflexivity].
    unfold settle_result_of, served, settle_error_msg.
    cbn [http_status_code http_json Z.eqb Pos.eqb]. rewrite !get_dict_default. reflexivity.
Qed.

Lemma proxied_settlement_witness :
  exists out,
    settle_endpoint (remote_env (refused "insufficient balance")) sample_service
      (settle_request (JInt 1) paid_payload (to_dict paid_requirements)) []
    = (Ok out, [EvSettle; settle_post]) /\
    settle_result_of (Ok (served (remote_env (refused "insufficient balance")) out))
    = failure (JStr "insufficient balance").
Proof.
  destruct (to_dict_is_dict paid_requirements) as [rd Hrd].
  assert (Hne : rd <> []).
  { intros ->. vm_compute in Hrd. discriminate Hrd. }
  destruct (proxied_settlement (remote_env (refused "insufficient balance")) sample_service
              (JInt 1) [("transaction", JStr "dHg=")] rd
              [("success", JBool false); ("error", JStr "insufficient balance")] []
              ltac:(discriminate) Hne eq_refl)
    as (out & Hrun & Hres & _).
  exists out. unfold paid_payload, settle_post. rewrite Hrd. split; [exact Hrun | exact Hres].
Defined.

(** X24: a settle request whose payload or requirements are missing or
    empty is refused by the endpoint with the [HTTPException] of status
    400 before anything is done; the endpoint's text does not reach the
    caller of [settle_payment], whose result is
    [{success: false, error: "Unknown error"}]. *)
Theorem validation_detail_lost (env : Env) (facilitator_service : FacilitatorService)
    (b : dict) (tr : trace) :
  Py.truthy (default (JDict []) (Py.assoc b "paymentPayload")) = false \/
  Py.truthy (default (JDict []) (Py.assoc b "paymentRequirements")) = false ->
  exists detail,
    settle_endpoint env facilitator_service (Ok (JDict b)) tr
    = (Ok (HTTPException 400 detail), tr) /\
    (detail = "paymentPayload is required" \/ detail = "paymentRequirements is required") /\
    settle_result_of (Ok (served env (HTTPException 400 detail)))
    = failure (JStr "Unknown error").
Proof.
  intros H. unfold settle_endpoint, try_except, bind, lift, ret.
  rewrite !get_dict_default. cbv beta iota.
  destruct (Py.truthy (default (JDict []) (Py.assoc b "paymentPayload"))) eqn:Hp;
    cbv beta iota delta [negb].
  - destruct H as [H | H]; [discriminate H |]. rewrite H. cbv beta iota delta [negb].
    eexists. split; [reflexivity | split; [right; reflexivity | reflexivity]].
  - eexists. split; [reflexivity | split; [left; reflexivity | reflexivity]].
Qed.

Lemma validation_detail_lost_witness :
  settle_endpoint quiet_env sample_service
    (Ok (JDict [("x402Version", JInt 1); ("paymentPayload", JDict [])])) []
  = (Ok (HTTPException 400 "paymentPayload is required"), []) /\
  settle_result_of (Ok (served quiet_env (HTTPException 400 "paymentPayload is required")))
  = failure (JStr "Unknown error").
Proof.
  destruct (validation_detail_lost quiet_env sample_service
              [("x402Version", JInt 1); ("paymentPayload", JDict [])] []
              (or_introl eq_refl))
    as (detail & Hrun & _ & Hres).
  injection Hrun as <-. split; [reflexivity | exact Hres].
Defined.

(** ** The facilitator's address *)

Lemma nonempty_some (o : option string) (s : string) : nonempty o = Some s -> s <> "".
Proof.
  destruct o as [x|]; simpl; [| discriminate].
  destruct (String.eqb x "") eqn:E; [discriminate |].
  intros H. injection H as <-. apply String.eqb_neq. exact E.
Qed.

Lemma append_nonempty_r (s t : string) : t <> "" -> s +:+ t <> "".
Proof.
  intros Ht. destruct s as [|a s].
  - rewrite append_nil_l. exact Ht.
  - rewrite append_cons. discriminate.
Qed.

Lemma default_url_nonempty (os : OsEnv) : get_default_facilitator_url os <> "".
Proof.
  unfold get_default_facilitator_url.
  destruct (nonempty (getenv os "FACILITATOR_URL")) as [u|] eqn:E1.
  - exact (nonempty_some _ _ E1).
  - destruct (nonempty (getenv os "FRONTEND_URL")) as [f|].
    + apply append_nonempty_r. discriminate.
    + destruct (dockerenv_exists os); discriminate.
Qed.

(** X25: the address of the facilitator. A middleware that is given no
    service builds one whose address is the [facilitator_url] argument
    when that is given and not empty, and otherwise the default, which is
    also the address the endpoints' own [FacilitatorService()] uses:
    [FACILITATOR_URL] if set, else [FRONTEND_URL] followed by
    [/api/facilitator] if set, else the Docker host or localhost on port
    3000. The address is never empty. A service that is passed is kept
    whatever the [facilitator_url] argument says. *)
Theorem facilitator_address (os : OsEnv) (pay_to : string)
    (routes : gmap string RouteConfig) (facilitator_url_arg : option string)
    (skip_paths : option (list string)) :
  let built :=
    facilitator_service
      (X402PaywallMiddleware_new os pay_to routes None facilitator_url_arg skip_paths) in
  facilitator_url built
  = default (facilitator_url (FacilitatorService_init os None None))
      (nonempty facilitator_url_arg) /\
  facilitator_url (FacilitatorService_init os None None) = get_default_facilitator_url os /\
  facilitator_url built <> "" /\
  forall service,
    facilitator_service
      (X402PaywallMiddleware_new os pay_to routes (Some service) facilitator_url_arg skip_paths)
    = service.
Proof.
  cbv zeta. unfold X402PaywallMiddleware_new, X402PaywallMiddleware_init.
  cbn [facilitator_service FacilitatorService_init facilitator_url nonempty].
  unfold middleware_facilitator_url.
  assert (Hdef : forall o : option string,
             match nonempty o with
             | Some url => url
             | None => get_default_facilitator_url os
             end = default (get_default_facilitator_url os) (nonempty o)).
  { intros o. destruct (nonempty o); reflexivity. }
  split; [| split; [reflexivity | split; [| reflexivity]]].
  - destruct (nonempty facilitator_url_arg) as [u|] eqn:E; cbn [default from_option id].
    + pose proof (nonempty_some _ _ E) as Hu.
      destruct (String.eqb u "") eqn:Eu; [apply String.eqb_eq in Eu; contradiction | reflexivity].
    + pose proof (default_url_nonempty os) as Hd.
      destruct (String.eqb (get_default_facilitator_url os) "") eqn:Eu;
        [apply String.eqb_eq in Eu; contradiction | reflexivity].
  - destruct (nonempty facilitator_url_arg) as [u|] eqn:E; cbn [default from_option id].
    + pose proof (nonempty_some _ _ E) as Hu.
      destruct (String.eqb u "") eqn:Eu; [apply String.eqb_eq in Eu; contradiction | exact Hu].
    + pose proof (default_url_nonempty os) as Hd.
      destruct (String.eqb (get_default_facilitator_url os) "") eqn:Eu;
        [apply String.eqb_eq in Eu; contradiction | exact Hd].
Qed.

(** ** Requirements on the wire *)

Ltac optional_key :=
  split;
  [ intros ?H;
    first [ exfalso; cbn in *; intuition discriminate
          | eexists; split; [reflexivity | discriminate]
          | discriminate ]
  | intros ?H;
    first [ cbn; tauto
          | exfalso; congruence
          | exfalso;
            match goal with
            | H : exists _, _ |- _ =>
                let s := fresh in let Hs := fresh in let Hne := fresh in
                destruct H as (s & Hs & Hne); first [discriminate Hs | congruence]
            end ] ].

(** X26: the serialized requirements are an object with the nine
    mandatory keys first, in the order of the source, each key once;
    [outputSchema] is present exactly when the schema is a non-empty
    object and [extra] exactly when the extra data is not empty, so
    there are between nine and eleven keys. *)
Theorem to_dict_keys (r : PaymentRequirements) :
  exists optional,
    keys_of (to_dict r) = mandatory_keys ++ optional /\
    List.NoDup (keys_of (to_dict r)) /\
    (In "outputSchema" optional <->
     exists s, pr_output_schema r = Some s /\ s <> []) /\
    (In "extra" optional <-> pr_extra r <> []) /\
    (forall k, In k optional -> k = "outputSchema" \/ k = "extra").
Proof.
  unfold to_dict, keys_of, mandatory_keys, dict_truthy.
  destruct (pr_output_schema r) as [[|kv s]|]; destruct (pr_extra r) as [|kv' x];
    cbn [List.map fst app default from_option id];
    eexists; (split; [reflexivity |]);
    (split; [repeat (apply List.NoDup_cons; [cbn; intuition discriminate |]);
             apply List.NoDup_nil |]);
    (split; [optional_key |]); (split; [optional_key |]);
    cbn; intros k Hk; intuition.
Qed.

(** ** [extract_transaction_info] *)

(** X27: [extract_transaction_info] looks for the transaction only
    under the entry [payload] of the header and never at the top level,
    where [dispatch] falls back to: a header without that entry is
    refused with [Transaction BCS not found in payment header], whatever
    else it holds. When the entry is an object, the function either
    raises a [ValueError] or returns the transaction it found, which is
    truthy, with the hexadecimal text of its decoded bytes, from which
    the bytes can be read back. *)
Theorem extract_transaction_info_nested (env : Env) (d : dict) :
  (Py.assoc d "payload" = None ->
   extract_transaction_info env (JDict d)
   = Raise (Exn ValueError "Transaction BCS not found in payment header")) /\
  (forall p, Py.assoc d "payload" = Some (JDict p) ->
     match extract_transaction_info env (JDict d) with
     | Raise e => exn_cls e = ValueError
     | Ok info =>
         exists bcs sig bytes,
           info = JDict [("transaction_bcs", bcs); ("signature_bcs", sig);
                         ("transaction_bytes", JStr (PyStr.hex bytes))] /\
           get_either (JDict p) "transaction" "transactionBcsBase64" = Ok bcs /\
           Py.truthy bcs = true /\
           b64decode_value env bcs = Ok bytes /\
           unhex (PyStr.hex bytes) = Some bytes
     end).
Proof.
  unfold extract_transaction_info. split.
  - intros H. rewrite get_dict_default, H. reflexivity.
  - intros p H. rewrite get_dict_default, H. cbn [default from_option id].
    destruct (get_either_dict p "transaction" "transactionBcsBase64") as [bcs Hb].
    destruct (get_either_dict p "signature" "signatureBcsBase64") as [sig Hs].
    rewrite Hb, Hs.
    destruct (Py.truthy bcs) eqn:Ht; cbv beta iota delta [negb]; [| reflexivity].
    destruct (b64decode_value env bcs) as [bytes|e] eqn:Hd; [| reflexivity].
    exists bcs, sig, bytes. repeat split; try assumption; try reflexivity.
    apply unhex_hex.
Qed.
